(** * PlannerFinanceiroPJ: statement import, rule engine and commit

    A shallow embedding of [core/utils.py], [core/regras.py],
    [core/importacao.py] and of [ImportView._confirmar_importacao]
    ([core/import_view.py]), followed by the properties of the import
    pipeline.

    Conventions of the embedding:
    - Python [str] is [string], a text in UTF-8; [upper], [lower] and
      [strip] act on the ASCII fragment, which is what the Python methods
      do on a text made of ASCII characters.
    - Python [float] amounts are finite and modelled as rationals [Q];
      [re.search] raises [re.error] at most; the statement file can be read.
      The module [ComExcecoes] lifts these three restrictions.
    - [None] is [option]'s [None]; a missing dict key read with [.get] is
      [None] as well.
    - A raised exception is the [Erro] case of [resultado].
    - The SQLite file is a record of tables ([db]); a connection is a working
      copy of it, written back by [commit] and discarded otherwise.
    - A new row takes the id one above the highest id of its table; the
      counter that AUTOINCREMENT keeps across deletions (sqlite_sequence)
      is no part of [db].
    - The tables the foreign keys point at (contas, categories,
      centros_custo, usuarios) are no part of [db]: every such key is taken
      to point at an existing row. *)

From Stdlib Require Import List String Ascii ZArith QArith Bool Arith Lia.
From Stdlib Require Import Permutation Sorted.
From Stdlib Require DecimalString.
Import ListNotations.
Open Scope string_scope.

Set Implicit Arguments.

(** ** Exceptions and results *)

Inductive excecao : Type :=
| ValueError (msg : string)
| IndexError
| TypeError
| OverflowError
| RecursionError
| OSError (msg : string)
| CsvError (msg : string)
| ProgrammingError (msg : string)
| IntegrityError (msg : string).

Inductive resultado (A : Type) : Type :=
| Ok (a : A)
| Erro (e : excecao).

Arguments Ok {A} a.
Arguments Erro {A} e.

Definition bind {A B : Type} (r : resultado A) (k : A -> resultado B) : resultado B :=
  match r with
  | Ok a => k a
  | Erro e => Erro e
  end.

Notation "x <- r ;; k" := (bind r (fun x => k))
  (at level 61, r at next level, right associativity).

(** ** Python string operations *)

Module PyStr.

Definition is_space (c : ascii) : bool :=
  let n := nat_of_ascii c in
  ((9 <=? n) && (n <=? 13) || (28 <=? n) && (n <=? 32))%nat.

Definition upper_char (c : ascii) : ascii :=
  let n := nat_of_ascii c in
  if ((97 <=? n) && (n <=? 122))%nat then ascii_of_nat (n - 32) else c.

Definition lower_char (c : ascii) : ascii :=
  let n := nat_of_ascii c in
  if ((65 <=? n) && (n <=? 90))%nat then ascii_of_nat (n + 32) else c.

Fixpoint map_str (f : ascii -> ascii) (s : string) : string :=
  match s with
  | EmptyString => EmptyString
  | String c s' => String (f c) (map_str f s')
  end.

Definition upper : string -> string := map_str upper_char.
Definition lower : string -> string := map_str lower_char.

Fixpoint rev_append (s acc : string) : string :=
  match s with
  | EmptyString => acc
  | String c s' => rev_append s' (String c acc)
  end.

Definition rev (s : string) : string := rev_append s EmptyString.

Fixpoint lstrip (s : string) : string :=
  match s with
  | EmptyString => EmptyString
  | String c s' => if is_space c then lstrip s' else s
  end.

Definition rstrip (s : string) : string := rev (lstrip (rev s)).

(** [s.strip()] *)
Definition strip (s : string) : string := rstrip (lstrip s).

(** [s.startswith(p)] *)
Definition startswith (s p : string) : bool := String.prefix p s.

(** [s.endswith(p)] *)
Definition endswith (s p : string) : bool := String.prefix (rev p) (rev s).

(** [sub in s] *)
Fixpoint contains (sub s : string) : bool :=
  String.prefix sub s ||
  match s with
  | EmptyString => false
  | String _ s' => contains sub s'
  end.

Fixpoint intercalar (novo s : string) : string :=
  match s with
  | EmptyString => novo
  | String c s' => novo ++ String c (intercalar novo s')
  end.

Fixpoint replace_aux (old novo : string) (skip : nat) (s : string) : string :=
  match s with
  | EmptyString => EmptyString
  | String c s' =>
      match skip with
      | S k => replace_aux old novo k s'
      | O =>
          if String.prefix old s
          then novo ++ replace_aux old novo (String.length old - 1) s'
          else String c (replace_aux old novo 0 s')
      end
  end.

(** [s.replace(old, novo)] *)
Definition replace (s old novo : string) : string :=
  match old with
  | EmptyString => intercalar novo s
  | _ => replace_aux old novo 0 s
  end.

(** [s[:n]] *)
Definition ate (n : nat) (s : string) : string := String.substring 0 n s.

(** truth value of a [str] *)
Definition truthy (s : string) : bool := negb (s =? EmptyString).

End PyStr.

(** ** Library functions the code calls

    [re.search], [datetime.strptime]/[strftime] and [float] are taken as an
    interface: the properties below hold for every implementation of it.
    In this interface [re.search] raises [re.error] at most and [float]
    returns a finite number; the other outcomes of the two functions are in
    [re_desfecho] and [pyfloat], used by the module [ComExcecoes]. *)

Inductive re_resultado : Type :=
| ReMatch      (* a match object *)
| ReNone       (* [None] *)
| ReError.     (* [re.error] raised while compiling the pattern *)

Class PyLib : Type := {
  (** [re.search(padrao, valor)] *)
  re_search : string -> string -> re_resultado;
  (** [datetime.strptime(s, fmt).strftime("%Y-%m-%d")], [None] on
      [ValueError] *)
  strptime_iso : string -> string -> option string;
  (** [float(s)], [None] on [ValueError] *)
  py_float : string -> option Q
}.

(** ** core/utils.py *)

Section Utils.
Context `{PyLib}.

Fixpoint tentar_formatos (s : string) (fmts : list string) : option string :=
  match fmts with
  | [] => None
  | fmt :: resto =>
      match strptime_iso s fmt with
      | Some iso => Some iso
      | None => tentar_formatos s resto
      end
  end.

Definition parse_date (date_str : string) : option string :=
  if negb (PyStr.truthy date_str) then None
  else
    let s := PyStr.strip date_str in
    tentar_formatos s ["%Y-%m-%d"; "%d/%m/%Y"; "%d-%m-%Y"; "%Y%m%d"].

Definition br_to_float (value : string) : Q :=
  let s := PyStr.strip value in
  if negb (PyStr.truthy s) then 0%Q
  else
    let s := PyStr.replace (PyStr.replace s "." EmptyString) "," "." in
    match py_float s with
    | Some q => q
    | None => 0%Q
    end.

End Utils.

(** ** core/regras.py *)

(** A row of [regras_auto_categorizacao]. *)
Record regra : Type := {
  r_id : Z;
  r_codigoempresa : string;
  r_campo_alvo : string;
  r_tipo_match : string;
  r_padrao_texto : string;
  r_categoria_id : option Z;
  r_centro_custo_id : option Z;
  r_descricao_sugerida : option string;
  r_forma_pagamento_fixa : option string;
  r_prioridade : option Z;
  r_ativo : Z
}.

(** The 4-tuple returned by [aplicar_regras_auto_categorizacao]. *)
Definition sugestao : Type :=
  (option Z * option Z * option string * option string)%type.

Definition sem_sugestao : sugestao := (None, None, None, None).

Definition saida_da_regra (r : regra) : sugestao :=
  (r_categoria_id r, r_centro_custo_id r,
   r_descricao_sugerida r, r_forma_pagamento_fixa r).

(** [x or s], [s] the empty text *)
Definition ou_vazio (x : option string) : string :=
  match x with
  | Some s => s
  | None => EmptyString
  end.

Definition campo_map (descricao_extrato : string)
    (favorecido_texto forma_pagamento_detectada : option string)
    (campo_alvo : string) : string :=
  if campo_alvo =? "descricao_extrato" then descricao_extrato
  else if campo_alvo =? "favorecido_texto" then ou_vazio favorecido_texto
  else if campo_alvo =? "forma_pagamento" then ou_vazio forma_pagamento_detectada
  else EmptyString.

(** SQL ordering of a nullable INTEGER: NULL sorts below every value. *)
Definition prio_leb (a b : option Z) : bool :=
  match a, b with
  | None, _ => true
  | Some _, None => false
  | Some x, Some y => (x <=? y)%Z
  end.

Fixpoint inserir_desc (r : regra) (l : list regra) : list regra :=
  match l with
  | [] => [r]
  | x :: xs =>
      if prio_leb (r_prioridade x) (r_prioridade r)
      then r :: x :: xs
      else x :: inserir_desc r xs
  end.

(** [ORDER BY prioridade DESC] *)
Definition order_by_prioridade_desc (l : list regra) : list regra :=
  fold_right inserir_desc [] l.

(** [SELECT * FROM regras_auto_categorizacao
     WHERE codigoempresa = ? AND ativo = 1 ORDER BY prioridade DESC] *)
Definition select_regras (tabela : list regra) (codigoempresa : string)
    : list regra :=
  order_by_prioridade_desc
    (filter (fun r => (r_codigoempresa r =? codigoempresa) && (r_ativo r =? 1)%Z)
            tabela).

Section Regras.
Context `{PyLib}.

Definition _match_pattern (valor tipo_match padrao : string) : bool :=
  let valor_norm := PyStr.upper valor in
  let padrao_norm := PyStr.upper padrao in
  if tipo_match =? "contem" then PyStr.contains padrao_norm valor_norm
  else if tipo_match =? "igual" then valor_norm =? padrao_norm
  else if tipo_match =? "prefixo" then PyStr.startswith valor_norm padrao_norm
  else if tipo_match =? "sufixo" then PyStr.endswith valor_norm padrao_norm
  else if tipo_match =? "regex" then
    match re_search padrao valor with
    | ReMatch => true
    | ReNone => false
    | ReError => false
    end
  else false.

(** The [for regra in regras] loop. *)
Fixpoint percorrer_regras (campo : string -> string) (regras : list regra)
    : sugestao :=
  match regras with
  | [] => sem_sugestao
  | r :: resto =>
      let valor_referencia := campo (r_campo_alvo r) in
      if negb (PyStr.truthy valor_referencia) then percorrer_regras campo resto
      else if _match_pattern valor_referencia (r_tipo_match r) (r_padrao_texto r)
      then saida_da_regra r
      else percorrer_regras campo resto
  end.

(** The function on the rule table its fresh connection reads. *)
Definition regras_sobre (tabela : list regra) (codigoempresa : string)
    (descricao_extrato : string)
    (favorecido_texto forma_pagamento_detectada : option string) : sugestao :=
  percorrer_regras
    (campo_map descricao_extrato favorecido_texto forma_pagamento_detectada)
    (select_regras tabela codigoempresa).

End Regras.

(** ** The store *)

(** A value bound to a [?] placeholder or stored in a column. *)
Inductive sqlval : Type :=
| SNull
| SInt (z : Z)
| SReal (q : Q)
| SText (s : string).

(** SQL [=]: three-valued, NULL on either side gives NULL. *)
Definition sql_eq (a b : sqlval) : option bool :=
  match a, b with
  | SNull, _ => None
  | _, SNull => None
  | SInt x, SInt y => Some (x =? y)%Z
  | SInt x, SReal y => Some (Qeq_bool (inject_Z x) y)
  | SReal x, SInt y => Some (Qeq_bool x (inject_Z y))
  | SReal x, SReal y => Some (Qeq_bool x y)
  | SText x, SText y => Some (x =? y)
  | _, _ => Some false
  end.

(** SQL [AND]. *)
Definition sql_and (a b : option bool) : option bool :=
  match a, b with
  | Some false, _ => Some false
  | _, Some false => Some false
  | Some true, Some true => Some true
  | _, _ => None
  end.

(** A [WHERE] clause keeps a row only when it evaluates to true. *)
Definition sql_where (c : option bool) : bool :=
  match c with
  | Some true => true
  | _ => false
  end.

Definition de_texto (x : option string) : sqlval :=
  match x with
  | Some s => SText s
  | None => SNull
  end.

Definition de_inteiro (x : option Z) : sqlval :=
  match x with
  | Some z => SInt z
  | None => SNull
  end.

(** A row of [importacoes_extrato]. *)
Record importacao : Type := {
  imp_id : Z;
  imp_codigoempresa : string;
  imp_conta_id : Z;
  imp_tipo_arquivo : string;
  imp_nome_arquivo : string;
  imp_data_importacao : string;
  imp_total_no_arquivo : Z;
  imp_total_deduplicados : Z;
  imp_total_importados : Z;
  imp_total_desconhecidos_pos_importacao : Z
}.

(** A row of [staging_transacoes_import]. *)
Record staging : Type := {
  st_id : Z;
  st_codigoempresa : string;
  st_importacao_id : Z;
  st_conta_id : Z;
  st_data_lancamento : option string;
  st_descricao_extrato : option string;
  st_favorecido_texto : option string;
  st_valor : Q;
  st_forma_pagamento_detectada : option string;
  st_categoria_sugerida_id : option Z;
  st_centro_custo_sugerido_id : option Z;
  st_origem_sugestao : option string;
  st_status_classificacao : option string;
  st_observacoes : option string
}.

(** A row of [transactions]. *)
Record transacao : Type := {
  t_id : Z;
  t_codigoempresa : sqlval;
  t_conta_id : sqlval;
  t_data_lancamento : sqlval;
  t_data_competencia : sqlval;
  t_descricao_extrato : sqlval;
  t_descricao_tratada : sqlval;
  t_favorecido_id : sqlval;
  t_tipo_movimento : sqlval;
  t_valor : sqlval;
  t_categoria_id : sqlval;
  t_centro_custo_id : sqlval;
  t_forma_pagamento : sqlval;
  t_id_importacao : sqlval;
  t_hash_unico : sqlval;
  t_conciliado : sqlval;
  t_created_at : sqlval;
  t_updated_at : sqlval
}.

Record db : Type := {
  importacoes_extrato : list importacao;
  staging_transacoes_import : list staging;
  transactions : list transacao;
  regras_auto_categorizacao : list regra
}.

(** Every [execute] call of the modelled functions. *)
Inductive instrucao : Type :=
| InsertImportacao
| SelectTransactions
| SelectRegras
| InsertStaging
| UpdateTotaisImportacao
| SelectStaging
| InsertTransactions
| UpdateTotalImportados.

Definition instrucao_eqb (a b : instrucao) : bool :=
  match a, b with
  | InsertImportacao, InsertImportacao => true
  | SelectTransactions, SelectTransactions => true
  | SelectRegras, SelectRegras => true
  | InsertStaging, InsertStaging => true
  | UpdateTotaisImportacao, UpdateTotaisImportacao => true
  | SelectStaging, SelectStaging => true
  | InsertTransactions, InsertTransactions => true
  | UpdateTotalImportados, UpdateTotalImportados => true
  | _, _ => false
  end.

(** The database file, and the statements executed against it so far. *)
Record mundo : Type := {
  disco : db;
  historico : list instrucao
}.

Definition registrar (i : instrucao) (m : mundo) : mundo :=
  {| disco := disco m; historico := historico m ++ [i] |}.

(** [get_connection()]: a connection starts from what is committed. *)
Definition get_connection (m : mundo) : db := disco m.

(** [conn.commit()] *)
Definition commit (m : mundo) (conn : db) : mundo :=
  {| disco := conn; historico := historico m |}.

(** The next rowid of an INTEGER PRIMARY KEY column: one above the
    highest id in the table. *)
Definition proximo_id {A : Type} (id : A -> Z) (tabela : list A) : Z :=
  (fold_right Z.max 0 (map id tabela) + 1)%Z.

(** ** The other connection of [aplicar_regras_auto_categorizacao] *)

Section RegrasConn.
Context `{PyLib}.

Definition aplicar_regras_auto_categorizacao (m : mundo)
    (codigoempresa descricao_extrato : string)
    (favorecido_texto forma_pagamento_detectada : option string)
    : mundo * sugestao :=
  let conn := get_connection m in
  let regras := select_regras (regras_auto_categorizacao conn) codigoempresa in
  let m := registrar SelectRegras m in
  (m, percorrer_regras
        (campo_map descricao_extrato favorecido_texto forma_pagamento_detectada)
        regras).

End RegrasConn.

(** ** core/importacao.py *)

(** What the parsers read from a statement file: [path.suffix],
    [path.name], [read_text(...).splitlines()] for OFX and the rows of
    [csv.reader(f, delimiter=";")] for CSV. *)
Record Arquivo : Type := {
  arq_suffix : string;
  arq_name : string;
  arq_linhas : list string;
  arq_csv : list (list string)
}.

(** A parsed statement line (a dict with the keys ["data"], ["descricao"],
    ["favorecido"], ["valor"]); [None] is a key that is absent or holds
    [None]. *)
Record linha : Type := {
  l_data : option string;
  l_descricao : option string;
  l_favorecido : option string;
  l_valor : option Q
}.

Definition linha_vazia : linha :=
  {| l_data := None; l_descricao := None; l_favorecido := None; l_valor := None |}.

Definition detectar_formato_arquivo (suffix : string) : resultado string :=
  let ext := PyStr.lower suffix in
  if ext =? ".ofx" then Ok "OFX"
  else if ext =? ".csv" then Ok "CSV"
  else if ext =? ".pdf" then Ok "PDF"
  else Erro (ValueError ("Formato de arquivo não suportado: " ++ ext)).

Fixpoint index_of (p : string) (l : list string) : option nat :=
  match l with
  | [] => None
  | x :: xs =>
      if x =? p then Some 0%nat
      else match index_of p xs with
           | Some i => Some (S i)
           | None => None
           end
  end.

(** [row[i]] *)
Definition item (row : list string) (i : nat) : resultado string :=
  match nth_error row i with
  | Some c => Ok c
  | None => Erro IndexError
  end.

(** truth value of an [Optional[str]] and of an [Optional[int]] *)
Definition truthy_texto (x : option string) : bool :=
  match x with
  | Some s => PyStr.truthy s
  | None => false
  end.

Definition truthy_inteiro (x : option Z) : bool :=
  match x with
  | Some z => negb (z =? 0)%Z
  | None => false
  end.

Section Parsers.
Context `{PyLib}.

(** One iteration of the loop of [_parse_ofx] over [(linhas, current)]. *)
Definition ofx_passo (st : list linha * linha) (line : string)
    : list linha * linha :=
  let '(linhas, current) := st in
  let line := PyStr.strip line in
  if PyStr.startswith line "<DTPOSTED>" then
    let raw_date := PyStr.strip (PyStr.replace line "<DTPOSTED>" EmptyString) in
    let data := parse_date (PyStr.ate 8 raw_date) in
    (linhas, {| l_data := data; l_descricao := l_descricao current;
                l_favorecido := l_favorecido current; l_valor := l_valor current |})
  else if PyStr.startswith line "<TRNAMT>" then
    let raw_valor := PyStr.strip (PyStr.replace line "<TRNAMT>" EmptyString) in
    let valor := match py_float (PyStr.replace raw_valor "," ".") with
                 | Some q => q
                 | None => 0%Q
                 end in
    (linhas, {| l_data := l_data current; l_descricao := l_descricao current;
                l_favorecido := l_favorecido current; l_valor := Some valor |})
  else if PyStr.startswith line "<MEMO>" then
    let desc := PyStr.strip (PyStr.replace line "<MEMO>" EmptyString) in
    (linhas, {| l_data := l_data current; l_descricao := Some desc;
                l_favorecido := Some desc; l_valor := l_valor current |})
  else if PyStr.startswith line "<STMTTRN>" then
    (linhas, linha_vazia)
  else if PyStr.startswith line "</STMTTRN>" then
    if truthy_texto (l_data current)
       && match l_valor current with Some _ => true | None => false end
    then ((linhas ++ [current])%list, linha_vazia)
    else (linhas, linha_vazia)
  else (linhas, current).

Definition _parse_ofx (content_lines : list string) : list linha :=
  fst (fold_left ofx_passo content_lines ([], linha_vazia)).

(** The inner function [idx] of [_parse_csv]. *)
Fixpoint idx (h_norm : list string) (possiveis : list string) : option nat :=
  match possiveis with
  | [] => None
  | p :: resto =>
      match index_of p h_norm with
      | Some i => Some i
      | None => idx h_norm resto
      end
  end.

(** The body of [for row in reader]: [None] when the row is skipped. *)
Definition csv_linha (idx_data idx_desc idx_valor : option nat)
    (row : list string) : resultado (option linha) :=
  if match row with [] => true | _ => false end
     || forallb (fun c => negb (PyStr.truthy (PyStr.strip c))) row
  then Ok None
  else
    data <- match idx_data with
            | Some i => c <- item row i ;; Ok (parse_date c)
            | None => Ok None
            end ;;
    descricao <- match idx_desc with
                 | Some i => c <- item row i ;; Ok (PyStr.strip c)
                 | None => Ok EmptyString
                 end ;;
    raw_valor <- match idx_valor with
                 | Some i => item row i
                 | None => Ok "0"
                 end ;;
    let valor := br_to_float raw_valor in
    Ok (Some {| l_data := data; l_descricao := Some descricao;
                l_favorecido := Some descricao; l_valor := Some valor |}).

Fixpoint csv_linhas (idx_data idx_desc idx_valor : option nat)
    (rows : list (list string)) (linhas : list linha)
    : resultado (list linha) :=
  match rows with
  | [] => Ok linhas
  | row :: resto =>
      r <- csv_linha idx_data idx_desc idx_valor row ;;
      csv_linhas idx_data idx_desc idx_valor resto
        (match r with
         | Some l => (linhas ++ [l])%list
         | None => linhas
         end)
  end.

Definition _parse_csv (reader : list (list string)) : resultado (list linha) :=
  match reader with
  | [] => Ok []
  | header :: rows =>
      let h_norm := map (fun h => PyStr.lower (PyStr.strip h)) header in
      let idx_data := idx h_norm ["data"; "dt"; "date"] in
      let idx_desc := idx h_norm ["descricao"; "descrição"; "historico";
                                  "histórico"; "memo"; "description"] in
      let idx_valor := idx h_norm ["valor"; "amount"; "vl"; "debito";
                                   "crédito"; "credito"] in
      csv_linhas idx_data idx_desc idx_valor rows []
  end.

End Parsers.

(** [WHERE codigoempresa = ? AND conta_id = ? AND data_lancamento = ?
     AND valor = ? AND descricao_extrato = ?] over [transactions] *)
Definition where_duplicada (codigoempresa : string) (conta_id : Z)
    (data_str : option string) (valor : Q) (descricao : string)
    (t : transacao) : option bool :=
  sql_and (sql_eq (t_codigoempresa t) (SText codigoempresa))
    (sql_and (sql_eq (t_conta_id t) (SInt conta_id))
       (sql_and (sql_eq (t_data_lancamento t) (de_texto data_str))
          (sql_and (sql_eq (t_valor t) (SReal valor))
             (sql_eq (t_descricao_extrato t) (SText descricao))))).

Definition select_duplicada (conn : db) (codigoempresa : string) (conta_id : Z)
    (data_str : option string) (valor : Q) (descricao : string)
    : list transacao :=
  filter (fun t => sql_where
            (where_duplicada codigoempresa conta_id data_str valor descricao t))
         (transactions conn).

(** [cur.fetchone()] *)
Definition fetchone {A : Type} (rows : list A) : option A := hd_error rows.

Definition com_staging (conn : db) (rows : list staging) : db :=
  {| importacoes_extrato := importacoes_extrato conn;
     staging_transacoes_import := rows;
     transactions := transactions conn;
     regras_auto_categorizacao := regras_auto_categorizacao conn |}.

Definition com_importacoes (conn : db) (rows : list importacao) : db :=
  {| importacoes_extrato := rows;
     staging_transacoes_import := staging_transacoes_import conn;
     transactions := transactions conn;
     regras_auto_categorizacao := regras_auto_categorizacao conn |}.

Definition com_transactions (conn : db) (rows : list transacao) : db :=
  {| importacoes_extrato := importacoes_extrato conn;
     staging_transacoes_import := staging_transacoes_import conn;
     transactions := rows;
     regras_auto_categorizacao := regras_auto_categorizacao conn |}.

(** The [INSERT INTO staging_transacoes_import] of [_gravar_staging]:
    twelve columns, twelve bound values. *)
Definition insert_staging (conn : db) (codigoempresa : string)
    (importacao_id conta_id : Z) (data_str : option string)
    (descricao favorecido_txt : string) (valor : Q) (forma_pag : option string)
    (cat_id cc_id : option Z) (origem_sugestao status : string) : db :=
  com_staging conn
    (staging_transacoes_import conn ++
     [{| st_id := proximo_id st_id (staging_transacoes_import conn);
         st_codigoempresa := codigoempresa;
         st_importacao_id := importacao_id;
         st_conta_id := conta_id;
         st_data_lancamento := data_str;
         st_descricao_extrato := Some descricao;
         st_favorecido_texto := Some favorecido_txt;
         st_valor := valor;
         st_forma_pagamento_detectada := forma_pag;
         st_categoria_sugerida_id := cat_id;
         st_centro_custo_sugerido_id := cc_id;
         st_origem_sugestao := Some origem_sugestao;
         st_status_classificacao := Some status;
         st_observacoes := None |}]).

(** The state of the loop of [_gravar_staging]. *)
Record laco : Type := {
  lc_mundo : mundo;
  lc_conn : db;
  total_deduplicados : Z;
  total_desconhecidos : Z
}.

Section Staging.
Context `{PyLib}.

(** The body of [for linha in linhas].  The value of [make_hash_unique]
    is computed and dropped by the code and plays no part here. *)
Definition gravar_linha (codigoempresa : string) (conta_id importacao_id : Z)
    (st : laco) (l : linha) : laco :=
  let data_str := l_data l in
  let descricao := ou_vazio (l_descricao l) in
  let favorecido_txt := ou_vazio (l_favorecido l) in
  let valor := match l_valor l with Some v => v | None => 0%Q end in
  let forma_pag : option string := None in
  let m := registrar SelectTransactions (lc_mundo st) in
  match fetchone (select_duplicada (lc_conn st) codigoempresa conta_id
                    data_str valor descricao) with
  | Some _ =>
      {| lc_mundo := m; lc_conn := lc_conn st;
         total_deduplicados := total_deduplicados st + 1;
         total_desconhecidos := total_desconhecidos st |}
  | None =>
      let '(m, (cat_id, cc_id, desc_sug, forma_fixada)) :=
        aplicar_regras_auto_categorizacao m codigoempresa descricao
          (Some favorecido_txt) forma_pag in
      let forma_pag := if truthy_texto forma_fixada then forma_fixada
                       else forma_pag in
      let origem_sugestao :=
        if truthy_inteiro cat_id || truthy_inteiro cc_id || truthy_texto desc_sug
        then "regra" else "desconhecido" in
      let desconhecidos :=
        if origem_sugestao =? "desconhecido"
        then (total_desconhecidos st + 1)%Z else total_desconhecidos st in
      let conn :=
        insert_staging (lc_conn st) codigoempresa importacao_id conta_id
          data_str descricao favorecido_txt valor forma_pag cat_id cc_id
          origem_sugestao
          (if origem_sugestao =? "desconhecido" then "desconhecido"
           else "sugerido") in
      {| lc_mundo := registrar InsertStaging m; lc_conn := conn;
         total_deduplicados := total_deduplicados st;
         total_desconhecidos := desconhecidos |}
  end.

Definition _gravar_staging (m : mundo) (conn : db) (codigoempresa : string)
    (conta_id importacao_id : Z) (linhas : list linha) : laco :=
  fold_left (gravar_linha codigoempresa conta_id importacao_id) linhas
    {| lc_mundo := m; lc_conn := conn;
       total_deduplicados := 0; total_desconhecidos := 0 |}.

(** [INSERT INTO importacoes_extrato (codigoempresa, conta_id,
    tipo_arquivo, nome_arquivo, data_importacao)]; the counters take their
    column default 0.  Returns the connection and [cur.lastrowid]. *)
Definition insert_importacao (conn : db) (codigoempresa : string)
    (conta_id : Z) (tipo_arquivo nome_arquivo agora : string) : db * Z :=
  let id := proximo_id imp_id (importacoes_extrato conn) in
  (com_importacoes conn
     (importacoes_extrato conn ++
      [{| imp_id := id;
          imp_codigoempresa := codigoempresa;
          imp_conta_id := conta_id;
          imp_tipo_arquivo := tipo_arquivo;
          imp_nome_arquivo := nome_arquivo;
          imp_data_importacao := agora;
          imp_total_no_arquivo := 0;
          imp_total_deduplicados := 0;
          imp_total_importados := 0;
          imp_total_desconhecidos_pos_importacao := 0 |}]),
   id).

(** [UPDATE importacoes_extrato SET total_no_arquivo = ?,
    total_deduplicados = ?, total_desconhecidos_pos_importacao = ?
    WHERE id = ?] *)
Definition update_totais (conn : db) (no_arquivo dedup desconhecidos id : Z)
    : db :=
  com_importacoes conn
    (map (fun i =>
            if (imp_id i =? id)%Z then
              {| imp_id := imp_id i;
                 imp_codigoempresa := imp_codigoempresa i;
                 imp_conta_id := imp_conta_id i;
                 imp_tipo_arquivo := imp_tipo_arquivo i;
                 imp_nome_arquivo := imp_nome_arquivo i;
                 imp_data_importacao := imp_data_importacao i;
                 imp_total_no_arquivo := no_arquivo;
                 imp_total_deduplicados := dedup;
                 imp_total_importados := imp_total_importados i;
                 imp_total_desconhecidos_pos_importacao := desconhecidos |}
            else i)
         (importacoes_extrato conn)).

(** [agora] is the value of [now_iso()].  The result pairs the world after
    the call with the returned [importacao_id] or the exception raised;
    an exception inside [try] closes the connection uncommitted. *)
Definition importar_arquivo_e_criar_staging (m : mundo)
    (codigoempresa : string) (conta_id : Z) (usuario_id : option Z)
    (arquivo : Arquivo) (agora : string) : mundo * resultado Z :=
  match detectar_formato_arquivo (arq_suffix arquivo) with
  | Erro e => (m, Erro e)
  | Ok tipo_arquivo =>
      let conn := get_connection m in
      let '(conn, importacao_id) :=
        insert_importacao conn codigoempresa conta_id tipo_arquivo
          (arq_name arquivo) agora in
      let m := registrar InsertImportacao m in
      let parsed :=
        if tipo_arquivo =? "OFX" then Ok (_parse_ofx (arq_linhas arquivo))
        else if tipo_arquivo =? "CSV" then _parse_csv (arq_csv arquivo)
        else Ok [] in
      match parsed with
      | Erro e => (m, Erro e)
      | Ok linhas =>
          let total_no_arquivo := Z.of_nat (List.length linhas) in
          let st := _gravar_staging m conn codigoempresa conta_id
                      importacao_id linhas in
          let conn := update_totais (lc_conn st) total_no_arquivo
                        (total_deduplicados st) (total_desconhecidos st)
                        importacao_id in
          let m := registrar UpdateTotaisImportacao (lc_mundo st) in
          (commit m conn, Ok importacao_id)
      end
  end.

End Staging.

(** ** core/import_view.py: [ImportView._confirmar_importacao] *)

(** [valor > 0] *)
Definition maior_que_zero (valor : Q) : bool := negb (Qle_bool valor 0).

(** [SELECT * FROM staging_transacoes_import
     WHERE codigoempresa = ? AND importacao_id = ?] *)
Definition select_staging (conn : db) (codigoempresa : string)
    (importacao_id : Z) : list staging :=
  filter (fun s => (st_codigoempresa s =? codigoempresa)
                   && (st_importacao_id s =? importacao_id)%Z)
         (staging_transacoes_import conn).

Definition e_nulo (v : sqlval) : bool :=
  match v with
  | SNull => true
  | _ => false
  end.

(** The [INSERT INTO transactions] of the confirmation: the statement
    names twelve columns and has twelve [?] placeholders (then two
    [datetime('now')]); sqlite3 raises [ProgrammingError] when the number
    of bound values differs. *)
Definition insert_transactions (conn : db) (agora : string)
    (params : list sqlval) : resultado db :=
  match params with
  | [codigoempresa; conta_id; data_lancamento; data_competencia;
     descricao_extrato; descricao_tratada; tipo_movimento; valor;
     categoria_id; centro_custo_id; forma_pagamento; id_importacao] =>
      if e_nulo codigoempresa || e_nulo conta_id || e_nulo data_lancamento
         || e_nulo tipo_movimento || e_nulo valor
      then Erro (IntegrityError "NOT NULL constraint failed")
      else
        Ok (com_transactions conn
              (transactions conn ++
               [{| t_id := proximo_id t_id (transactions conn);
                   t_codigoempresa := codigoempresa;
                   t_conta_id := conta_id;
                   t_data_lancamento := data_lancamento;
                   t_data_competencia := data_competencia;
                   t_descricao_extrato := descricao_extrato;
                   t_descricao_tratada := descricao_tratada;
                   t_favorecido_id := SNull;
                   t_tipo_movimento := tipo_movimento;
                   t_valor := valor;
                   t_categoria_id := categoria_id;
                   t_centro_custo_id := centro_custo_id;
                   t_forma_pagamento := forma_pagamento;
                   t_id_importacao := id_importacao;
                   t_hash_unico := SNull;
                   t_conciliado := SInt 0;
                   t_created_at := SText agora;
                   t_updated_at := SText agora |}]))
  | _ => Erro (ProgrammingError "Incorrect number of bindings supplied")
  end.

(** The columns named by that statement, in order. *)
Definition colunas_insert_transactions : list string :=
  ["codigoempresa"; "conta_id"; "data_lancamento"; "data_competencia";
   "descricao_extrato"; "descricao_tratada"; "tipo_movimento"; "valor";
   "categoria_id"; "centro_custo_id"; "forma_pagamento"; "id_importacao"].

(** The tuple of values the confirmation binds for one staging row. *)
Definition params_transacao (codigoempresa : string) (importacao_id : Z)
    (row : staging) : list sqlval :=
  let data := st_data_lancamento row in
  let descricao := st_descricao_extrato row in
  let valor := st_valor row in
  let conta_id := st_conta_id row in
  [ SText codigoempresa;
    SInt conta_id;
    de_texto data;
    de_texto data;
    de_texto descricao;
    de_texto descricao;
    SText (if maior_que_zero valor then "credito" else "debito");
    de_inteiro (st_categoria_sugerida_id row);
    de_inteiro (st_centro_custo_sugerido_id row);
    de_texto (st_forma_pagamento_detectada row);
    SInt importacao_id ].

(** The [for row in rows] loop: the first exception ends it. *)
Fixpoint confirmar_linhas (codigoempresa : string) (importacao_id : Z)
    (agora : string) (rows : list staging) (m : mundo) (conn : db)
    (total_importados : Z) : mundo * resultado (db * Z) :=
  match rows with
  | [] => (m, Ok (conn, total_importados))
  | row :: resto =>
      let m := registrar InsertTransactions m in
      match insert_transactions conn agora
              (params_transacao codigoempresa importacao_id row) with
      | Erro e => (m, Erro e)
      | Ok conn =>
          confirmar_linhas codigoempresa importacao_id agora resto m conn
            (total_importados + 1)
      end
  end.

(** [UPDATE importacoes_extrato SET total_importados = ? WHERE id = ?] *)
Definition update_total_importados (conn : db) (total id : Z) : db :=
  com_importacoes conn
    (map (fun i =>
            if (imp_id i =? id)%Z then
              {| imp_id := imp_id i;
                 imp_codigoempresa := imp_codigoempresa i;
                 imp_conta_id := imp_conta_id i;
                 imp_tipo_arquivo := imp_tipo_arquivo i;
                 imp_nome_arquivo := imp_nome_arquivo i;
                 imp_data_importacao := imp_data_importacao i;
                 imp_total_no_arquivo := imp_total_no_arquivo i;
                 imp_total_deduplicados := imp_total_deduplicados i;
                 imp_total_importados := total;
                 imp_total_desconhecidos_pos_importacao :=
                   imp_total_desconhecidos_pos_importacao i |}
            else i)
         (importacoes_extrato conn)).

(** How the handler ends when nothing is raised. *)
Inductive desfecho : Type :=
| NenhumaImportacaoCarregada   (* the warning box, nothing done *)
| NaoConfirmado                (* the user answered No *)
| ImportacaoConfirmada.        (* the information box after the commit *)

(** [self_importacao_id] is [self.importacao_id], [resp_yes] the answer to
    the question box and [agora] the value of [datetime('now')]. *)
Definition _confirmar_importacao (m : mundo) (codigoempresa : string)
    (self_importacao_id : option Z) (resp_yes : bool) (agora : string)
    : mundo * resultado desfecho :=
  match self_importacao_id with
  | None => (m, Ok NenhumaImportacaoCarregada)
  | Some importacao_id =>
      if (importacao_id =? 0)%Z then (m, Ok NenhumaImportacaoCarregada)
      else if negb resp_yes then (m, Ok NaoConfirmado)
      else
        let conn := get_connection m in
        let rows := select_staging conn codigoempresa importacao_id in
        let m := registrar SelectStaging m in
        match confirmar_linhas codigoempresa importacao_id agora rows m conn 0
        with
        | (m, Erro e) => (m, Erro e)
        | (m, Ok (conn, total_importados)) =>
            let conn := update_total_importados conn total_importados
                          importacao_id in
            let m := registrar UpdateTotalImportados m in
            (commit m conn, Ok ImportacaoConfirmada)
        end
  end.

(** ** A small implementation of the library interface

    Enough of [re.search], [strptime] and [float] to run the model on
    concrete statements: a pattern is a literal text, except that patterns
    starting with an opening parenthesis fail to compile; dates are accepted
    in the forms dd/mm/yyyy and yyyymmdd; numbers are decimal digits with an optional sign
    and fraction. *)

Module Exemplo.

Definition digito (c : ascii) : option Z :=
  let n := nat_of_ascii c in
  if ((48 <=? n) && (n <=? 57))%nat then Some (Z.of_nat (n - 48)) else None.

(** digits to [(value, number of digits)] *)
Fixpoint digitos (s : string) (acc : Z) (n : nat) : option (Z * nat) :=
  match s with
  | EmptyString => Some (acc, n)
  | String c s' =>
      match digito c with
      | Some d => digitos s' (acc * 10 + d) (S n)
      | None => None
      end
  end.

Fixpoint separar (sep : ascii) (s : string) : string * option string :=
  match s with
  | EmptyString => (EmptyString, None)
  | String c s' =>
      if Ascii.eqb c sep then (EmptyString, Some s')
      else let '(a, b) := separar sep s' in (String c a, b)
  end.

Definition sem_sinal (s : string) : option Q :=
  let '(int_part, frac) := separar "." s in
  match int_part with
  | EmptyString => None
  | _ =>
      match digitos int_part 0 0 with
      | None => None
      | Some (i, _) =>
          match frac with
          | None => Some (inject_Z i)
          | Some f =>
              match digitos f 0 0 with
              | None => None
              | Some (fv, k) =>
                  Some (Qred (inject_Z i
                              + Qmake fv (Pos.of_nat (Nat.pow 10 k))))
              end
          end
      end
  end.

Definition float (s : string) : option Q :=
  match s with
  | String "-" s' => option_map Qopp (sem_sinal s')
  | String "+" s' => sem_sinal s'
  | _ => sem_sinal s
  end.

Definition strptime (s fmt : string) : option string :=
  if fmt =? "%d/%m/%Y" then
    if (String.length s =? 10)%nat
       && (String.substring 2 1 s =? "/") && (String.substring 5 1 s =? "/")
       && match digitos (String.substring 0 2 s ++ String.substring 3 2 s
                         ++ String.substring 6 4 s) 0 0 with
          | Some _ => true
          | None => false
          end
    then Some (String.substring 6 4 s ++ "-" ++ String.substring 3 2 s
               ++ "-" ++ String.substring 0 2 s)
    else None
  else if fmt =? "%Y%m%d" then
    if (String.length s =? 8)%nat
       && match digitos s 0 0 with
          | Some _ => true
          | None => false
          end
    then Some (String.substring 0 4 s ++ "-" ++ String.substring 4 2 s
               ++ "-" ++ String.substring 6 2 s)
    else None
  else None.

Definition search (padrao valor : string) : re_resultado :=
  if PyStr.startswith padrao "(" then ReError
  else if PyStr.contains padrao valor then ReMatch
  else ReNone.

#[export] Instance lib : PyLib :=
  {| re_search := search; strptime_iso := strptime; py_float := float |}.

End Exemplo.

(** ** Notions used to state the properties *)

(** Strict order on priorities, NULL below every value. *)
Definition prio_lt (a b : option Z) : Prop := prio_leb b a = false.

(** The scan visits [a] no later than [b]. *)
Definition antes_de (a b : regra) : Prop :=
  prio_leb (r_prioridade b) (r_prioridade a) = true.

(** The rule is tenant [codigoempresa]'s and active. *)
Definition regra_ativa (codigoempresa : string) (r : regra) : Prop :=
  r_codigoempresa r = codigoempresa /\ r_ativo r = 1%Z.

Definition regra_eq_dec : forall a b : regra, {a = b} + {a <> b}.
Proof.
  repeat decide equality.
Defined.

Definition valor_da_linha (l : linha) : Q :=
  match l_valor l with
  | Some v => v
  | None => 0%Q
  end.

(** The ledger lookup of [_gravar_staging] finds a row for the line. *)
Definition duplicada (conn : db) (codigoempresa : string) (conta_id : Z)
    (l : linha) : bool :=
  match fetchone (select_duplicada conn codigoempresa conta_id (l_data l)
                    (valor_da_linha l) (ou_vazio (l_descricao l))) with
  | Some _ => true
  | None => false
  end.

(** A ledger row agrees with the line on the five compared columns. *)
Definition mesma_no_ledger (codigoempresa : string) (conta_id : Z) (l : linha)
    (t : transacao) : Prop :=
  sql_eq (t_codigoempresa t) (SText codigoempresa) = Some true /\
  sql_eq (t_conta_id t) (SInt conta_id) = Some true /\
  sql_eq (t_data_lancamento t) (de_texto (l_data l)) = Some true /\
  sql_eq (t_valor t) (SReal (valor_da_linha l)) = Some true /\
  sql_eq (t_descricao_extrato t) (SText (ou_vazio (l_descricao l))) = Some true.

(** No category, cost centre or suggested description in a rule result
    (Python truth: [None], id 0 and the empty text count as none). *)
Definition desconhecida (s : sugestao) : bool :=
  let '(cat_id, cc_id, desc_sug, _) := s in
  negb (truthy_inteiro cat_id || truthy_inteiro cc_id || truthy_texto desc_sug).

Definition consultas_de_regras (h : list instrucao) : nat :=
  List.length (filter (instrucao_eqb SelectRegras) h).

(** The rule set is read at most once in the statements [h]. *)
Definition regras_lidas_uma_vez (h : list instrucao) : Prop :=
  (consultas_de_regras h <= 1)%nat.

Section Nocoes.
Context `{PyLib}.

(** The rule is not skipped and its pattern matches. *)
Definition regra_casa (campo : string -> string) (r : regra) : bool :=
  PyStr.truthy (campo (r_campo_alvo r))
  && _match_pattern (campo (r_campo_alvo r)) (r_tipo_match r)
       (r_padrao_texto r).

(** What the rules in [tabela] say about a line. *)
Definition sugestao_da_linha (tabela : list regra) (codigoempresa : string)
    (l : linha) : sugestao :=
  regras_sobre tabela codigoempresa (ou_vazio (l_descricao l))
    (Some (ou_vazio (l_favorecido l))) None.

(** The staging row of a line, under rowid [id]. *)
Definition linha_em_staging (tabela : list regra) (codigoempresa : string)
    (conta_id importacao_id id : Z) (l : linha) : staging :=
  let sug := sugestao_da_linha tabela codigoempresa l in
  let '(cat_id, cc_id, _, forma_fixada) := sug in
  {| st_id := id;
     st_codigoempresa := codigoempresa;
     st_importacao_id := importacao_id;
     st_conta_id := conta_id;
     st_data_lancamento := l_data l;
     st_descricao_extrato := Some (ou_vazio (l_descricao l));
     st_favorecido_texto := Some (ou_vazio (l_favorecido l));
     st_valor := valor_da_linha l;
     st_forma_pagamento_detectada :=
       if truthy_texto forma_fixada then forma_fixada else None;
     st_categoria_sugerida_id := cat_id;
     st_centro_custo_sugerido_id := cc_id;
     st_origem_sugestao :=
       Some (if desconhecida sug then "desconhecido" else "regra");
     st_status_classificacao :=
       Some (if desconhecida sug then "desconhecido" else "sugerido");
     st_observacoes := None |}.

(** The row was staged from the line. *)
Definition vem_de (tabela : list regra) (codigoempresa : string)
    (conta_id importacao_id : Z) (l : linha) (s : staging) : Prop :=
  s = linha_em_staging tabela codigoempresa conta_id importacao_id (st_id s) l.

(** No rule in [tabela] gives the staged row a category, cost centre or
    suggested description. *)
Definition sem_sugestao_de_regra (tabela : list regra) (s : staging) : bool :=
  desconhecida
    (regras_sobre tabela (st_codigoempresa s)
       (ou_vazio (st_descricao_extrato s)) (st_favorecido_texto s) None).

End Nocoes.

(** ** Sample data *)

Module Casos.

Definition regra_pix_5 : regra :=
  {| r_id := 1; r_codigoempresa := "E1";
     r_campo_alvo := "descricao_extrato"; r_tipo_match := "prefixo";
     r_padrao_texto := "pix rec";
     r_categoria_id := Some 3%Z; r_centro_custo_id := Some 4%Z;
     r_descricao_sugerida := None; r_forma_pagamento_fixa := None;
     r_prioridade := Some 5%Z; r_ativo := 1 |}.

Definition regra_pix_10 : regra :=
  {| r_id := 2; r_codigoempresa := "E1";
     r_campo_alvo := "descricao_extrato"; r_tipo_match := "contem";
     r_padrao_texto := "Pix";
     r_categoria_id := Some 7%Z; r_centro_custo_id := None;
     r_descricao_sugerida := Some "Recebimento Pix";
     r_forma_pagamento_fixa := Some "PIX";
     r_prioridade := Some 10%Z; r_ativo := 1 |}.

Definition regra_regex_ruim : regra :=
  {| r_id := 3; r_codigoempresa := "E1";
     r_campo_alvo := "descricao_extrato"; r_tipo_match := "regex";
     r_padrao_texto := "(";
     r_categoria_id := Some 9%Z; r_centro_custo_id := None;
     r_descricao_sugerida := None; r_forma_pagamento_fixa := None;
     r_prioridade := Some 20%Z; r_ativo := 1 |}.

Definition regra_favorecido_vazio : regra :=
  {| r_id := 4; r_codigoempresa := "E1";
     r_campo_alvo := "favorecido_texto"; r_tipo_match := "contem";
     r_padrao_texto := EmptyString;
     r_categoria_id := Some 8%Z; r_centro_custo_id := None;
     r_descricao_sugerida := None; r_forma_pagamento_fixa := None;
     r_prioridade := Some 30%Z; r_ativo := 1 |}.

Definition banco (regras : list regra) (ledger : list transacao) : mundo :=
  {| disco := {| importacoes_extrato := [];
                 staging_transacoes_import := [];
                 transactions := ledger;
                 regras_auto_categorizacao := regras |};
     historico := [] |}.

(** A ledger row for a Pix of 100.00 in account 1 of tenant E1. *)
Definition transacao_pix (data : sqlval) : transacao :=
  {| t_id := 1;
     t_codigoempresa := SText "E1";
     t_conta_id := SInt 1;
     t_data_lancamento := data;
     t_data_competencia := data;
     t_descricao_extrato := SText "Pix recebido";
     t_descricao_tratada := SText "Pix recebido";
     t_favorecido_id := SNull;
     t_tipo_movimento := SText "credito";
     t_valor := SReal 100;
     t_categoria_id := SNull;
     t_centro_custo_id := SNull;
     t_forma_pagamento := SNull;
     t_id_importacao := SNull;
     t_hash_unico := SNull;
     t_conciliado := SInt 0;
     t_created_at := SText "2024-03-06 10:00:00";
     t_updated_at := SText "2024-03-06 10:00:00" |}.

Definition extrato_csv (rows : list (list string)) : Arquivo :=
  {| arq_suffix := ".csv";
     arq_name := "extrato.csv";
     arq_linhas := [];
     arq_csv := ["Data"; "Descrição"; "Valor"] :: rows |}.

Definition linha_pix : linha :=
  {| l_data := Some "2024-03-05"; l_descricao := Some "Pix recebido";
     l_favorecido := Some "Pix recebido"; l_valor := Some 100%Q |}.

Definition linha_sem_data : linha :=
  {| l_data := None; l_descricao := Some "Pix recebido";
     l_favorecido := Some "Pix recebido"; l_valor := Some 100%Q |}.

(** Ten lines: three already in the ledger, five the Pix rule
    classifies, two no rule knows. *)
Definition dez_linhas : list (list string) :=
  [ ["05/03/2024"; "Pix recebido"; "100,00"];
    ["06/03/2024"; "Pix loja"; "250,00"];
    ["06/03/2024"; "Tarifa bancaria"; "-12,90"];
    ["05/03/2024"; "Pix recebido"; "100,00"];
    ["07/03/2024"; "Pix enviado"; "-80,00"];
    ["07/03/2024"; "Pix enviado"; "-35,50"];
    ["08/03/2024"; "Juros"; "-1,15"];
    ["05/03/2024"; "Pix recebido"; "100,00"];
    ["09/03/2024"; "Pix loja"; "1.300,00"];
    ["09/03/2024"; "Pix loja"; "42,00"] ].

Definition banco_com_pix : mundo :=
  banco [regra_pix_5; regra_pix_10] [transacao_pix (SText "2024-03-05")].

(** A staging row of batch 1 with the given amount. *)
Definition staging_de_valor (id : Z) (valor : Q) : staging :=
  {| st_id := id;
     st_codigoempresa := "E1";
     st_importacao_id := 1;
     st_conta_id := 1;
     st_data_lancamento := Some "2024-03-06";
     st_descricao_extrato := Some "Pix loja";
     st_favorecido_texto := Some "Pix loja";
     st_valor := valor;
     st_forma_pagamento_detectada := None;
     st_categoria_sugerida_id := None;
     st_centro_custo_sugerido_id := None;
     st_origem_sugestao := Some "desconhecido";
     st_status_classificacao := Some "desconhecido";
     st_observacoes := None |}.

(** Batch 1 of tenant E1, staged with one row and not yet confirmed. *)
Definition banco_um_em_staging : mundo :=
  {| disco :=
       {| importacoes_extrato :=
            [{| imp_id := 1;
                imp_codigoempresa := "E1";
                imp_conta_id := 1;
                imp_tipo_arquivo := "CSV";
                imp_nome_arquivo := "extrato.csv";
                imp_data_importacao := "2024-03-10 09:00:00";
                imp_total_no_arquivo := 1;
                imp_total_deduplicados := 0;
                imp_total_importados := 0;
                imp_total_desconhecidos_pos_importacao := 1 |}];
          staging_transacoes_import := [staging_de_valor 1 250];
          transactions := [];
          regras_auto_categorizacao := [] |};
     historico := [] |}.

(** A regex rule whose pattern has an unbalanced parenthesis and a
    repetition count beyond the limit of [re]. *)
Definition regra_regex_estouro : regra :=
  {| r_id := 5; r_codigoempresa := "E1";
     r_campo_alvo := "descricao_extrato"; r_tipo_match := "regex";
     r_padrao_texto := "(a{99999999999}";
     r_categoria_id := Some 9%Z; r_centro_custo_id := None;
     r_descricao_sugerida := None; r_forma_pagamento_fixa := None;
     r_prioridade := Some 20%Z; r_ativo := 1 |}.


End Casos.

(** * More of the code *)

(** ** core/utils.py: [make_hash_unique] *)

Section Hash.
(** [hashlib.sha256(b).hexdigest()] *)
Variable sha256_hexdigest : string -> string.

(** [parts] holds the values of [str(p)]. *)
Definition make_hash_unique (parts : list string) : string :=
  let joined := String.concat "|" parts in
  sha256_hexdigest joined.

End Hash.

(** ** core/importacao.py: the blank-row test of [_parse_csv] *)

(** [not row or all(not c.strip() for c in row)] *)
Definition linha_em_branco (row : list string) : bool :=
  match row with [] => true | _ => false end
  || forallb (fun c => negb (PyStr.truthy (PyStr.strip c))) row.

(** ** core/logs.py *)

(** A row of [logs_atividade]. *)
Record log_atividade_row : Type := {
  log_id : Z;
  log_codigoempresa : string;
  log_usuario_id : option Z;
  log_data_hora : string;
  log_acao : string;
  log_detalhes : string;
  log_origem_modulo : string
}.

(** [logs] is the table [logs_atividade] of the database file and [agora]
    the value of [now_iso()]; the insert is committed. *)
Definition log_atividade (logs : list log_atividade_row)
    (codigoempresa acao detalhes origem_modulo : string)
    (usuario_id : option Z) (agora : string) : list log_atividade_row :=
  (logs ++
   [{| log_id := proximo_id log_id logs;
       log_codigoempresa := codigoempresa;
       log_usuario_id := usuario_id;
       log_data_hora := agora;
       log_acao := acao;
       log_detalhes := detalhes;
       log_origem_modulo := origem_modulo |}])%list.

(** ** core/ia_client.py *)

(** An item sent to the classifier (a dict); [None] is a key that is
    absent or holds [None]. *)
Record item_ia : Type := {
  id_staging : Z;
  it_descricao_extrato : option string;
  it_favorecido_texto : option string;
  it_valor : option Q
}.

Record sugestao_ia : Type := {
  categoria_nome : string;
  descricao_tratada : string;
  centro_custo_nome : option string
}.

(** A Python dict with integer keys, in insertion order. *)
Fixpoint dict_set {V : Type} (k : Z) (v : V) (d : list (Z * V)) : list (Z * V) :=
  match d with
  | [] => [(k, v)]
  | (k', v') :: resto =>
      if (k' =? k)%Z then (k, v) :: resto else (k', v') :: dict_set k v resto
  end.

Fixpoint dict_get {V : Type} (k : Z) (d : list (Z * V)) : option V :=
  match d with
  | [] => None
  | (k', v') :: resto => if (k' =? k)%Z then Some v' else dict_get k resto
  end.

(** [d.keys()] *)
Definition dict_keys {V : Type} (d : list (Z * V)) : list Z := map fst d.

(** [str(n)] of a length *)
Definition str_nat (n : nat) : string :=
  DecimalString.NilZero.string_of_uint (Nat.to_uint n).

(** The body of [for item in itens]. *)
Definition classificar_item (item : item_ia) : sugestao_ia :=
  let valor := match it_valor item with Some v => v | None => 0%Q end in
  let sugestao_categoria :=
    if maior_que_zero valor then "Receita não classificada"
    else "Despesa não classificada" in
  let limpa := PyStr.strip (ou_vazio (it_descricao_extrato item)) in
  let descricao_tratada :=
    if PyStr.truthy limpa then limpa else "Lançamento sem descrição" in
  {| categoria_nome := sugestao_categoria;
     descricao_tratada := descricao_tratada;
     centro_custo_nome := None |}.

Definition classificar_transacoes_em_lote (logs : list log_atividade_row)
    (codigoempresa : string) (itens : list item_ia) (agora : string)
    : list log_atividade_row * list (Z * sugestao_ia) :=
  let resultados :=
    fold_left (fun res item => dict_set (id_staging item) (classificar_item item) res)
      itens [] in
  let logs :=
    match itens with
    | [] => logs
    | _ =>
        log_atividade logs codigoempresa "ia_classificacao_lote_stub"
          (str_nat (List.length itens)
           ++ " transações enviadas para IA (stub)")
          "ia_client" None agora
    end in
  (logs, resultados).

(** ** core/import_view.py: [ImportView._usar_ia] *)

(** SQL [OR]. *)
Definition sql_or (a b : option bool) : option bool :=
  match a, b with
  | Some true, _ => Some true
  | _, Some true => Some true
  | Some false, Some false => Some false
  | _, _ => None
  end.

(** [WHERE codigoempresa = ? AND importacao_id = ?
     AND (status_classificacao = 'desconhecido'
          OR categoria_sugerida_id IS NULL)] *)
Definition where_desconhecidos (codigoempresa : string) (importacao_id : Z)
    (s : staging) : option bool :=
  sql_and (sql_eq (SText (st_codigoempresa s)) (SText codigoempresa))
    (sql_and (sql_eq (SInt (st_importacao_id s)) (SInt importacao_id))
       (sql_or (sql_eq (de_texto (st_status_classificacao s))
                  (SText "desconhecido"))
          (Some (e_nulo (de_inteiro (st_categoria_sugerida_id s)))))).

(** That query with its [LIMIT 50], rows in table order. *)
Definition select_desconhecidos (conn : db) (codigoempresa : string)
    (importacao_id : Z) : list staging :=
  firstn 50
    (filter (fun s => sql_where (where_desconhecidos codigoempresa importacao_id s))
            (staging_transacoes_import conn)).

Definition item_de_staging (row : staging) : item_ia :=
  {| id_staging := st_id row;
     it_descricao_extrato := st_descricao_extrato row;
     it_favorecido_texto := st_favorecido_texto row;
     it_valor := Some (st_valor row) |}.

(** [UPDATE staging_transacoes_import
     SET origem_sugestao = 'ia', status_classificacao = 'sugerido'
     WHERE id = ?] *)
Definition update_origem_ia (conn : db) (item_id : Z) : db :=
  com_staging conn
    (map (fun s =>
            if (st_id s =? item_id)%Z then
              {| st_id := st_id s;
                 st_codigoempresa := st_codigoempresa s;
                 st_importacao_id := st_importacao_id s;
                 st_conta_id := st_conta_id s;
                 st_data_lancamento := st_data_lancamento s;
                 st_descricao_extrato := st_descricao_extrato s;
                 st_favorecido_texto := st_favorecido_texto s;
                 st_valor := st_valor s;
                 st_forma_pagamento_detectada := st_forma_pagamento_detectada s;
                 st_categoria_sugerida_id := st_categoria_sugerida_id s;
                 st_centro_custo_sugerido_id := st_centro_custo_sugerido_id s;
                 st_origem_sugestao := Some "ia";
                 st_status_classificacao := Some "sugerido";
                 st_observacoes := st_observacoes s |}
            else s)
         (staging_transacoes_import conn)).

(** How the handler ends. *)
Inductive desfecho_ia : Type :=
| IaNenhumaImportacaoCarregada   (* the warning box *)
| IaNadaParaEnviar               (* no unknown rows: the information box *)
| IaNaoAplicado                  (* the review dialog was dismissed *)
| IaAplicado.                    (* Aplicar: the rows were updated *)

(** [logs] is the table [logs_atividade], [aceito] tells whether the
    review dialog ends with Aplicar, [agora] is the value of [now_iso()].
    The history of [mundo] keeps recording the statements of the import and
    of the confirmation only. *)
Definition _usar_ia (m : mundo) (logs : list log_atividade_row)
    (codigoempresa : string) (self_importacao_id : option Z) (aceito : bool)
    (agora : string) : mundo * list log_atividade_row * desfecho_ia :=
  match self_importacao_id with
  | None => (m, logs, IaNenhumaImportacaoCarregada)
  | Some importacao_id =>
      if (importacao_id =? 0)%Z then (m, logs, IaNenhumaImportacaoCarregada)
      else
        let conn := get_connection m in
        let rows := select_desconhecidos conn codigoempresa importacao_id in
        let itens := map item_de_staging rows in
        match itens with
        | [] => (m, logs, IaNadaParaEnviar)
        | _ =>
            let '(logs, sugestoes) :=
              classificar_transacoes_em_lote logs codigoempresa itens agora in
            if aceito then
              let conn2 := get_connection m in
              let conn2 := fold_left update_origem_ia (dict_keys sugestoes) conn2 in
              (commit m conn2, logs, IaAplicado)
            else (m, logs, IaNaoAplicado)
        end
  end.

(** ** core/models.py: the ledger functions of the transactions screen *)

(** The [INSERT INTO transactions] of [criar_transacao]: eleven columns
    with eleven placeholders, then conciliado 0 and two [DATETIME('now')]. *)
Definition insert_transactions_manual (conn : db) (agora : string)
    (params : list sqlval) : resultado db :=
  match params with
  | [codigoempresa; conta_id; data_lancamento; data_competencia;
     descricao_extrato; descricao_tratada; categoria_id; centro_custo_id;
     valor; tipo_movimento; forma_pagamento] =>
      if e_nulo codigoempresa || e_nulo conta_id || e_nulo data_lancamento
         || e_nulo tipo_movimento || e_nulo valor
      then Erro (IntegrityError "NOT NULL constraint failed")
      else
        Ok (com_transactions conn
              (transactions conn ++
               [{| t_id := proximo_id t_id (transactions conn);
                   t_codigoempresa := codigoempresa;
                   t_conta_id := conta_id;
                   t_data_lancamento := data_lancamento;
                   t_data_competencia := data_competencia;
                   t_descricao_extrato := descricao_extrato;
                   t_descricao_tratada := descricao_tratada;
                   t_favorecido_id := SNull;
                   t_tipo_movimento := tipo_movimento;
                   t_valor := valor;
                   t_categoria_id := categoria_id;
                   t_centro_custo_id := centro_custo_id;
                   t_forma_pagamento := forma_pagamento;
                   t_id_importacao := SNull;
                   t_hash_unico := SNull;
                   t_conciliado := SInt 0;
                   t_created_at := SText agora;
                   t_updated_at := SText agora |}])%list)
  | _ => Erro (ProgrammingError "Incorrect number of bindings supplied")
  end.

Definition de_real (x : option Q) : sqlval :=
  match x with
  | Some q => SReal q
  | None => SNull
  end.

(** [agora] is the value of [DATETIME('now')]. *)
Definition criar_transacao (m : mundo) (codigoempresa : string) (conta_id : Z)
    (data_lancamento descricao_extrato : string)
    (descricao_tratada : option string) (valor : option Q)
    (categoria_id centro_custo_id : option Z) (forma_pagamento : option string)
    (agora : string) : mundo * resultado unit :=
  let conn := get_connection m in
  let tipo_movimento : option string :=
    match valor with
    | Some v => Some (if maior_que_zero v then "credito" else "debito")
    | None => None
    end in
  match insert_transactions_manual conn agora
          [ SText codigoempresa;
            SInt conta_id;
            SText data_lancamento;
            SText data_lancamento;
            SText descricao_extrato;
            de_texto descricao_tratada;
            de_inteiro categoria_id;
            de_inteiro centro_custo_id;
            de_real valor;
            de_texto tipo_movimento;
            de_texto forma_pagamento ] with
  | Erro e => (m, Erro e)
  | Ok conn => (commit m conn, Ok tt)
  end.

(** [DELETE FROM transactions WHERE id = ?] and commit. *)
Definition excluir_transacao (m : mundo) (transacao_id : Z) : mundo :=
  let conn := get_connection m in
  commit m
    (com_transactions conn
       (filter (fun t => negb (t_id t =? transacao_id)%Z) (transactions conn))).

Definition ou_atual {A : Type} (novo : option A) (f : A -> sqlval)
    (atual : sqlval) : sqlval :=
  match novo with
  | Some x => f x
  | None => atual
  end.

(** The [UPDATE transactions SET ... WHERE id = ?] that [editar_transacao]
    builds: one assignment for each argument that is not None, and
    updated_at always. *)
Definition editar_transacao (m : mundo) (transacao_id : Z)
    (descricao_tratada : option string) (categoria_id centro_custo_id : option Z)
    (valor : option Q) (forma_pagamento data_competencia : option string)
    (agora : string) : mundo :=
  let conn := get_connection m in
  commit m
    (com_transactions conn
       (map (fun t =>
               if (t_id t =? transacao_id)%Z then
                 {| t_id := t_id t;
                    t_codigoempresa := t_codigoempresa t;
                    t_conta_id := t_conta_id t;
                    t_data_lancamento := t_data_lancamento t;
                    t_data_competencia :=
                      ou_atual data_competencia SText (t_data_competencia t);
                    t_descricao_extrato := t_descricao_extrato t;
                    t_descricao_tratada :=
                      ou_atual descricao_tratada SText (t_descricao_tratada t);
                    t_favorecido_id := t_favorecido_id t;
                    t_tipo_movimento := t_tipo_movimento t;
                    t_valor := ou_atual valor SReal (t_valor t);
                    t_categoria_id := ou_atual categoria_id SInt (t_categoria_id t);
                    t_centro_custo_id :=
                      ou_atual centro_custo_id SInt (t_centro_custo_id t);
                    t_forma_pagamento :=
                      ou_atual forma_pagamento SText (t_forma_pagamento t);
                    t_id_importacao := t_id_importacao t;
                    t_hash_unico := t_hash_unico t;
                    t_conciliado := t_conciliado t;
                    t_created_at := t_created_at t;
                    t_updated_at := SText agora |}
               else t)
            (transactions conn))).

(** ** Notions used to state the further properties *)

(** A rule the scan can evaluate: a known target field and match kind. *)
Definition regra_bem_formada (r : regra) : bool :=
  ((r_campo_alvo r =? "descricao_extrato")
   || (r_campo_alvo r =? "favorecido_texto")
   || (r_campo_alvo r =? "forma_pagamento"))
  && ((r_tipo_match r =? "contem") || (r_tipo_match r =? "igual")
      || (r_tipo_match r =? "prefixo") || (r_tipo_match r =? "sufixo")
      || (r_tipo_match r =? "regex")).

Definition com_regras (conn : db) (rows : list regra) : db :=
  {| importacoes_extrato := importacoes_extrato conn;
     staging_transacoes_import := staging_transacoes_import conn;
     transactions := transactions conn;
     regras_auto_categorizacao := rows |}.

(** The row is as [s] but for the two columns the classifier pass sets. *)
Definition marcada_ia (s s' : staging) : Prop :=
  s' = {| st_id := st_id s;
          st_codigoempresa := st_codigoempresa s;
          st_importacao_id := st_importacao_id s;
          st_conta_id := st_conta_id s;
          st_data_lancamento := st_data_lancamento s;
          st_descricao_extrato := st_descricao_extrato s;
          st_favorecido_texto := st_favorecido_texto s;
          st_valor := st_valor s;
          st_forma_pagamento_detectada := st_forma_pagamento_detectada s;
          st_categoria_sugerida_id := st_categoria_sugerida_id s;
          st_centro_custo_sugerido_id := st_centro_custo_sugerido_id s;
          st_origem_sugestao := Some "ia";
          st_status_classificacao := Some "sugerido";
          st_observacoes := st_observacoes s |}.

(** A line as [_parse_csv] builds it. *)
Definition linha_de_csv (l : linha) : Prop :=
  l_favorecido l = l_descricao l /\ l_descricao l <> None /\ l_valor l <> None.

(** A line as [_parse_ofx] lets it through. *)
Definition ofx_inv (l : linha) : Prop :=
  truthy_texto (l_data l) = true /\ l_valor l <> None
  /\ l_favorecido l = l_descricao l.

(** What every row written by [_gravar_staging] looks like: the status
    follows the origin, a row of unknown origin has no category and no cost
    centre, a payment method is a rule's non-empty override or NULL. *)
Definition staging_coerente (s : staging) : Prop :=
  ((st_origem_sugestao s = Some "regra"
    /\ st_status_classificacao s = Some "sugerido")
   \/ (st_origem_sugestao s = Some "desconhecido"
       /\ st_status_classificacao s = Some "desconhecido"
       /\ truthy_inteiro (st_categoria_sugerida_id s) = false
       /\ truthy_inteiro (st_centro_custo_sugerido_id s) = false))
  /\ (st_forma_pagamento_detectada s = None
      \/ truthy_texto (st_forma_pagamento_detectada s) = true)
  /\ st_observacoes s = None
  /\ st_descricao_extrato s <> None
  /\ st_favorecido_texto s <> None.

(** The rule does not target the payment method. *)
Definition nao_visa_forma_pagamento (r : regra) : bool :=
  negb (r_campo_alvo r =? "forma_pagamento").

(** The last item of the list with the given id. *)
Fixpoint ultimo_com_id (k : Z) (itens : list item_ia) : option item_ia :=
  match itens with
  | [] => None
  | item :: resto =>
      match ultimo_com_id k resto with
      | Some x => Some x
      | None => if (id_staging item =? k)%Z then Some item else None
      end
  end.

(** The row with the two columns of the classifier pass set. *)
Definition marcar_ia (s : staging) : staging :=
  {| st_id := st_id s;
     st_codigoempresa := st_codigoempresa s;
     st_importacao_id := st_importacao_id s;
     st_conta_id := st_conta_id s;
     st_data_lancamento := st_data_lancamento s;
     st_descricao_extrato := st_descricao_extrato s;
     st_favorecido_texto := st_favorecido_texto s;
     st_valor := st_valor s;
     st_forma_pagamento_detectada := st_forma_pagamento_detectada s;
     st_categoria_sugerida_id := st_categoria_sugerida_id s;
     st_centro_custo_sugerido_id := st_centro_custo_sugerido_id s;
     st_origem_sugestao := Some "ia";
     st_status_classificacao := Some "sugerido";
     st_observacoes := st_observacoes s |}.

(** The row is one the classifier pass selects. *)
Definition candidata_ia (codigoempresa : string) (importacao_id : Z)
    (s : staging) : Prop :=
  st_codigoempresa s = codigoempresa /\ st_importacao_id s = importacao_id /\
  (st_status_classificacao s = Some "desconhecido"
   \/ st_categoria_sugerida_id s = None).


(** * The import with every exception

    The definitions above describe the runs in which [re.search] raises
    nothing but [re.error], every amount is a finite number and the file can
    be read.  The module [ComExcecoes] embeds [_match_pattern],
    [aplicar_regras_auto_categorizacao], [br_to_float], the two parsers,
    [_gravar_staging] and [importar_arquivo_e_criar_staging] again without
    these restrictions: [re.search] may raise what [except re.error] does
    not catch, [float] may return NaN, which sqlite3 binds as NULL, and
    reading the file may raise.  On the restricted runs the two embeddings
    agree (section "The two embeddings agree"). *)

(** A Python float as [float(...)] returns it: a finite number or NaN
    ([float("nan")] does not raise).  An infinity, which the store keeps
    like any other REAL, is left out. *)
Inductive pyfloat : Type :=
| Finito (q : Q)
| NaN.

(** [re.search(padrao, valor)]: what it returns, [re.error] included as
    in [re_resultado], or another exception it raises, such as the
    OverflowError of a repetition count beyond the engine's limit. *)
Inductive re_desfecho : Type :=
| ReDevolve (r : re_resultado)
| ReLevanta (e : excecao).

(** A parsed statement line whose amount is a Python float. *)
Record linha_py : Type := {
  lp_data : option string;
  lp_descricao : option string;
  lp_favorecido : option string;
  lp_valor : option pyfloat
}.

Definition linha_py_vazia : linha_py :=
  {| lp_data := None; lp_descricao := None; lp_favorecido := None;
     lp_valor := None |}.

(** A line with a finite amount. *)
Definition de_linha (l : linha) : linha_py :=
  {| lp_data := l_data l;
     lp_descricao := l_descricao l;
     lp_favorecido := l_favorecido l;
     lp_valor := option_map Finito (l_valor l) |}.

(** The value sqlite3 binds for a float: NaN becomes NULL. *)
Definition de_float (x : pyfloat) : sqlval :=
  match x with
  | Finito q => SReal q
  | NaN => SNull
  end.

(** A statement file as the parsers meet it.  [Erro e] in [ap_linhas]:
    [read_text] raises [e]; in [ap_csv]: opening the file or reading a row
    raises [e] before any row is found too short. *)
Record ArquivoPy : Type := {
  ap_suffix : string;
  ap_name : string;
  ap_linhas : resultado (list string);
  ap_csv : resultado (list (list string))
}.

(** A file that is read without an exception. *)
Definition de_arquivo (a : Arquivo) : ArquivoPy :=
  {| ap_suffix := arq_suffix a;
     ap_name := arq_name a;
     ap_linhas := Ok (arq_linhas a);
     ap_csv := Ok (arq_csv a) |}.

(** One iteration of the loop of [_gravar_staging]: the loop goes on, or
    an exception leaves it, in the world reached. *)
Inductive passo : Type :=
| Segue (st : laco)
| Levanta (m : mundo) (e : excecao).

Module ComExcecoes.
Section Biblioteca.
Context `{PyLib}.

(** [re.search(padrao, valor)] with the exceptions it raises. *)
Variable re_search_py : string -> string -> re_desfecho.

(** [float(s)], [None] on [ValueError]. *)
Variable float_py : string -> option pyfloat.

Definition br_to_float (value : string) : pyfloat :=
  let s := PyStr.strip value in
  if negb (PyStr.truthy s) then Finito 0
  else
    let s := PyStr.replace (PyStr.replace s "." EmptyString) "," "." in
    match float_py s with
    | Some x => x
    | None => Finito 0
    end.

Definition _match_pattern (valor tipo_match padrao : string) : resultado bool :=
  let valor_norm := PyStr.upper valor in
  let padrao_norm := PyStr.upper padrao in
  if tipo_match =? "contem" then Ok (PyStr.contains padrao_norm valor_norm)
  else if tipo_match =? "igual" then Ok (valor_norm =? padrao_norm)
  else if tipo_match =? "prefixo" then Ok (PyStr.startswith valor_norm padrao_norm)
  else if tipo_match =? "sufixo" then Ok (PyStr.endswith valor_norm padrao_norm)
  else if tipo_match =? "regex" then
    match re_search_py padrao valor with
    | ReDevolve ReMatch => Ok true
    | ReDevolve ReNone => Ok false
    | ReDevolve ReError => Ok false
    | ReLevanta e => Erro e
    end
  else Ok false.

(** The [for regra in regras] loop; an exception of [_match_pattern] ends
    it. *)
Fixpoint percorrer_regras (campo : string -> string) (regras : list regra)
    : resultado sugestao :=
  match regras with
  | [] => Ok sem_sugestao
  | r :: resto =>
      let valor_referencia := campo (r_campo_alvo r) in
      if negb (PyStr.truthy valor_referencia) then percorrer_regras campo resto
      else
        casa <- _match_pattern valor_referencia (r_tipo_match r)
                  (r_padrao_texto r) ;;
        if casa then Ok (saida_da_regra r)
        else percorrer_regras campo resto
  end.

Definition aplicar_regras_auto_categorizacao (m : mundo)
    (codigoempresa descricao_extrato : string)
    (favorecido_texto forma_pagamento_detectada : option string)
    : mundo * resultado sugestao :=
  let conn := get_connection m in
  let regras := select_regras (regras_auto_categorizacao conn) codigoempresa in
  let m := registrar SelectRegras m in
  (m, percorrer_regras
        (campo_map descricao_extrato favorecido_texto forma_pagamento_detectada)
        regras).

(** One iteration of the loop of [_parse_ofx] over [(linhas, current)]. *)
Definition ofx_passo (st : list linha_py * linha_py) (line : string)
    : list linha_py * linha_py :=
  let '(linhas, current) := st in
  let line := PyStr.strip line in
  if PyStr.startswith line "<DTPOSTED>" then
    let raw_date := PyStr.strip (PyStr.replace line "<DTPOSTED>" EmptyString) in
    let data := parse_date (PyStr.ate 8 raw_date) in
    (linhas, {| lp_data := data; lp_descricao := lp_descricao current;
                lp_favorecido := lp_favorecido current;
                lp_valor := lp_valor current |})
  else if PyStr.startswith line "<TRNAMT>" then
    let raw_valor := PyStr.strip (PyStr.replace line "<TRNAMT>" EmptyString) in
    let valor := match float_py (PyStr.replace raw_valor "," ".") with
                 | Some x => x
                 | None => Finito 0
                 end in
    (linhas, {| lp_data := lp_data current; lp_descricao := lp_descricao current;
                lp_favorecido := lp_favorecido current; lp_valor := Some valor |})
  else if PyStr.startswith line "<MEMO>" then
    let desc := PyStr.strip (PyStr.replace line "<MEMO>" EmptyString) in
    (linhas, {| lp_data := lp_data current; lp_descricao := Some desc;
                lp_favorecido := Some desc; lp_valor := lp_valor current |})
  else if PyStr.startswith line "<STMTTRN>" then
    (linhas, linha_py_vazia)
  else if PyStr.startswith line "</STMTTRN>" then
    if truthy_texto (lp_data current)
       && match lp_valor current with Some _ => true | None => false end
    then ((linhas ++ [current])%list, linha_py_vazia)
    else (linhas, linha_py_vazia)
  else (linhas, current).

Definition _parse_ofx (content_lines : list string) : list linha_py :=
  fst (fold_left ofx_passo content_lines ([], linha_py_vazia)).

(** The body of [for row in reader]: [None] when the row is skipped. *)
Definition csv_linha (idx_data idx_desc idx_valor : option nat)
    (row : list string) : resultado (option linha_py) :=
  if match row with [] => true | _ => false end
     || forallb (fun c => negb (PyStr.truthy (PyStr.strip c))) row
  then Ok None
  else
    data <- match idx_data with
            | Some i => c <- item row i ;; Ok (parse_date c)
            | None => Ok None
            end ;;
    descricao <- match idx_desc with
                 | Some i => c <- item row i ;; Ok (PyStr.strip c)
                 | None => Ok EmptyString
                 end ;;
    raw_valor <- match idx_valor with
                 | Some i => item row i
                 | None => Ok "0"
                 end ;;
    let valor := br_to_float raw_valor in
    Ok (Some {| lp_data := data; lp_descricao := Some descricao;
                lp_favorecido := Some descricao; lp_valor := Some valor |}).

Fixpoint csv_linhas (idx_data idx_desc idx_valor : option nat)
    (rows : list (list string)) (linhas : list linha_py)
    : resultado (list linha_py) :=
  match rows with
  | [] => Ok linhas
  | row :: resto =>
      r <- csv_linha idx_data idx_desc idx_valor row ;;
      csv_linhas idx_data idx_desc idx_valor resto
        (match r with
         | Some l => (linhas ++ [l])%list
         | None => linhas
         end)
  end.

Definition _parse_csv (reader : list (list string))
    : resultado (list linha_py) :=
  match reader with
  | [] => Ok []
  | header :: rows =>
      let h_norm := map (fun h => PyStr.lower (PyStr.strip h)) header in
      let idx_data := idx h_norm ["data"; "dt"; "date"] in
      let idx_desc := idx h_norm ["descricao"; "descrição"; "historico";
                                  "histórico"; "memo"; "description"] in
      let idx_valor := idx h_norm ["valor"; "amount"; "vl"; "debito";
                                   "crédito"; "credito"] in
      csv_linhas idx_data idx_desc idx_valor rows []
  end.

(** The ledger lookup, with the amount as sqlite3 binds it. *)
Definition select_duplicada (conn : db) (codigoempresa : string) (conta_id : Z)
    (data_str : option string) (valor : pyfloat) (descricao : string)
    : list transacao :=
  filter (fun t => sql_where
            (sql_and (sql_eq (t_codigoempresa t) (SText codigoempresa))
               (sql_and (sql_eq (t_conta_id t) (SInt conta_id))
                  (sql_and (sql_eq (t_data_lancamento t) (de_texto data_str))
                     (sql_and (sql_eq (t_valor t) (de_float valor))
                        (sql_eq (t_descricao_extrato t) (SText descricao)))))))
         (transactions conn).

(** The [INSERT INTO staging_transacoes_import]: the column valor is
    REAL NOT NULL. *)
Definition insert_staging (conn : db) (codigoempresa : string)
    (importacao_id conta_id : Z) (data_str : option string)
    (descricao favorecido_txt : string) (valor : pyfloat)
    (forma_pag : option string) (cat_id cc_id : option Z)
    (origem_sugestao status : string) : resultado db :=
  match valor with
  | NaN =>
      Erro (IntegrityError
              "NOT NULL constraint failed: staging_transacoes_import.valor")
  | Finito q =>
      Ok (insert_staging conn codigoempresa importacao_id conta_id data_str
            descricao favorecido_txt q forma_pag cat_id cc_id origem_sugestao
            status)
  end.

(** The body of [for linha in linhas]; [linha.get("valor") or 0.0] keeps
    NaN, which is true as a condition. *)
Definition gravar_linha (codigoempresa : string) (conta_id importacao_id : Z)
    (st : laco) (l : linha_py) : passo :=
  let data_str := lp_data l in
  let descricao := ou_vazio (lp_descricao l) in
  let favorecido_txt := ou_vazio (lp_favorecido l) in
  let valor := match lp_valor l with Some v => v | None => Finito 0 end in
  let forma_pag : option string := None in
  let m := registrar SelectTransactions (lc_mundo st) in
  match fetchone (select_duplicada (lc_conn st) codigoempresa conta_id
                    data_str valor descricao) with
  | Some _ =>
      Segue {| lc_mundo := m; lc_conn := lc_conn st;
               total_deduplicados := total_deduplicados st + 1;
               total_desconhecidos := total_desconhecidos st |}
  | None =>
      let '(m, r) :=
        aplicar_regras_auto_categorizacao m codigoempresa descricao
          (Some favorecido_txt) forma_pag in
      match r with
      | Erro e => Levanta m e
      | Ok (cat_id, cc_id, desc_sug, forma_fixada) =>
          let forma_pag := if truthy_texto forma_fixada then forma_fixada
                           else forma_pag in
          let origem_sugestao :=
            if truthy_inteiro cat_id || truthy_inteiro cc_id
               || truthy_texto desc_sug
            then "regra" else "desconhecido" in
          let desconhecidos :=
            if origem_sugestao =? "desconhecido"
            then (total_desconhecidos st + 1)%Z else total_desconhecidos st in
          match insert_staging (lc_conn st) codigoempresa importacao_id
                  conta_id data_str descricao favorecido_txt valor forma_pag
                  cat_id cc_id origem_sugestao
                  (if origem_sugestao =? "desconhecido" then "desconhecido"
                   else "sugerido") with
          | Erro e => Levanta (registrar InsertStaging m) e
          | Ok conn =>
              Segue {| lc_mundo := registrar InsertStaging m; lc_conn := conn;
                       total_deduplicados := total_deduplicados st;
                       total_desconhecidos := desconhecidos |}
          end
      end
  end.

Fixpoint laco_linhas (codigoempresa : string) (conta_id importacao_id : Z)
    (linhas : list linha_py) (st : laco) : passo :=
  match linhas with
  | [] => Segue st
  | l :: resto =>
      match gravar_linha codigoempresa conta_id importacao_id st l with
      | Segue st => laco_linhas codigoempresa conta_id importacao_id resto st
      | Levanta m e => Levanta m e
      end
  end.

Definition _gravar_staging (m : mundo) (conn : db) (codigoempresa : string)
    (conta_id importacao_id : Z) (linhas : list linha_py) : passo :=
  laco_linhas codigoempresa conta_id importacao_id linhas
    {| lc_mundo := m; lc_conn := conn;
       total_deduplicados := 0; total_desconhecidos := 0 |}.

(** An exception inside [try] closes the connection uncommitted. *)
Definition importar_arquivo_e_criar_staging (m : mundo)
    (codigoempresa : string) (conta_id : Z) (usuario_id : option Z)
    (arquivo : ArquivoPy) (agora : string) : mundo * resultado Z :=
  match detectar_formato_arquivo (ap_suffix arquivo) with
  | Erro e => (m, Erro e)
  | Ok tipo_arquivo =>
      let conn := get_connection m in
      let '(conn, importacao_id) :=
        insert_importacao conn codigoempresa conta_id tipo_arquivo
          (ap_name arquivo) agora in
      let m := registrar InsertImportacao m in
      let parsed :=
        if tipo_arquivo =? "OFX"
        then (content_lines <- ap_linhas arquivo ;; Ok (_parse_ofx content_lines))
        else if tipo_arquivo =? "CSV"
        then (reader <- ap_csv arquivo ;; _parse_csv reader)
        else Ok [] in
      match parsed with
      | Erro e => (m, Erro e)
      | Ok linhas =>
          let total_no_arquivo := Z.of_nat (List.length linhas) in
          match _gravar_staging m conn codigoempresa conta_id
                  importacao_id linhas with
          | Levanta m e => (m, Erro e)
          | Segue st =>
              let conn := update_totais (lc_conn st) total_no_arquivo
                            (total_deduplicados st) (total_desconhecidos st)
                            importacao_id in
              let m := registrar UpdateTotaisImportacao (lc_mundo st) in
              (commit m conn, Ok importacao_id)
          end
      end
  end.

(** The rule raises [e] on the line: its field is not empty, its kind is
    regex and [re.search] raises [e] on its pattern. *)
Definition regra_levanta (campo : string -> string) (r : regra)
    (e : excecao) : Prop :=
  PyStr.truthy (campo (r_campo_alvo r)) = true /\
  r_tipo_match r = "regex" /\
  re_search_py (r_padrao_texto r) (campo (r_campo_alvo r)) = ReLevanta e.

(** The rule is passed without a match and without an exception. *)
Definition regra_nao_casa (campo : string -> string) (r : regra) : Prop :=
  PyStr.truthy (campo (r_campo_alvo r)) = false \/
  _match_pattern (campo (r_campo_alvo r)) (r_tipo_match r) (r_padrao_texto r)
  = Ok false.

End Biblioteca.
End ComExcecoes.

(** ** A sample library with the two cases *)

(** [re.search] raising OverflowError on a pattern with the repetition
    count 99999999999, beyond the limit of [re]; any other pattern behaves
    as in [Exemplo.search]. *)
Definition search_com_overflow (padrao valor : string) : re_desfecho :=
  if PyStr.contains "{99999999999}" padrao then ReLevanta OverflowError
  else ReDevolve (Exemplo.search padrao valor).

(** [float] returning NaN on the text nan in any letter case; any other
    text is read as in [Exemplo.float]. *)
Definition float_com_nan (s : string) : option pyfloat :=
  if PyStr.lower s =? "nan" then Some NaN
  else option_map Finito (Exemplo.float s).

(** A statement in CSV whose only data row has no date and the amount
    text nan. *)
Definition extrato_csv_nan : ArquivoPy :=
  {| ap_suffix := ".csv"; ap_name := "extrato.csv"; ap_linhas := Ok [];
     ap_csv := Ok [["Data"; "Descricao"; "Valor"]; [EmptyString; "Pix"; "nan"]] |}.

(** The line [_parse_csv] returns for that row. *)
Definition linha_sem_data_nan : linha_py :=
  {| lp_data := None; lp_descricao := Some "Pix"; lp_favorecido := Some "Pix";
     lp_valor := Some NaN |}.

(** The library functions raise and return what the interface [PyLib]
    has: [re.search] raises [re.error] at most and [float] returns a finite
    number. *)
Definition biblioteca_restrita `{PyLib}
    (re_search_py : string -> string -> re_desfecho)
    (float_py : string -> option pyfloat) : Prop :=
  (forall padrao valor,
      re_search_py padrao valor = ReDevolve (re_search padrao valor)) /\
  (forall s, float_py s = option_map Finito (py_float s)).

(** Only ASCII characters. *)
Definition ascii_puro (s : string) : bool :=
  forallb (fun c => (nat_of_ascii c <? 128)%nat) (list_ascii_of_string s).

(** * Properties *)

Open Scope list_scope.

(** ** Priorities and the ordered rule list *)

Lemma prio_leb_refl (a : option Z) : prio_leb a a = true.
Proof.
  destruct a; simpl; [apply Z.leb_refl | reflexivity].
Qed.

Lemma prio_leb_total (a b : option Z) :
  prio_leb a b = true \/ prio_leb b a = true.
Proof.
  destruct a, b; simpl; auto.
  destruct (Z.leb_spec z z0); [left; reflexivity | right; apply Z.leb_le; lia].
Qed.

Lemma prio_leb_trans (a b c : option Z) :
  prio_leb a b = true -> prio_leb b c = true -> prio_leb a c = true.
Proof.
  destruct a, b, c; simpl; try congruence.
  rewrite !Z.leb_le; lia.
Qed.

Lemma prio_lt_irrefl (a : option Z) : ~ prio_lt a a.
Proof.
  unfold prio_lt; rewrite prio_leb_refl; discriminate.
Qed.

Lemma inserir_desc_perm (r : regra) (l : list regra) :
  Permutation (r :: l) (inserir_desc r l).
Proof.
  induction l as [|x xs IH]; simpl.
  - apply Permutation_refl.
  - destruct (prio_leb (r_prioridade x) (r_prioridade r)).
    + apply Permutation_refl.
    + eapply Permutation_trans; [apply perm_swap|].
      apply perm_skip, IH.
Qed.

Lemma order_by_prioridade_desc_perm (l : list regra) :
  Permutation l (order_by_prioridade_desc l).
Proof.
  induction l as [|x xs IH]; simpl.
  - apply perm_nil.
  - eapply Permutation_trans; [apply perm_skip, IH|].
    apply inserir_desc_perm.
Qed.

Lemma inserir_desc_sorted (r : regra) (l : list regra) :
  StronglySorted antes_de l -> StronglySorted antes_de (inserir_desc r l).
Proof.
  induction 1 as [|x xs Hs IH Hx]; simpl.
  - repeat constructor.
  - destruct (prio_leb (r_prioridade x) (r_prioridade r)) eqn:E.
    + constructor.
      * constructor; assumption.
      * constructor; [exact E|].
        rewrite Forall_forall in *; intros y Hy.
        unfold antes_de in *.
        eapply prio_leb_trans; [apply Hx, Hy | exact E].
    + constructor; [exact IH|].
      rewrite Forall_forall in *; intros y Hy.
      apply (Permutation_in _ (Permutation_sym (inserir_desc_perm r xs))) in Hy.
      destruct Hy as [<-|Hy]; [|apply Hx, Hy].
      unfold antes_de.
      destruct (prio_leb_total (r_prioridade r) (r_prioridade x)); congruence.
Qed.

Lemma order_by_prioridade_desc_sorted (l : list regra) :
  StronglySorted antes_de (order_by_prioridade_desc l).
Proof.
  induction l as [|x xs IH]; simpl.
  - constructor.
  - apply inserir_desc_sorted, IH.
Qed.

Lemma select_regras_In (tabela : list regra) (codigoempresa : string) (r : regra) :
  In r (select_regras tabela codigoempresa) <->
  In r tabela /\ regra_ativa codigoempresa r.
Proof.
  unfold select_regras, regra_ativa.
  split.
  - intros Hin.
    apply (Permutation_in _ (Permutation_sym (order_by_prioridade_desc_perm _))) in Hin.
    apply filter_In in Hin as [Hin Hc].
    apply andb_true_iff in Hc as [Hc Ha].
    apply String.eqb_eq in Hc. apply Z.eqb_eq in Ha. auto.
  - intros [Hin [Hc Ha]].
    apply (Permutation_in _ (order_by_prioridade_desc_perm _)).
    apply filter_In; split; [exact Hin|].
    apply andb_true_iff; split; [apply String.eqb_eq, Hc | apply Z.eqb_eq, Ha].
Qed.

Lemma select_regras_sorted (tabela : list regra) (codigoempresa : string) :
  StronglySorted antes_de (select_regras tabela codigoempresa).
Proof.
  apply order_by_prioridade_desc_sorted.
Qed.

(** ** The scan *)

Section Varredura.
Context `{PyLib}.

Lemma percorrer_regras_cons (campo : string -> string) (r : regra)
    (resto : list regra) :
  percorrer_regras campo (r :: resto) =
  if regra_casa campo r then saida_da_regra r
  else percorrer_regras campo resto.
Proof.
  unfold regra_casa; simpl.
  destruct (PyStr.truthy (campo (r_campo_alvo r))); simpl; reflexivity.
Qed.

Lemma percorrer_regras_pula (campo : string -> string) (r : regra)
    (l1 l2 : list regra) :
  regra_casa campo r = false ->
  percorrer_regras campo (l1 ++ r :: l2) = percorrer_regras campo (l1 ++ l2).
Proof.
  intros Hr.
  induction l1 as [|x xs IH].
  - simpl app. rewrite percorrer_regras_cons, Hr. reflexivity.
  - rewrite <- !app_comm_cons, !percorrer_regras_cons, IH. reflexivity.
Qed.

Lemma percorrer_regras_nenhuma (campo : string -> string) (l : list regra) :
  (forall r, In r l -> regra_casa campo r = false) ->
  percorrer_regras campo l = sem_sugestao.
Proof.
  induction l as [|x xs IH]; intros Hl.
  - reflexivity.
  - rewrite percorrer_regras_cons, (Hl x (or_introl eq_refl)).
    apply IH. intros r Hr. apply Hl. right. exact Hr.
Qed.

Lemma percorrer_regras_maior (campo : string -> string) (l : list regra)
    (r : regra) :
  StronglySorted antes_de l ->
  In r l ->
  regra_casa campo r = true ->
  (forall r', In r' l -> regra_casa campo r' = true ->
              r' = r \/ prio_lt (r_prioridade r') (r_prioridade r)) ->
  percorrer_regras campo l = saida_da_regra r.
Proof.
  induction 1 as [|x xs Hs IH Hx]; intros Hin Hr Hmax.
  - destruct Hin.
  - rewrite percorrer_regras_cons.
    destruct (regra_casa campo x) eqn:Ex.
    + destruct (Hmax x (or_introl eq_refl) Ex) as [->|Hlt]; [reflexivity|].
      destruct Hin as [->|Hin]; [reflexivity|].
      rewrite Forall_forall in Hx. specialize (Hx r Hin).
      unfold antes_de in Hx. unfold prio_lt in Hlt. congruence.
    + destruct Hin as [->|Hin]; [congruence|].
      apply IH; auto.
      intros r' Hr' Hc. apply Hmax; [right; exact Hr' | exact Hc].
Qed.

Lemma match_regex_malformado (valor padrao : string) :
  re_search padrao valor = ReError ->
  _match_pattern valor "regex" padrao = false.
Proof.
  intros He. unfold _match_pattern. simpl. rewrite He. reflexivity.
Qed.

End Varredura.

(** ** Rule engine: claims C5 and C9 *)

(** C5.  The scan goes through the tenant's active rules in descending
    priority and the first match wins: when an active rule [r] matches the
    line and every other active matching rule has a strictly lower
    priority, the function returns exactly the four outputs of [r],
    whatever the order in which the rules sit in the table. *)
Theorem C5_maior_prioridade_vence :
  forall `{PyLib} (m : mundo) (tabela : list regra) (codigoempresa desc : string)
         (fav forma : option string) (r : regra),
    Permutation tabela (regras_auto_categorizacao (disco m)) ->
    In r tabela ->
    regra_ativa codigoempresa r ->
    regra_casa (campo_map desc fav forma) r = true ->
    (forall r', In r' tabela -> regra_ativa codigoempresa r' ->
                regra_casa (campo_map desc fav forma) r' = true ->
                r' <> r -> prio_lt (r_prioridade r') (r_prioridade r)) ->
    StronglySorted antes_de
      (select_regras (regras_auto_categorizacao (disco m)) codigoempresa) /\
    snd (aplicar_regras_auto_categorizacao m codigoempresa desc fav forma)
    = saida_da_regra r.
Proof.
  intros lib m tabela emp desc fav forma r Hperm Hin Hat Hcasa Hmax.
  split; [apply select_regras_sorted|].
  unfold aplicar_regras_auto_categorizacao, get_connection; simpl.
  apply percorrer_regras_maior.
  - apply select_regras_sorted.
  - apply select_regras_In; split; [|exact Hat].
    eapply Permutation_in; [exact Hperm | exact Hin].
  - exact Hcasa.
  - intros r' Hr' Hc.
    apply select_regras_In in Hr' as [Hr' Hat'].
    destruct (regra_eq_dec r' r) as [->|Hne]; [left; reflexivity|right].
    apply Hmax; auto.
    eapply Permutation_in; [apply Permutation_sym, Hperm | exact Hr'].
Qed.

Lemma C5_witness :
  Permutation [Casos.regra_pix_10; Casos.regra_pix_5]
              [Casos.regra_pix_5; Casos.regra_pix_10] /\
  snd (aplicar_regras_auto_categorizacao (H := Exemplo.lib)
         (Casos.banco [Casos.regra_pix_5; Casos.regra_pix_10] [])
         "E1" "PIX RECEBIDO" None None)
  = (Some 7%Z, None, Some "Recebimento Pix", Some "PIX").
Proof.
  split; [apply perm_swap|].
  refine (proj2 (@C5_maior_prioridade_vence Exemplo.lib
            (Casos.banco [Casos.regra_pix_5; Casos.regra_pix_10] [])
            [Casos.regra_pix_10; Casos.regra_pix_5]
            "E1" "PIX RECEBIDO" None None Casos.regra_pix_10
            (perm_swap _ _ _) (or_introl eq_refl) (conj eq_refl eq_refl)
            eq_refl _)).
  intros r' [<-|[<-|[]]] _ _ Hne.
  - exfalso; apply Hne; reflexivity.
  - reflexivity.
Defined.

(** A rule of kind [regex] on whose pattern [re.search] raises
    [re.error] never matches and raises nothing: [_match_pattern] answers
    False, the scan goes on with the rules after it, and when no other rule
    matches the result is all None.  What happens when [re.search] raises
    another exception is in [percorrer_regras_levanta]. *)
Theorem regex_com_re_error_nao_casa :
  forall `{PyLib} (m : mundo) (codigoempresa desc : string)
         (fav forma : option string) (r : regra) (l1 l2 : list regra),
    select_regras (regras_auto_categorizacao (disco m)) codigoempresa
    = l1 ++ r :: l2 ->
    r_tipo_match r = "regex" ->
    (forall valor, re_search (r_padrao_texto r) valor = ReError) ->
    (forall valor,
        _match_pattern valor (r_tipo_match r) (r_padrao_texto r) = false) /\
    snd (aplicar_regras_auto_categorizacao m codigoempresa desc fav forma)
    = percorrer_regras (campo_map desc fav forma) (l1 ++ l2) /\
    ((forall r', In r' (l1 ++ l2) ->
                 regra_casa (campo_map desc fav forma) r' = false) ->
     snd (aplicar_regras_auto_categorizacao m codigoempresa desc fav forma)
     = sem_sugestao).
Proof.
  intros lib m emp desc fav forma r l1 l2 Hsel Htipo Hbad.
  assert (Hm : forall valor,
             _match_pattern valor (r_tipo_match r) (r_padrao_texto r) = false).
  { intros valor. rewrite Htipo. apply match_regex_malformado, Hbad. }
  assert (Hr : regra_casa (campo_map desc fav forma) r = false).
  { unfold regra_casa. rewrite Hm. apply andb_false_r. }
  assert (Hs : snd (aplicar_regras_auto_categorizacao m emp desc fav forma)
               = percorrer_regras (campo_map desc fav forma) (l1 ++ l2)).
  { unfold aplicar_regras_auto_categorizacao, get_connection; simpl.
    rewrite Hsel. apply percorrer_regras_pula, Hr. }
  split; [exact Hm | split; [exact Hs|]].
  intros Hnone. rewrite Hs. apply percorrer_regras_nenhuma, Hnone.
Qed.

Lemma regex_com_re_error_nao_casa_witness :
  (forall valor, re_search (PyLib := Exemplo.lib)
                   (r_padrao_texto Casos.regra_regex_ruim) valor = ReError) /\
  snd (aplicar_regras_auto_categorizacao (H := Exemplo.lib)
         (Casos.banco [Casos.regra_pix_5; Casos.regra_regex_ruim] [])
         "E1" "PIX RECEBIDO (LOJA" None None)
  = (Some 3%Z, Some 4%Z, None, None) /\
  snd (aplicar_regras_auto_categorizacao (H := Exemplo.lib)
         (Casos.banco [Casos.regra_pix_5; Casos.regra_regex_ruim] [])
         "E1" "TARIFA (MENSAL" None None)
  = sem_sugestao.
Proof.
  split; [intros valor; reflexivity|]. split.
  - exact (proj1 (proj2 (@regex_com_re_error_nao_casa Exemplo.lib
             (Casos.banco [Casos.regra_pix_5; Casos.regra_regex_ruim] [])
             "E1" "PIX RECEBIDO (LOJA" None None Casos.regra_regex_ruim
             [] [Casos.regra_pix_5] eq_refl eq_refl
             (fun valor => eq_refl)))).
  - refine (proj2 (proj2 (@regex_com_re_error_nao_casa Exemplo.lib
              (Casos.banco [Casos.regra_pix_5; Casos.regra_regex_ruim] [])
              "E1" "TARIFA (MENSAL" None None Casos.regra_regex_ruim
              [] [Casos.regra_pix_5] eq_refl eq_refl
              (fun valor => eq_refl))) _).
    intros r' [<-|[]]. reflexivity.
Defined.

(** C9.  A rule whose target field is empty on the line is skipped and
    never matches, also when its pattern is the empty text, which
    [_match_pattern] alone would accept under [contem]. *)
Theorem C9_campo_vazio_nunca_casa :
  forall `{PyLib} (m : mundo) (codigoempresa desc : string)
         (fav forma : option string) (r : regra) (l1 l2 : list regra),
    select_regras (regras_auto_categorizacao (disco m)) codigoempresa
    = l1 ++ r :: l2 ->
    campo_map desc fav forma (r_campo_alvo r) = EmptyString ->
    regra_casa (campo_map desc fav forma) r = false /\
    snd (aplicar_regras_auto_categorizacao m codigoempresa desc fav forma)
    = percorrer_regras (campo_map desc fav forma) (l1 ++ l2) /\
    _match_pattern EmptyString "contem" EmptyString = true.
Proof.
  intros lib m emp desc fav forma r l1 l2 Hsel Hvazio.
  assert (Hr : regra_casa (campo_map desc fav forma) r = false).
  { unfold regra_casa. rewrite Hvazio. reflexivity. }
  split; [exact Hr | split; [|reflexivity]].
  unfold aplicar_regras_auto_categorizacao, get_connection; simpl.
  rewrite Hsel. apply percorrer_regras_pula, Hr.
Qed.

Lemma C9_witness :
  campo_map "PIX RECEBIDO" (Some EmptyString) None
    (r_campo_alvo Casos.regra_favorecido_vazio) = EmptyString /\
  r_padrao_texto Casos.regra_favorecido_vazio = EmptyString /\
  snd (aplicar_regras_auto_categorizacao (H := Exemplo.lib)
         (Casos.banco [Casos.regra_favorecido_vazio] [])
         "E1" "PIX RECEBIDO" (Some EmptyString) None)
  = sem_sugestao.
Proof.
  split; [reflexivity | split; [reflexivity|]].
  exact (proj1 (proj2 (@C9_campo_vazio_nunca_casa Exemplo.lib
           (Casos.banco [Casos.regra_favorecido_vazio] [])
           "E1" "PIX RECEBIDO" (Some EmptyString) None Casos.regra_favorecido_vazio
           [] [] eq_refl eq_refl))).
Defined.

(** ** The staging loop *)

Lemma com_staging_mesma (conn : db) :
  com_staging conn (staging_transacoes_import conn) = conn.
Proof.
  destruct conn; reflexivity.
Qed.

Lemma consultas_de_regras_app (h1 h2 : list instrucao) :
  consultas_de_regras (h1 ++ h2)
  = (consultas_de_regras h1 + consultas_de_regras h2)%nat.
Proof.
  unfold consultas_de_regras. rewrite filter_app, length_app. reflexivity.
Qed.

Lemma sql_and_true (a b : option bool) :
  sql_and a b = Some true <-> a = Some true /\ b = Some true.
Proof.
  destruct a as [[|]|], b as [[|]|]; simpl; split;
    try (intros [? ?]); try intro; try split; congruence.
Qed.

Lemma sql_where_true (c : option bool) :
  sql_where c = true <-> c = Some true.
Proof.
  destruct c as [[|]|]; simpl; split; congruence.
Qed.

Lemma where_duplicada_true (codigoempresa : string) (conta_id : Z) (l : linha)
    (t : transacao) :
  sql_where (where_duplicada codigoempresa conta_id (l_data l) (valor_da_linha l)
               (ou_vazio (l_descricao l)) t) = true
  <-> mesma_no_ledger codigoempresa conta_id l t.
Proof.
  unfold where_duplicada, mesma_no_ledger.
  rewrite sql_where_true, !sql_and_true. tauto.
Qed.

Lemma duplicada_true (conn : db) (codigoempresa : string) (conta_id : Z)
    (l : linha) :
  duplicada conn codigoempresa conta_id l = true <->
  exists t, In t (transactions conn) /\ mesma_no_ledger codigoempresa conta_id l t.
Proof.
  unfold duplicada, fetchone, select_duplicada.
  split.
  - destruct (filter _ (transactions conn)) as [|t ts] eqn:E; [discriminate|].
    intros _. exists t.
    assert (Hin : In t (filter
               (fun t0 => sql_where (where_duplicada codigoempresa conta_id
                  (l_data l) (valor_da_linha l) (ou_vazio (l_descricao l)) t0))
               (transactions conn))) by (rewrite E; left; reflexivity).
    apply filter_In in Hin as [Hin Hw].
    split; [exact Hin | apply where_duplicada_true, Hw].
  - intros [t [Hin Hm]].
    apply where_duplicada_true in Hm.
    assert (Hf : In t (filter
               (fun t0 => sql_where (where_duplicada codigoempresa conta_id
                  (l_data l) (valor_da_linha l) (ou_vazio (l_descricao l)) t0))
               (transactions conn))) by (apply filter_In; auto).
    destruct (filter _ (transactions conn)); [destruct Hf | reflexivity].
Qed.

Lemma sem_data_nao_duplica (conn : db) (codigoempresa : string) (conta_id : Z)
    (l : linha) :
  l_data l = None -> duplicada conn codigoempresa conta_id l = false.
Proof.
  intros Hd.
  destruct (duplicada conn codigoempresa conta_id l) eqn:E; [|reflexivity].
  apply duplicada_true in E as [t [_ [_ [_ [Hdata _]]]]].
  rewrite Hd in Hdata. simpl in Hdata.
  destruct (t_data_lancamento t); discriminate.
Qed.

Section Laco.
Context `{PyLib}.
Variables (codigoempresa : string) (conta_id importacao_id : Z).

Lemma vem_de_linha (tabela : list regra) (id : Z) (l : linha) :
  vem_de tabela codigoempresa conta_id importacao_id l
    (linha_em_staging tabela codigoempresa conta_id importacao_id id l).
Proof.
  unfold vem_de, linha_em_staging.
  destruct (sugestao_da_linha tabela codigoempresa l) as [[[c cc] d] f].
  reflexivity.
Qed.

Lemma sem_sugestao_de_regra_linha (tabela : list regra) (id : Z) (l : linha) :
  sem_sugestao_de_regra tabela
    (linha_em_staging tabela codigoempresa conta_id importacao_id id l)
  = desconhecida (sugestao_da_linha tabela codigoempresa l).
Proof.
  unfold sem_sugestao_de_regra, linha_em_staging.
  destruct (sugestao_da_linha tabela codigoempresa l) as [[[c cc] d] f] eqn:E.
  simpl. unfold sugestao_da_linha in E. rewrite E. reflexivity.
Qed.

Lemma gravar_linha_duplicada (st : laco) (l : linha) :
  duplicada (lc_conn st) codigoempresa conta_id l = true ->
  gravar_linha codigoempresa conta_id importacao_id st l
  = {| lc_mundo := registrar SelectTransactions (lc_mundo st);
       lc_conn := lc_conn st;
       total_deduplicados := total_deduplicados st + 1;
       total_desconhecidos := total_desconhecidos st |}.
Proof.
  unfold duplicada, gravar_linha, valor_da_linha.
  destruct (fetchone _); [reflexivity | discriminate].
Qed.

Lemma gravar_linha_nova (tabela : list regra) (st : laco) (l : linha) :
  regras_auto_categorizacao (disco (lc_mundo st)) = tabela ->
  duplicada (lc_conn st) codigoempresa conta_id l = false ->
  gravar_linha codigoempresa conta_id importacao_id st l
  = {| lc_mundo := registrar InsertStaging
                     (registrar SelectRegras
                        (registrar SelectTransactions (lc_mundo st)));
       lc_conn :=
         com_staging (lc_conn st)
           (staging_transacoes_import (lc_conn st) ++
            [linha_em_staging tabela codigoempresa conta_id importacao_id
               (proximo_id st_id (staging_transacoes_import (lc_conn st))) l]);
       total_deduplicados := total_deduplicados st;
       total_desconhecidos :=
         total_desconhecidos st
         + (if desconhecida (sugestao_da_linha tabela codigoempresa l)
            then 1 else 0) |}.
Proof.
  intros Htab.
  unfold duplicada, gravar_linha, valor_da_linha.
  destruct (fetchone _); [discriminate|]. intros _.
  unfold aplicar_regras_auto_categorizacao, get_connection, insert_staging,
    linha_em_staging, sugestao_da_linha, regras_sobre, valor_da_linha.
  simpl. rewrite Htab.
  destruct (percorrer_regras _ (select_regras tabela codigoempresa))
    as [[[cat cc] ds] ff].
  unfold desconhecida.
  destruct (truthy_inteiro cat || truthy_inteiro cc || truthy_texto ds);
    simpl; rewrite ?Z.add_0_r; reflexivity.
Qed.

(** What the loop does to the connection, the history and the counters. *)
Lemma gravar_staging_laco (tabela : list regra) (linhas : list linha) :
  forall st : laco,
    regras_auto_categorizacao (disco (lc_mundo st)) = tabela ->
    let st' := fold_left (gravar_linha codigoempresa conta_id importacao_id)
                 linhas st in
    exists (novas : list staging) (passos : list instrucao),
      lc_conn st' = com_staging (lc_conn st)
                      (staging_transacoes_import (lc_conn st) ++ novas) /\
      disco (lc_mundo st') = disco (lc_mundo st) /\
      historico (lc_mundo st') = historico (lc_mundo st) ++ passos /\
      consultas_de_regras passos = List.length novas /\
      Forall2 (vem_de tabela codigoempresa conta_id importacao_id)
        (filter (fun l => negb (duplicada (lc_conn st) codigoempresa conta_id l))
                linhas)
        novas /\
      total_deduplicados st'
      = (total_deduplicados st
         + Z.of_nat (List.length
             (filter (duplicada (lc_conn st) codigoempresa conta_id) linhas)))%Z /\
      total_desconhecidos st'
      = (total_desconhecidos st
         + Z.of_nat (List.length
             (filter (sem_sugestao_de_regra tabela) novas)))%Z.
Proof.
  induction linhas as [|l ls IH]; intros st Htab; simpl.
  - exists [], []. rewrite !app_nil_r, com_staging_mesma, !Z.add_0_r.
    repeat split; constructor.
  - destruct (duplicada (lc_conn st) codigoempresa conta_id l) eqn:Ed; simpl.
    + rewrite (@gravar_linha_duplicada st l Ed).
      destruct (IH {| lc_mundo := registrar SelectTransactions (lc_mundo st);
                      lc_conn := lc_conn st;
                      total_deduplicados := total_deduplicados st + 1;
                      total_desconhecidos := total_desconhecidos st |} Htab)
        as (novas & passos & Hc & Hd & Hh & Hq & Hf & Htd & Htu).
      simpl in *.
      exists novas, (SelectTransactions :: passos).
      rewrite Hc, Hd, Hh, Htd, Htu, <- app_assoc.
      repeat split; auto. lia.
    + rewrite (@gravar_linha_nova tabela st l Htab Ed).
      match goal with
      | |- context [fold_left _ ls ?s] =>
          destruct (IH s Htab)
            as (novas & passos & Hc & Hd & Hh & Hq & Hf & Htd & Htu)
      end.
      simpl in *.
      exists (linha_em_staging tabela codigoempresa conta_id importacao_id
                (proximo_id st_id (staging_transacoes_import (lc_conn st))) l
              :: novas),
             ([SelectTransactions; SelectRegras; InsertStaging] ++ passos).
      rewrite Hc, Hd, Hh, Htd, Htu, <- !app_assoc.
      simpl. rewrite sem_sugestao_de_regra_linha.
      repeat split; auto.
      * unfold consultas_de_regras in *. simpl. rewrite Hq. reflexivity.
      * constructor; [apply vem_de_linha | exact Hf].
      * destruct (desconhecida (sugestao_da_linha tabela codigoempresa l));
          simpl List.length; lia.
Qed.

End Laco.

Lemma filter_particao {A : Type} (f : A -> bool) (l : list A) :
  List.length l
  = (List.length (filter f l)
     + List.length (filter (fun x => negb (f x)) l))%nat.
Proof.
  induction l as [|x xs IH]; simpl; [reflexivity|].
  destruct (f x); simpl; lia.
Qed.

Lemma proximo_id_maior {A : Type} (id : A -> Z) (tabela : list A) (x : A) :
  In x tabela -> (id x < proximo_id id tabela)%Z.
Proof.
  unfold proximo_id.
  induction tabela as [|y ys IH]; simpl; [tauto|].
  intros [->|Hin]; [lia|].
  specialize (IH Hin). lia.
Qed.

Section Importacao.
Context `{PyLib}.

Lemma vem_de_campos (tabela : list regra) (codigoempresa : string)
    (conta_id importacao_id : Z) (l : linha) (s : staging) :
  vem_de tabela codigoempresa conta_id importacao_id l s ->
  st_codigoempresa s = codigoempresa /\
  st_importacao_id s = importacao_id /\
  st_conta_id s = conta_id /\
  st_data_lancamento s = l_data l /\
  st_descricao_extrato s = Some (ou_vazio (l_descricao l)) /\
  st_valor s = valor_da_linha l.
Proof.
  unfold vem_de, linha_em_staging. intros Hs.
  destruct (sugestao_da_linha tabela codigoempresa l) as [[[c cc] d] f].
  rewrite Hs. simpl. repeat split; reflexivity.
Qed.

(** The loop started by [_gravar_staging]. *)
Lemma gravar_staging_resultado (m : mundo) (conn : db) (codigoempresa : string)
    (conta_id importacao_id : Z) (linhas : list linha) :
  let st := _gravar_staging m conn codigoempresa conta_id importacao_id linhas in
  let tabela := regras_auto_categorizacao (disco m) in
  exists (novas : list staging) (passos : list instrucao),
    lc_conn st = com_staging conn (staging_transacoes_import conn ++ novas) /\
    disco (lc_mundo st) = disco m /\
    historico (lc_mundo st) = historico m ++ passos /\
    consultas_de_regras passos = List.length novas /\
    Forall2 (vem_de tabela codigoempresa conta_id importacao_id)
      (filter (fun l => negb (duplicada conn codigoempresa conta_id l)) linhas)
      novas /\
    total_deduplicados st
    = Z.of_nat (List.length
                  (filter (duplicada conn codigoempresa conta_id) linhas)) /\
    total_desconhecidos st
    = Z.of_nat (List.length (filter (sem_sugestao_de_regra tabela) novas)).
Proof.
  intros st tabela. subst st. unfold _gravar_staging.
  destruct (gravar_staging_laco codigoempresa conta_id importacao_id linhas
              {| lc_mundo := m; lc_conn := conn;
                 total_deduplicados := 0; total_desconhecidos := 0 |}
              (eq_refl tabela))
    as (novas & passos & Hc & Hd & Hh & Hq & Hf & Htd & Htu).
  exists novas, passos. simpl in *. repeat split; assumption.
Qed.

(** A successful import, taken apart. *)
Lemma importar_sucesso (m m' : mundo) (codigoempresa : string) (conta_id : Z)
    (usuario_id : option Z) (arquivo : Arquivo) (agora : string) (id : Z) :
  importar_arquivo_e_criar_staging m codigoempresa conta_id usuario_id
    arquivo agora = (m', Ok id) ->
  exists (linhas : list linha) (novas : list staging)
         (passos : list instrucao) (lote : importacao),
    staging_transacoes_import (disco m')
    = staging_transacoes_import (disco m) ++ novas /\
    transactions (disco m') = transactions (disco m) /\
    regras_auto_categorizacao (disco m')
    = regras_auto_categorizacao (disco m) /\
    historico m' = historico m ++ passos /\
    consultas_de_regras passos = List.length novas /\
    Forall2 (vem_de (regras_auto_categorizacao (disco m)) codigoempresa
               conta_id id)
      (filter (fun l => negb (duplicada (disco m) codigoempresa conta_id l))
              linhas)
      novas /\
    In lote (importacoes_extrato (disco m')) /\
    imp_id lote = id /\
    imp_total_no_arquivo lote = Z.of_nat (List.length linhas) /\
    imp_total_deduplicados lote
    = Z.of_nat (List.length
                  (filter (duplicada (disco m) codigoempresa conta_id) linhas)) /\
    imp_total_desconhecidos_pos_importacao lote
    = Z.of_nat (List.length
                  (filter (sem_sugestao_de_regra
                             (regras_auto_categorizacao (disco m))) novas)).
Proof.
  unfold importar_arquivo_e_criar_staging, insert_importacao, get_connection.
  destruct (detectar_formato_arquivo (arq_suffix arquivo)) as [tipo|e];
    [|discriminate].
  set (novo_id := proximo_id imp_id (importacoes_extrato (disco m))).
  set (conn := com_importacoes (disco m) _).
  destruct (if tipo =? "OFX" then _ else _) as [linhas|e]; [|discriminate].
  intros Heq. injection Heq as Hm' Hid. subst id.
  destruct (gravar_staging_resultado (registrar InsertImportacao m) conn
              codigoempresa conta_id novo_id linhas)
    as (novas & passos & Hc & Hd & Hh & Hq & Hf & Htd & Htu).
  simpl in Hd, Hh, Hf, Htu.
  exists linhas, novas,
    ([InsertImportacao] ++ passos ++ [UpdateTotaisImportacao]),
    {| imp_id := novo_id;
       imp_codigoempresa := codigoempresa;
       imp_conta_id := conta_id;
       imp_tipo_arquivo := tipo;
       imp_nome_arquivo := arq_name arquivo;
       imp_data_importacao := agora;
       imp_total_no_arquivo := Z.of_nat (List.length linhas);
       imp_total_deduplicados :=
         Z.of_nat (List.length
                     (filter (duplicada conn codigoempresa conta_id) linhas));
       imp_total_importados := 0;
       imp_total_desconhecidos_pos_importacao :=
         Z.of_nat (List.length
                     (filter (sem_sugestao_de_regra
                                (regras_auto_categorizacao (disco m))) novas))
    |}.
  subst m'. unfold commit, update_totais. simpl.
  rewrite Hc, Hh, Htd, Htu. simpl.
  repeat split; try reflexivity; try assumption.
  - rewrite <- !app_assoc. reflexivity.
  - unfold consultas_de_regras in *. simpl.
    rewrite filter_app, length_app, Hq. simpl. lia.
  - rewrite map_app. apply in_or_app. right. simpl.
    rewrite Z.eqb_refl. left. reflexivity.
Qed.

End Importacao.

(** ** Staging: claims C4, C2 and C7 *)

(** C4.  After an import that returned, the batch row holds
    total_no_arquivo = total_deduplicados + the number of staging rows the
    import inserted, and total_desconhecidos_pos_importacao is the number of
    those rows for which the rules give no category, cost centre or
    suggested description. *)
Theorem C4_contadores_do_lote :
  forall `{PyLib} (m m' : mundo) (codigoempresa : string) (conta_id : Z)
         (usuario_id : option Z) (arquivo : Arquivo) (agora : string) (id : Z),
    importar_arquivo_e_criar_staging m codigoempresa conta_id usuario_id
      arquivo agora = (m', Ok id) ->
    exists (lote : importacao) (novas : list staging),
      In lote (importacoes_extrato (disco m')) /\
      imp_id lote = id /\
      staging_transacoes_import (disco m')
      = staging_transacoes_import (disco m) ++ novas /\
      Forall (fun s => st_importacao_id s = id) novas /\
      imp_total_no_arquivo lote
      = (imp_total_deduplicados lote + Z.of_nat (List.length novas))%Z /\
      imp_total_desconhecidos_pos_importacao lote
      = Z.of_nat (List.length
                    (filter (sem_sugestao_de_regra
                               (regras_auto_categorizacao (disco m))) novas)).
Proof.
  intros lib m m' emp conta usr arq agora id Himp.
  destruct (importar_sucesso _ _ _ _ _ _ Himp)
    as (linhas & novas & passos & lote & Hst & _ & _ & _ & _ & Hf & Hin & Hid
        & Hn & Hd & Hu).
  exists lote, novas.
  repeat split; try assumption.
  - clear - Hf. induction Hf as [|l s ls ss Hv _ IH]; constructor; [|exact IH].
    apply (vem_de_campos Hv).
  - rewrite Hn, Hd, (filter_particao (duplicada (disco m) emp conta) linhas).
    rewrite (Forall2_length Hf). lia.
Qed.

Lemma C4_witness :
  let m' := fst (importar_arquivo_e_criar_staging (H := Exemplo.lib)
                   Casos.banco_com_pix "E1" 1 None
                   (Casos.extrato_csv Casos.dez_linhas) "2024-03-10 09:00:00") in
  map (fun i => (imp_total_no_arquivo i, imp_total_deduplicados i,
                 imp_total_desconhecidos_pos_importacao i))
      (importacoes_extrato (disco m')) = [(10, 3, 2)%Z] /\
  exists (lote : importacao) (novas : list staging),
    In lote (importacoes_extrato (disco m')) /\
    imp_id lote = 1%Z /\
    staging_transacoes_import (disco m')
    = staging_transacoes_import (disco Casos.banco_com_pix) ++ novas /\
    Forall (fun s => st_importacao_id s = 1%Z) novas /\
    imp_total_no_arquivo lote
    = (imp_total_deduplicados lote + Z.of_nat (List.length novas))%Z /\
    imp_total_desconhecidos_pos_importacao lote
    = Z.of_nat (List.length
                  (filter (sem_sugestao_de_regra (H := Exemplo.lib)
                             (regras_auto_categorizacao
                                (disco Casos.banco_com_pix))) novas)).
Proof.
  intros m'. split; [vm_compute; reflexivity|].
  apply (@C4_contadores_do_lote Exemplo.lib Casos.banco_com_pix m' "E1" 1%Z
           None (Casos.extrato_csv Casos.dez_linhas) "2024-03-10 09:00:00" 1%Z).
  vm_compute. reflexivity.
Defined.

(** C2, as the code has it.  The rule set is read from the store again for
    every line that is not a duplicate: an import that returned has issued
    as many rule queries as it staged rows.  The import itself leaves the
    rule table as it found it, and every row it staged carries the
    suggestion of the rule table as it was when the import began. *)
Theorem C2_regras_consultadas_por_linha :
  forall `{PyLib} (m m' : mundo) (codigoempresa : string) (conta_id : Z)
         (usuario_id : option Z) (arquivo : Arquivo) (agora : string) (id : Z),
    importar_arquivo_e_criar_staging m codigoempresa conta_id usuario_id
      arquivo agora = (m', Ok id) ->
    exists (novas : list staging) (passos : list instrucao),
      historico m' = historico m ++ passos /\
      staging_transacoes_import (disco m')
      = staging_transacoes_import (disco m) ++ novas /\
      consultas_de_regras passos = List.length novas /\
      regras_auto_categorizacao (disco m')
      = regras_auto_categorizacao (disco m) /\
      Forall (fun s => exists l,
                  vem_de (regras_auto_categorizacao (disco m)) codigoempresa
                    conta_id id l s) novas.
Proof.
  intros lib m m' emp conta usr arq agora id Himp.
  destruct (importar_sucesso _ _ _ _ _ _ Himp)
    as (linhas & novas & passos & lote & Hst & _ & Hr & Hh & Hq & Hf & _).
  exists novas, passos.
  repeat split; try assumption.
  clear - Hf. induction Hf as [|l s ls ss Hv _ IH]; constructor; [|exact IH].
  exists l. exact Hv.
Qed.

Lemma C2_witness :
  let m' := fst (importar_arquivo_e_criar_staging (H := Exemplo.lib)
                   Casos.banco_com_pix "E1" 1 None
                   (Casos.extrato_csv Casos.dez_linhas) "2024-03-10 09:00:00") in
  consultas_de_regras (historico m') = 7%nat /\
  exists (novas : list staging) (passos : list instrucao),
    historico m' = historico Casos.banco_com_pix ++ passos /\
    staging_transacoes_import (disco m')
    = staging_transacoes_import (disco Casos.banco_com_pix) ++ novas /\
    consultas_de_regras passos = List.length novas /\
    regras_auto_categorizacao (disco m')
    = regras_auto_categorizacao (disco Casos.banco_com_pix) /\
    Forall (fun s => exists l,
                vem_de (H := Exemplo.lib)
                  (regras_auto_categorizacao (disco Casos.banco_com_pix))
                  "E1" 1%Z 1%Z l s) novas.
Proof.
  intros m'. split; [vm_compute; reflexivity|].
  apply (@C2_regras_consultadas_por_linha Exemplo.lib Casos.banco_com_pix m'
           "E1" 1%Z None (Casos.extrato_csv Casos.dez_linhas)
           "2024-03-10 09:00:00" 1%Z).
  vm_compute. reflexivity.
Defined.

(** C2 as stated fails: importing a file of two new lines reads the rule
    set twice, once per line. *)
Lemma C2_counterexample :
  ~ regras_lidas_uma_vez
      (historico
         (fst (importar_arquivo_e_criar_staging (H := Exemplo.lib)
                 (Casos.banco [Casos.regra_pix_10] []) "E1" 1 None
                 (Casos.extrato_csv
                    [ ["06/03/2024"; "Pix loja"; "250,00"];
                      ["07/03/2024"; "Tarifa bancaria"; "-12,90"] ])
                 "2024-03-10 09:00:00"))).
Proof.
  unfold regras_lidas_uma_vez.
  replace (consultas_de_regras _) with 2%nat by (vm_compute; reflexivity).
  lia.
Qed.

(** C7.  The duplicate test of a line looks only at the ledger: it is a
    hit exactly when some persisted transaction has the same tenant,
    account, lancamento date, amount and raw description.  The lines of the
    file are never compared with each other: the rows staged are the lines
    without a ledger hit, each one as often as it occurs, so a line absent
    from the ledger and present twice in the file is staged twice. *)
Theorem C7_deduplicacao_so_contra_o_ledger :
  forall `{PyLib} (m : mundo) (conn : db) (codigoempresa : string)
         (conta_id importacao_id : Z) (l : linha),
    duplicada conn codigoempresa conta_id l = false ->
    let tabela := regras_auto_categorizacao (disco m) in
    (forall l', duplicada conn codigoempresa conta_id l' = true <->
                exists t, In t (transactions conn) /\
                          mesma_no_ledger codigoempresa conta_id l' t) /\
    (forall linhas, exists novas,
        staging_transacoes_import
          (lc_conn (_gravar_staging m conn codigoempresa conta_id
                      importacao_id linhas))
        = staging_transacoes_import conn ++ novas /\
        Forall2 (vem_de tabela codigoempresa conta_id importacao_id)
          (filter (fun l' => negb (duplicada conn codigoempresa conta_id l'))
                  linhas)
          novas) /\
    (exists s1 s2,
        let st := _gravar_staging m conn codigoempresa conta_id importacao_id
                    [l; l] in
        staging_transacoes_import (lc_conn st)
        = staging_transacoes_import conn ++ [s1; s2] /\
        vem_de tabela codigoempresa conta_id importacao_id l s1 /\
        vem_de tabela codigoempresa conta_id importacao_id l s2 /\
        st_id s1 <> st_id s2 /\
        total_deduplicados st = 0%Z).
Proof.
  intros lib m conn emp conta imp l Hl tabela.
  split; [intros l'; apply duplicada_true|].
  split.
  - intros linhas.
    destruct (gravar_staging_resultado m conn emp conta imp linhas)
      as (novas & passos & Hc & _ & _ & _ & Hf & _).
    exists novas. rewrite Hc. split; [reflexivity | exact Hf].
  - set (s1 := linha_em_staging tabela emp conta imp
                 (proximo_id st_id (staging_transacoes_import conn)) l).
    set (s2 := linha_em_staging tabela emp conta imp
                 (proximo_id st_id (staging_transacoes_import conn ++ [s1])) l).
    exists s1, s2.
    assert (Hid : forall id, st_id (linha_em_staging tabela emp conta imp id l) = id).
    { intros id. unfold linha_em_staging.
      destruct (sugestao_da_linha tabela emp l) as [[[c cc] d] f]. reflexivity. }
    unfold _gravar_staging. simpl fold_left.
    rewrite (@gravar_linha_nova lib emp conta imp tabela
               {| lc_mundo := m; lc_conn := conn;
                  total_deduplicados := 0; total_desconhecidos := 0 |}
               l eq_refl Hl).
    erewrite (@gravar_linha_nova lib emp conta imp tabela);
      [|reflexivity|exact Hl].
    simpl. fold s1. fold s2. rewrite <- app_assoc. simpl.
    repeat split; try apply vem_de_linha.
    unfold s1 at 1, s2 at 1. rewrite !Hid.
    assert (Hlt : (st_id s1 < proximo_id st_id
                               (staging_transacoes_import conn ++ [s1]))%Z).
    { apply proximo_id_maior, in_or_app. right. left. reflexivity. }
    unfold s1 in Hlt at 1. rewrite Hid in Hlt. lia.
Qed.

Lemma C7_witness :
  duplicada (disco (Casos.banco [] [])) "E1" 1 Casos.linha_pix = false /\
  map (fun s => (st_id s, st_data_lancamento s, st_descricao_extrato s, st_valor s))
      (staging_transacoes_import
         (lc_conn (_gravar_staging (H := Exemplo.lib) (Casos.banco [] [])
                     (disco (Casos.banco [] [])) "E1" 1 1
                     [Casos.linha_pix; Casos.linha_pix])))
  = [ (1%Z, Some "2024-03-05", Some "Pix recebido", 100%Q);
      (2%Z, Some "2024-03-05", Some "Pix recebido", 100%Q) ] /\
  exists s1 s2,
    let st := _gravar_staging (H := Exemplo.lib) (Casos.banco [] [])
                (disco (Casos.banco [] [])) "E1" 1 1
                [Casos.linha_pix; Casos.linha_pix] in
    staging_transacoes_import (lc_conn st)
    = staging_transacoes_import (disco (Casos.banco [] [])) ++ [s1; s2] /\
    vem_de (H := Exemplo.lib) [] "E1" 1 1 Casos.linha_pix s1 /\
    vem_de (H := Exemplo.lib) [] "E1" 1 1 Casos.linha_pix s2 /\
    st_id s1 <> st_id s2 /\
    total_deduplicados st = 0%Z.
Proof.
  split; [reflexivity|]. split; [vm_compute; reflexivity|].
  exact (proj2 (proj2 (@C7_deduplicacao_so_contra_o_ledger Exemplo.lib
           (Casos.banco [] []) (disco (Casos.banco [] [])) "E1" 1%Z 1%Z
           Casos.linha_pix eq_refl))).
Defined.

(** A line whose date is None is never a duplicate, whatever the
    ledger holds (the date comparison with NULL is never true, also against
    a ledger row whose own date is NULL), and when its amount is a finite
    number, as every [l_valor] is, it is staged, with a NULL date.  The
    amount NaN is in [gravar_staging_nan]. *)
Theorem linha_sem_data_valor_finito_em_staging :
  forall `{PyLib} (m : mundo) (conn : db) (codigoempresa : string)
         (conta_id importacao_id : Z) (l : linha) (antes depois : list linha),
    l_data l = None ->
    duplicada conn codigoempresa conta_id l = false /\
    exists (n1 : list staging) (s : staging) (n2 : list staging),
      staging_transacoes_import
        (lc_conn (_gravar_staging m conn codigoempresa conta_id importacao_id
                    (antes ++ l :: depois)))
      = staging_transacoes_import conn ++ n1 ++ s :: n2 /\
      vem_de (regras_auto_categorizacao (disco m)) codigoempresa conta_id
        importacao_id l s /\
      st_data_lancamento s = None.
Proof.
  intros lib m conn emp conta imp l antes depois Hd.
  pose proof (sem_data_nao_duplica conn emp conta l Hd) as Hl.
  split; [exact Hl|].
  destruct (gravar_staging_resultado m conn emp conta imp (antes ++ l :: depois))
    as (novas & passos & Hc & _ & _ & _ & Hf & _).
  rewrite filter_app in Hf. simpl in Hf. rewrite Hl in Hf. simpl in Hf.
  apply Forall2_app_inv_l in Hf as (n1 & n2' & _ & Hf2 & ->).
  inversion Hf2 as [|? s ? n2 Hv _]; subst.
  exists n1, s, n2. rewrite Hc. simpl.
  split; [reflexivity|]. split; [exact Hv|].
  destruct (vem_de_campos Hv) as (_ & _ & _ & Hdata & _).
  rewrite Hdata. exact Hd.
Qed.

Lemma linha_sem_data_valor_finito_em_staging_witness :
  l_data Casos.linha_sem_data = None /\
  duplicada (disco (Casos.banco [] [Casos.transacao_pix SNull])) "E1" 1
    Casos.linha_sem_data = false /\
  exists (n1 : list staging) (s : staging) (n2 : list staging),
    staging_transacoes_import
      (lc_conn (_gravar_staging (H := Exemplo.lib)
                  (Casos.banco [] [Casos.transacao_pix SNull])
                  (disco (Casos.banco [] [Casos.transacao_pix SNull]))
                  "E1" 1 1 ([] ++ Casos.linha_sem_data :: [])))
    = staging_transacoes_import
        (disco (Casos.banco [] [Casos.transacao_pix SNull])) ++ n1 ++ s :: n2 /\
    vem_de (H := Exemplo.lib) [] "E1" 1 1 Casos.linha_sem_data s /\
    st_data_lancamento s = None.
Proof.
  split; [reflexivity|].
  exact (@linha_sem_data_valor_finito_em_staging Exemplo.lib
           (Casos.banco [] [Casos.transacao_pix SNull])
           (disco (Casos.banco [] [Casos.transacao_pix SNull]))
           "E1" 1%Z 1%Z Casos.linha_sem_data [] [] eq_refl).
Defined.

(** ** Confirmation: claims C6 and C1 *)

Lemma maior_que_zero_spec (valor : Q) :
  maior_que_zero valor = true <-> (0 < valor)%Q.
Proof.
  unfold maior_que_zero. rewrite negb_true_iff.
  split.
  - intros Hb. apply Qnot_le_lt. intros Hle.
    apply Qle_bool_iff in Hle. congruence.
  - intros Hlt. destruct (Qle_bool valor 0) eqn:E; [|reflexivity].
    apply Qle_bool_iff in E. exfalso. exact (Qlt_not_le _ _ Hlt E).
Qed.

(** The value the confirmation binds to the column tipo_movimento
    is decided by the test [valor > 0] alone: "credito" when the amount is
    greater than zero and "debito" for every other amount, zero included. *)
Theorem tipo_movimento_pelo_sinal :
  forall (codigoempresa : string) (importacao_id : Z) (row : staging),
  exists i : nat,
    index_of "tipo_movimento" colunas_insert_transactions = Some i /\
    nth_error (params_transacao codigoempresa importacao_id row) i
    = Some (SText (if Qlt_le_dec 0 (st_valor row) then "credito" else "debito")).
Proof.
  intros emp imp row. exists 6%nat. split; [reflexivity|].
  simpl. do 2 f_equal.
  destruct (Qlt_le_dec 0 (st_valor row)) as [Hlt|Hle].
  - apply maior_que_zero_spec in Hlt. rewrite Hlt. reflexivity.
  - destruct (maior_que_zero (st_valor row)) eqn:E; [|reflexivity].
    apply maior_que_zero_spec in E. exfalso. exact (Qlt_not_le _ _ E Hle).
Qed.

(** The amounts 100.00, -50.00 and 0.00 of the specification. *)
Example tipo_movimento_100_50_0 :
  map (fun valor =>
         nth_error (params_transacao "E1" 1 (Casos.staging_de_valor 1 valor)) 6)
      [100%Q; (-50)%Q; 0%Q]
  = [Some (SText "credito"); Some (SText "debito"); Some (SText "debito")].
Proof.
  reflexivity.
Qed.

(** The confirmation binds eleven values where its statement has twelve
    placeholders: no value is bound for the column valor. *)
Lemma params_transacao_onze (codigoempresa : string) (importacao_id : Z)
    (row : staging) :
  List.length (params_transacao codigoempresa importacao_id row) = 11%nat /\
  List.length colunas_insert_transactions = 12%nat.
Proof.
  split; reflexivity.
Qed.

(** Paired with the columns in order, the first seven bound values sit
    under their own column and the eighth, the suggested category, under
    valor. *)
Lemma params_transacao_por_coluna (codigoempresa : string) (importacao_id : Z)
    (row : staging) :
  firstn 8 (combine colunas_insert_transactions
              (params_transacao codigoempresa importacao_id row))
  = [ ("codigoempresa", SText codigoempresa);
      ("conta_id", SInt (st_conta_id row));
      ("data_lancamento", de_texto (st_data_lancamento row));
      ("data_competencia", de_texto (st_data_lancamento row));
      ("descricao_extrato", de_texto (st_descricao_extrato row));
      ("descricao_tratada", de_texto (st_descricao_extrato row));
      ("tipo_movimento",
       SText (if maior_que_zero (st_valor row) then "credito" else "debito"));
      ("valor", de_inteiro (st_categoria_sugerida_id row)) ].
Proof.
  reflexivity.
Qed.

Lemma insert_transactions_da_confirmacao (conn : db) (agora : string)
    (codigoempresa : string) (importacao_id : Z) (row : staging) :
  insert_transactions conn agora
    (params_transacao codigoempresa importacao_id row)
  = Erro (ProgrammingError "Incorrect number of bindings supplied").
Proof.
  reflexivity.
Qed.

(** Confirming a batch that has a staging row raises on the first row and
    commits nothing. *)
Lemma confirmar_lote_nao_vazio (m : mundo) (codigoempresa agora : string)
    (importacao_id : Z) (row : staging) (resto : list staging) :
  importacao_id <> 0%Z ->
  select_staging (disco m) codigoempresa importacao_id = row :: resto ->
  _confirmar_importacao m codigoempresa (Some importacao_id) true agora
  = (registrar InsertTransactions (registrar SelectStaging m),
     Erro (ProgrammingError "Incorrect number of bindings supplied")).
Proof.
  intros Hid Hsel. unfold _confirmar_importacao, get_connection.
  apply Z.eqb_neq in Hid. rewrite Hid, Hsel. reflexivity.
Qed.

(** Confirming a batch without staging rows sets its counter to 0. *)
Lemma confirmar_lote_vazio (m : mundo) (codigoempresa agora : string)
    (importacao_id : Z) :
  importacao_id <> 0%Z ->
  select_staging (disco m) codigoempresa importacao_id = [] ->
  _confirmar_importacao m codigoempresa (Some importacao_id) true agora
  = (commit (registrar UpdateTotalImportados (registrar SelectStaging m))
       (update_total_importados (disco m) 0 importacao_id),
     Ok ImportacaoConfirmada).
Proof.
  intros Hid Hsel. unfold _confirmar_importacao, get_connection.
  apply Z.eqb_neq in Hid. rewrite Hid, Hsel. reflexivity.
Qed.

(** C1, on a batch with one staged row: the confirmation raises
    ProgrammingError at the first INSERT, the ledger receives no row and
    the batch's total_importados stays 0, where the claim has one ledger
    row and a counter of 1. *)
Theorem C1_confirmacao_de_um_lote :
  let r := _confirmar_importacao Casos.banco_um_em_staging "E1" (Some 1%Z) true
             "2024-03-10 09:05:00" in
  select_staging (disco Casos.banco_um_em_staging) "E1" 1
  = [Casos.staging_de_valor 1 250] /\
  snd r = Erro (ProgrammingError "Incorrect number of bindings supplied") /\
  transactions (disco (fst r)) = [] /\
  map imp_total_importados (importacoes_extrato (disco (fst r))) = [0%Z].
Proof.
  repeat split.
Qed.


(** ** CSV parsing: claim C3 *)

Section Csv.
Context `{PyLib}.

(** Without any role column in the header nothing is indexed and no
    row can fail. *)
Lemma csv_sem_colunas_nunca_falha (rows : list (list string))
    (linhas : list linha) :
  exists novas,
    csv_linhas None None None rows linhas = Ok (linhas ++ novas) /\
    Forall (fun l => l_data l = None /\ l_descricao l = Some EmptyString
                     /\ l_valor l = Some (br_to_float "0")) novas.
Proof.
  revert linhas. induction rows as [|row resto IH]; intros linhas.
  - exists []. rewrite app_nil_r. split; [reflexivity | constructor].
  - simpl. unfold csv_linha.
    destruct (_ || _); simpl.
    + apply IH.
    + destruct (IH (linhas ++
                    [{| l_data := None; l_descricao := Some EmptyString;
                        l_favorecido := Some EmptyString;
                        l_valor := Some (br_to_float "0") |}]))
        as (novas & Hn & Hf).
      eexists (_ :: novas). rewrite <- app_assoc in Hn. simpl in Hn.
      split; [exact Hn|].
      constructor; [repeat split | exact Hf].
Qed.

(** C3, on a file whose data row is shorter than its header: the row
    ["06/03/2024"] under the header Data;Descricao;Valor makes
    [_parse_csv] raise IndexError, and the import raises with it, where
    the claim has the row dropped or defaulted. *)
Theorem C3_linha_curta_levanta_IndexError :
  _parse_csv [["Data"; "Descricao"; "Valor"]; ["06/03/2024"]]
  = Erro IndexError /\
  importar_arquivo_e_criar_staging (Casos.banco [] []) "E1" 1 None
    {| arq_suffix := ".csv"; arq_name := "curto.csv"; arq_linhas := [];
       arq_csv := [["Data"; "Descricao"; "Valor"]; ["06/03/2024"]] |}
    "2024-03-10 09:00:00"
  = (registrar InsertImportacao (Casos.banco [] []), Erro IndexError).
Proof.
  split; reflexivity.
Qed.

End Csv.

(** ** The import with every exception: claims C8 and C10 *)

Section Excecoes.
Context `{PyLib}.
Variable re_search_py : string -> string -> re_desfecho.
Variable float_py : string -> option pyfloat.

(** What [re.search] raises, [_match_pattern] raises: [except re.error]
    catches [re.error] alone. *)
Lemma match_pattern_levanta (valor padrao : string) (e : excecao) :
  re_search_py padrao valor = ReLevanta e ->
  ComExcecoes._match_pattern re_search_py valor "regex" padrao = Erro e.
Proof.
  intros He. unfold ComExcecoes._match_pattern. simpl. rewrite He. reflexivity.
Qed.

(** The scan ends at the first rule that raises: the rules after it are
    not evaluated. *)
Lemma percorrer_regras_levanta (campo : string -> string)
    (l1 : list regra) (r : regra) (l2 : list regra) (e : excecao) :
  Forall (ComExcecoes.regra_nao_casa re_search_py campo) l1 ->
  ComExcecoes.regra_levanta re_search_py campo r e ->
  ComExcecoes.percorrer_regras re_search_py campo (l1 ++ r :: l2) = Erro e.
Proof.
  intros Hl1 (Ht & Htipo & He).
  induction Hl1 as [|r' l1 Hr' _ IH]; simpl.
  - rewrite Ht. simpl. rewrite Htipo.
    rewrite (match_pattern_levanta He). reflexivity.
  - destruct Hr' as [Hv|Hm].
    + rewrite Hv. simpl. exact IH.
    + destruct (PyStr.truthy (campo (r_campo_alvo r'))); simpl; [|exact IH].
      rewrite Hm. simpl. exact IH.
Qed.

(** With NaN bound as NULL the comparison of the amounts is never true:
    no ledger row is a hit. *)
Lemma nan_nunca_duplica (conn : db) (codigoempresa : string) (conta_id : Z)
    (data_str : option string) (descricao : string) :
  ComExcecoes.select_duplicada conn codigoempresa conta_id data_str NaN
    descricao = [].
Proof.
  unfold ComExcecoes.select_duplicada.
  induction (transactions conn) as [|t ts IH]; [reflexivity|].
  cbn [filter]. rewrite IH.
  replace (sql_where _) with false; [reflexivity|]. simpl.
  destruct (sql_eq (t_codigoempresa t) (SText codigoempresa)) as [[]|];
    destruct (sql_eq (t_conta_id t) (SInt conta_id)) as [[]|];
    destruct (sql_eq (t_data_lancamento t) (de_texto data_str)) as [[]|];
    destruct (sql_eq (t_descricao_extrato t) (SText descricao)) as [[]|];
    destruct (t_valor t); reflexivity.
Qed.

(** A line whose amount is NaN leaves the loop with an exception: the
    one of the rule scan, or the IntegrityError of the INSERT. *)
Lemma gravar_linha_nan (codigoempresa : string) (conta_id importacao_id : Z)
    (st : laco) (l : linha_py) :
  lp_valor l = Some NaN ->
  exists m e,
    ComExcecoes.gravar_linha re_search_py codigoempresa conta_id importacao_id
      st l = Levanta m e /\
    disco m = disco (lc_mundo st) /\
    (snd (ComExcecoes.aplicar_regras_auto_categorizacao re_search_py
            (registrar SelectTransactions (lc_mundo st)) codigoempresa
            (ou_vazio (lp_descricao l)) (Some (ou_vazio (lp_favorecido l)))
            None) = Erro e \/
     e = IntegrityError
           "NOT NULL constraint failed: staging_transacoes_import.valor").
Proof.
  intros Hv. unfold ComExcecoes.gravar_linha. rewrite Hv.
  rewrite nan_nunca_duplica. simpl.
  destruct (ComExcecoes.percorrer_regras _ _ _) as [[[[cat cc] d] f]|e] eqn:E.
  - eexists _, _. split; [reflexivity|]. split; [reflexivity|].
    right. reflexivity.
  - exists (registrar SelectRegras (registrar SelectTransactions (lc_mundo st))), e.
    split; [reflexivity|]. split; [reflexivity|]. left. reflexivity.
Qed.

(** The loop of [_gravar_staging] works on its connection: the committed
    database is the same at every step, also when an exception leaves the
    loop. *)
Lemma gravar_linha_disco (codigoempresa : string) (conta_id importacao_id : Z)
    (st : laco) (l : linha_py) :
  match ComExcecoes.gravar_linha re_search_py codigoempresa conta_id
          importacao_id st l with
  | Segue st' => disco (lc_mundo st') = disco (lc_mundo st)
  | Levanta m e => disco m = disco (lc_mundo st)
  end.
Proof.
  unfold ComExcecoes.gravar_linha.
  destruct (fetchone _); [reflexivity|]. simpl.
  destruct (ComExcecoes.percorrer_regras _ _ _) as [[[[cat cc] d] f]|e];
    [|reflexivity].
  destruct (ComExcecoes.insert_staging _ _ _ _ _ _ _ _ _ _ _ _ _); reflexivity.
Qed.

Lemma laco_linhas_disco (codigoempresa : string) (conta_id importacao_id : Z)
    (linhas : list linha_py) (st : laco) :
  match ComExcecoes.laco_linhas re_search_py codigoempresa conta_id
          importacao_id linhas st with
  | Segue st' => disco (lc_mundo st') = disco (lc_mundo st)
  | Levanta m e => disco m = disco (lc_mundo st)
  end.
Proof.
  revert st. induction linhas as [|l resto IH]; intros st; simpl;
    [reflexivity|].
  pose proof (gravar_linha_disco codigoempresa conta_id importacao_id st l)
    as Hl.
  destruct (ComExcecoes.gravar_linha _ _ _ _ _ _) as [st'|m e]; [|exact Hl].
  specialize (IH st').
  destruct (ComExcecoes.laco_linhas _ _ _ _ _ _); congruence.
Qed.

(** A file with a line whose amount is NaN is never staged: the loop is
    left with an exception, whatever the other lines are. *)
Lemma gravar_staging_nan (m : mundo) (conn : db) (codigoempresa : string)
    (conta_id importacao_id : Z) (antes depois : list linha_py)
    (l : linha_py) :
  lp_valor l = Some NaN ->
  exists m' e,
    ComExcecoes._gravar_staging re_search_py m conn codigoempresa conta_id
      importacao_id (antes ++ l :: depois) = Levanta m' e.
Proof.
  intros Hv. unfold ComExcecoes._gravar_staging.
  generalize {| lc_mundo := m; lc_conn := conn;
                total_deduplicados := 0; total_desconhecidos := 0 |}.
  induction antes as [|a antes IH]; intros st; simpl.
  - destruct (gravar_linha_nan codigoempresa conta_id importacao_id st l Hv)
      as (m' & e & -> & _). exists m', e. reflexivity.
  - destruct (ComExcecoes.gravar_linha _ _ _ _ _ _) as [st'|m' e].
    + apply IH.
    + exists m', e. reflexivity.
Qed.

(** Whatever the import raises, the committed database is the one it
    started from. *)
Lemma importar_com_excecao_disco (m : mundo) (codigoempresa : string)
    (conta_id : Z) (usuario_id : option Z) (arquivo : ArquivoPy)
    (agora : string) (e : excecao) :
  snd (ComExcecoes.importar_arquivo_e_criar_staging re_search_py float_py m
         codigoempresa conta_id usuario_id arquivo agora) = Erro e ->
  disco (fst (ComExcecoes.importar_arquivo_e_criar_staging re_search_py
                float_py m codigoempresa conta_id usuario_id arquivo agora))
  = disco m.
Proof.
  unfold ComExcecoes.importar_arquivo_e_criar_staging.
  destruct (detectar_formato_arquivo _) as [tipo|e0]; [|reflexivity].
  unfold insert_importacao. cbv zeta.
  match goal with
  | |- context [match ?p with Ok _ => _ | Erro _ => _ end] =>
      destruct p as [linhas|e1]
  end; [|reflexivity].
  unfold ComExcecoes._gravar_staging.
  match goal with
  | |- context [ComExcecoes.laco_linhas ?a ?b ?c ?d ?ls ?st] =>
      pose proof (laco_linhas_disco b c d ls st) as Hl;
      destruct (ComExcecoes.laco_linhas a b c d ls st) as [st'|m' e1]
  end.
  - simpl. discriminate.
  - intros _. exact Hl.
Qed.

End Excecoes.

(** C8, on a regex rule whose pattern is [(a{99999999999}]: the pattern
    does not compile, but what [re.search] raises for it is OverflowError,
    which [except re.error] does not catch.  [_match_pattern] raises, the
    scan ends there although the rule of lower priority matches the line,
    and an import of a line under that rule set raises and commits
    nothing, where the claim has a non-match and the scan going on. *)
Theorem C8_regex_malformado_levanta_OverflowError :
  let m := Casos.banco [Casos.regra_pix_5; Casos.regra_regex_estouro] [] in
  select_regras (regras_auto_categorizacao (disco m)) "E1"
  = [Casos.regra_regex_estouro; Casos.regra_pix_5] /\
  ComExcecoes._match_pattern search_com_overflow "PIX RECEBIDO"
    (r_tipo_match Casos.regra_regex_estouro)
    (r_padrao_texto Casos.regra_regex_estouro)
  = Erro OverflowError /\
  ComExcecoes._match_pattern search_com_overflow "PIX RECEBIDO"
    (r_tipo_match Casos.regra_pix_5) (r_padrao_texto Casos.regra_pix_5)
  = Ok true /\
  snd (ComExcecoes.aplicar_regras_auto_categorizacao search_com_overflow m
         "E1" "PIX RECEBIDO" None None)
  = Erro OverflowError /\
  (let r := ComExcecoes.importar_arquivo_e_criar_staging (H := Exemplo.lib)
              search_com_overflow float_com_nan m "E1" 1 None
              (de_arquivo
                 (Casos.extrato_csv [["05/03/2024"; "PIX RECEBIDO"; "100,00"]]))
              "2024-03-10 09:00:00" in
   snd r = Erro OverflowError /\ disco (fst r) = disco m).
Proof.
  repeat split.
Qed.

(** C10, on a CSV row without a date whose amount text is nan:
    [br_to_float] returns NaN, the line is not a duplicate, and the INSERT
    into the staging table raises IntegrityError, since sqlite3 binds NaN
    as NULL and the column valor is NOT NULL.  The import raises and
    commits nothing: the line is not staged, where the claim has every
    line without a date staged. *)
Theorem C10_linha_sem_data_com_nan_nao_entra_em_staging :
  let m := Casos.banco [] [] in
  let r := ComExcecoes.importar_arquivo_e_criar_staging (H := Exemplo.lib)
             search_com_overflow float_com_nan m "E1" 1 None extrato_csv_nan
             "2024-03-10 09:00:00" in
  ComExcecoes.br_to_float float_com_nan "nan" = NaN /\
  (rows <- ap_csv extrato_csv_nan ;;
   ComExcecoes._parse_csv (H := Exemplo.lib) float_com_nan rows)
  = Ok [linha_sem_data_nan] /\
  lp_data linha_sem_data_nan = None /\
  ComExcecoes.select_duplicada (disco m) "E1" 1 None NaN "Pix" = [] /\
  ComExcecoes._gravar_staging search_com_overflow
    (registrar InsertImportacao m)
    (fst (insert_importacao (disco m) "E1" 1 "CSV" "extrato.csv"
            "2024-03-10 09:00:00"))
    "E1" 1 1 [linha_sem_data_nan]
  = Levanta
      (registrar InsertStaging
         (registrar SelectRegras
            (registrar SelectTransactions (registrar InsertImportacao m))))
      (IntegrityError
         "NOT NULL constraint failed: staging_transacoes_import.valor") /\
  snd r = Erro (IntegrityError
                  "NOT NULL constraint failed: staging_transacoes_import.valor") /\
  staging_transacoes_import (disco (fst r)) = [] /\
  importacoes_extrato (disco (fst r)) = [].
Proof.
  repeat split.
Qed.

(** ** The two embeddings agree

    When [re.search] raises [re.error] at most, [float] returns finite
    numbers and the file is read, the functions of [ComExcecoes] raise
    what the functions of the first embedding raise and return what they
    return. *)

Section Concordancia.
Context `{PyLib}.
Variable re_search_py : string -> string -> re_desfecho.
Variable float_py : string -> option pyfloat.
Hypothesis Hlib : biblioteca_restrita re_search_py float_py.

Lemma match_pattern_concorda (valor tipo_match padrao : string) :
  ComExcecoes._match_pattern re_search_py valor tipo_match padrao
  = Ok (_match_pattern valor tipo_match padrao).
Proof.
  unfold ComExcecoes._match_pattern, _match_pattern.
  destruct Hlib as [Hre _]. rewrite Hre.
  repeat match goal with
         | |- context [if ?b then _ else _] => destruct b; try reflexivity
         end.
  destruct (re_search padrao valor); reflexivity.
Qed.

Lemma percorrer_regras_concorda (campo : string -> string)
    (regras : list regra) :
  ComExcecoes.percorrer_regras re_search_py campo regras
  = Ok (percorrer_regras campo regras).
Proof.
  induction regras as [|r resto IH]; simpl; [reflexivity|].
  rewrite match_pattern_concorda. simpl.
  destruct (negb _); [exact IH|].
  destruct (_match_pattern _ _ _); [reflexivity | exact IH].
Qed.

Lemma aplicar_regras_concorda (m : mundo) (codigoempresa descricao : string)
    (fav forma : option string) :
  ComExcecoes.aplicar_regras_auto_categorizacao re_search_py m codigoempresa
    descricao fav forma
  = (fst (aplicar_regras_auto_categorizacao m codigoempresa descricao fav
            forma),
     Ok (snd (aplicar_regras_auto_categorizacao m codigoempresa descricao fav
                forma))).
Proof.
  unfold ComExcecoes.aplicar_regras_auto_categorizacao,
    aplicar_regras_auto_categorizacao.
  rewrite percorrer_regras_concorda. reflexivity.
Qed.

Lemma br_to_float_concorda (value : string) :
  ComExcecoes.br_to_float float_py value = Finito (br_to_float value).
Proof.
  unfold ComExcecoes.br_to_float, br_to_float.
  destruct Hlib as [_ Hf]. rewrite Hf.
  destruct (negb _); [reflexivity|].
  destruct (py_float _); reflexivity.
Qed.

Lemma gravar_linha_concorda (codigoempresa : string)
    (conta_id importacao_id : Z) (st : laco) (l : linha) :
  ComExcecoes.gravar_linha re_search_py codigoempresa conta_id importacao_id
    st (de_linha l)
  = Segue (gravar_linha codigoempresa conta_id importacao_id st l).
Proof.
  unfold ComExcecoes.gravar_linha, gravar_linha.
  rewrite aplicar_regras_concorda.
  replace (match lp_valor (de_linha l) with
           | Some v => v
           | None => Finito 0
           end)
    with (Finito match l_valor l with Some v => v | None => 0%Q end)
    by (destruct l as [d de f [v|]]; reflexivity).
  change (ComExcecoes.select_duplicada (lc_conn st) codigoempresa conta_id
            (lp_data (de_linha l))
            (Finito match l_valor l with Some v => v | None => 0%Q end)
            (ou_vazio (lp_descricao (de_linha l))))
    with (select_duplicada (lc_conn st) codigoempresa conta_id (l_data l)
            match l_valor l with Some v => v | None => 0%Q end
            (ou_vazio (l_descricao l))).
  destruct (fetchone _); [reflexivity|].
  cbn [de_linha lp_data lp_descricao lp_favorecido].
  destruct (aplicar_regras_auto_categorizacao _ _ _ _ _)
    as [m' [[[cat cc] d] f]].
  reflexivity.
Qed.

Lemma laco_linhas_concorda (codigoempresa : string)
    (conta_id importacao_id : Z) (linhas : list linha) (st : laco) :
  ComExcecoes.laco_linhas re_search_py codigoempresa conta_id importacao_id
    (map de_linha linhas) st
  = Segue (fold_left (gravar_linha codigoempresa conta_id importacao_id)
             linhas st).
Proof.
  revert st. induction linhas as [|l resto IH]; intros st; simpl;
    [reflexivity|].
  rewrite gravar_linha_concorda. apply IH.
Qed.

Lemma gravar_staging_concorda (m : mundo) (conn : db) (codigoempresa : string)
    (conta_id importacao_id : Z) (linhas : list linha) :
  ComExcecoes._gravar_staging re_search_py m conn codigoempresa conta_id
    importacao_id (map de_linha linhas)
  = Segue (_gravar_staging m conn codigoempresa conta_id importacao_id linhas).
Proof.
  apply laco_linhas_concorda.
Qed.

Lemma ofx_passo_concorda (linhas : list linha) (current : linha)
    (line : string) :
  ComExcecoes.ofx_passo float_py (map de_linha linhas, de_linha current) line
  = (map de_linha (fst (ofx_passo (linhas, current) line)),
     de_linha (snd (ofx_passo (linhas, current) line))).
Proof.
  unfold ComExcecoes.ofx_passo, ofx_passo.
  destruct Hlib as [_ Hf]. rewrite Hf.
  repeat match goal with
         | |- context [if PyStr.startswith ?a ?b then _ else _] =>
             destruct (PyStr.startswith a b); [try reflexivity|]
         end.
  - destruct (py_float _); reflexivity.
  - replace (match lp_valor (de_linha current) with
             | Some _ => true
             | None => false
             end)
      with (match l_valor current with Some _ => true | None => false end)
      by (destruct current as [d de f [v|]]; reflexivity).
    cbn [de_linha lp_data].
    destruct (_ && _); simpl; [|reflexivity].
    rewrite map_app. reflexivity.
  - reflexivity.
Qed.

Lemma ofx_laco_concorda (content_lines : list string) (linhas : list linha)
    (current : linha) :
  fold_left (ComExcecoes.ofx_passo float_py) content_lines
    (map de_linha linhas, de_linha current)
  = (map de_linha (fst (fold_left ofx_passo content_lines (linhas, current))),
     de_linha (snd (fold_left ofx_passo content_lines (linhas, current)))).
Proof.
  revert linhas current.
  induction content_lines as [|line resto IH]; intros linhas current;
    [reflexivity|].
  cbn [fold_left]. rewrite ofx_passo_concorda.
  destruct (ofx_passo (linhas, current) line) as [linhas' current'].
  apply IH.
Qed.

Lemma parse_ofx_concorda (content_lines : list string) :
  ComExcecoes._parse_ofx float_py content_lines
  = map de_linha (_parse_ofx content_lines).
Proof.
  unfold ComExcecoes._parse_ofx, _parse_ofx.
  exact (f_equal fst (ofx_laco_concorda content_lines [] linha_vazia)).
Qed.

Lemma csv_linha_concorda (idx_data idx_desc idx_valor : option nat)
    (row : list string) :
  ComExcecoes.csv_linha float_py idx_data idx_desc idx_valor row
  = (r <- csv_linha idx_data idx_desc idx_valor row ;;
     Ok (option_map de_linha r)).
Proof.
  unfold ComExcecoes.csv_linha, csv_linha.
  destruct (_ || _); [reflexivity|].
  destruct idx_data as [i|], idx_desc as [j|], idx_valor as [k|]; simpl;
    repeat match goal with
           | |- context [item row ?n] => destruct (item row n); simpl
           end;
    try reflexivity; rewrite br_to_float_concorda; reflexivity.
Qed.

Lemma csv_linhas_concorda (idx_data idx_desc idx_valor : option nat)
    (rows : list (list string)) (linhas : list linha) :
  ComExcecoes.csv_linhas float_py idx_data idx_desc idx_valor rows
    (map de_linha linhas)
  = (ls <- csv_linhas idx_data idx_desc idx_valor rows linhas ;;
     Ok (map de_linha ls)).
Proof.
  revert linhas. induction rows as [|row resto IH]; intros linhas; simpl;
    [reflexivity|].
  rewrite csv_linha_concorda.
  destruct (csv_linha idx_data idx_desc idx_valor row) as [[l|]|e]; simpl.
  - rewrite <- IH, map_app. reflexivity.
  - apply IH.
  - reflexivity.
Qed.

Lemma parse_csv_concorda (reader : list (list string)) :
  ComExcecoes._parse_csv float_py reader
  = (ls <- _parse_csv reader ;; Ok (map de_linha ls)).
Proof.
  destruct reader as [|header rows]; [reflexivity|].
  unfold ComExcecoes._parse_csv, _parse_csv.
  apply (csv_linhas_concorda _ _ _ rows []).
Qed.

(** On a file that is read, with such a library, the import of
    [ComExcecoes] is the import of the first embedding. *)
Lemma importar_concorda (m : mundo) (codigoempresa : string) (conta_id : Z)
    (usuario_id : option Z) (arquivo : Arquivo) (agora : string) :
  ComExcecoes.importar_arquivo_e_criar_staging re_search_py float_py m
    codigoempresa conta_id usuario_id (de_arquivo arquivo) agora
  = importar_arquivo_e_criar_staging m codigoempresa conta_id usuario_id
      arquivo agora.
Proof.
  unfold ComExcecoes.importar_arquivo_e_criar_staging,
    importar_arquivo_e_criar_staging.
  cbn [de_arquivo ap_suffix ap_name ap_linhas ap_csv].
  destruct (detectar_formato_arquivo _) as [tipo|e]; [|reflexivity].
  unfold insert_importacao. cbv zeta. cbn [bind].
  rewrite parse_ofx_concorda, parse_csv_concorda.
  destruct (tipo =? "OFX").
  - rewrite gravar_staging_concorda, length_map. reflexivity.
  - destruct (tipo =? "CSV").
    + destruct (_parse_csv (arq_csv arquivo)) as [linhas|e]; [|reflexivity].
      cbn [bind]. rewrite gravar_staging_concorda, length_map. reflexivity.
    + change (@nil linha_py) with (map de_linha []).
      rewrite gravar_staging_concorda. reflexivity.
Qed.

End Concordancia.

(** The sample library of [Exemplo], seen as a library of [ComExcecoes],
    is such a library. *)
Example biblioteca_restrita_exemplo :
  biblioteca_restrita (H := Exemplo.lib)
    (fun padrao valor => ReDevolve (Exemplo.search padrao valor))
    (fun s => option_map Finito (Exemplo.float s)).
Proof.
  split; reflexivity.
Qed.

(** * Further properties *)

(** ** Letter case *)

Lemma upper_char_upper (c : ascii) :
  PyStr.upper_char (PyStr.upper_char c) = PyStr.upper_char c.
Proof.
  destruct c as [[] [] [] [] [] [] [] []]; reflexivity.
Qed.

Lemma upper_char_lower (c : ascii) :
  PyStr.upper_char (PyStr.lower_char c) = PyStr.upper_char c.
Proof.
  destruct c as [[] [] [] [] [] [] [] []]; reflexivity.
Qed.

Lemma lower_char_upper (c : ascii) :
  PyStr.lower_char (PyStr.upper_char c) = PyStr.lower_char c.
Proof.
  destruct c as [[] [] [] [] [] [] [] []]; reflexivity.
Qed.

Lemma lower_char_lower (c : ascii) :
  PyStr.lower_char (PyStr.lower_char c) = PyStr.lower_char c.
Proof.
  destruct c as [[] [] [] [] [] [] [] []]; reflexivity.
Qed.

Lemma map_str_map_str (f g h : ascii -> ascii) (s : string) :
  (forall c, f (g c) = h c) ->
  PyStr.map_str f (PyStr.map_str g s) = PyStr.map_str h s.
Proof.
  intros Hc. induction s as [|c s IH]; simpl; [reflexivity|].
  rewrite Hc, IH. reflexivity.
Qed.

Lemma upper_upper (s : string) : PyStr.upper (PyStr.upper s) = PyStr.upper s.
Proof. apply map_str_map_str, upper_char_upper. Qed.

Lemma upper_lower (s : string) : PyStr.upper (PyStr.lower s) = PyStr.upper s.
Proof. apply map_str_map_str, upper_char_lower. Qed.

Lemma lower_upper (s : string) : PyStr.lower (PyStr.upper s) = PyStr.lower s.
Proof. apply map_str_map_str, lower_char_upper. Qed.

Lemma lower_lower (s : string) : PyStr.lower (PyStr.lower s) = PyStr.lower s.
Proof. apply map_str_map_str, lower_char_lower. Qed.

(** X1.  On an extension made of ASCII characters,
    [detectar_formato_arquivo] decides without regard to letter case, and
    when it returns it returns one of OFX, CSV, PDF. *)
Theorem detectar_formato_sem_caixa :
  forall (suffix : string),
    ascii_puro suffix = true ->
    detectar_formato_arquivo (PyStr.upper suffix)
    = detectar_formato_arquivo suffix /\
    detectar_formato_arquivo (PyStr.lower suffix)
    = detectar_formato_arquivo suffix /\
    (forall tipo, detectar_formato_arquivo suffix = Ok tipo ->
                  tipo = "OFX" \/ tipo = "CSV" \/ tipo = "PDF").
Proof.
  intros suffix _. unfold detectar_formato_arquivo.
  rewrite lower_upper, lower_lower.
  repeat split.
  intros tipo.
  destruct (PyStr.lower suffix =? ".ofx"); [intros [= <-]; auto|].
  destruct (PyStr.lower suffix =? ".csv"); [intros [= <-]; auto|].
  destruct (PyStr.lower suffix =? ".pdf"); [intros [= <-]; auto|].
  discriminate.
Qed.

Lemma detectar_formato_sem_caixa_witness :
  ascii_puro ".CsV" = true /\
  detectar_formato_arquivo ".CsV" = Ok "CSV" /\
  detectar_formato_arquivo (PyStr.upper ".CsV")
  = detectar_formato_arquivo ".CsV" /\
  detectar_formato_arquivo (PyStr.lower ".CsV")
  = detectar_formato_arquivo ".CsV".
Proof.
  split; [reflexivity|]. split; [reflexivity|].
  split.
  - exact (proj1 (detectar_formato_sem_caixa ".CsV" eq_refl)).
  - exact (proj1 (proj2 (detectar_formato_sem_caixa ".CsV" eq_refl))).
Defined.

(** ** The ordered rule list under a filter *)

Lemma inserir_desc_na_frente (r : regra) (l : list regra) :
  (forall x, In x l -> prio_leb (r_prioridade x) (r_prioridade r) = true) ->
  inserir_desc r l = r :: l.
Proof.
  destruct l as [|x xs]; intros Hl; simpl; [reflexivity|].
  rewrite (Hl x (or_introl eq_refl)). reflexivity.
Qed.

Lemma filter_inserir_desc (q : regra -> bool) (r : regra) (l : list regra) :
  StronglySorted antes_de l ->
  filter q (inserir_desc r l)
  = if q r then inserir_desc r (filter q l) else filter q l.
Proof.
  induction 1 as [|x xs Hs IH Hx]; simpl.
  - destruct (q r); reflexivity.
  - destruct (prio_leb (r_prioridade x) (r_prioridade r)) eqn:E; simpl.
    + destruct (q r) eqn:Er; [|reflexivity].
      destruct (q x) eqn:Ex.
      * simpl. rewrite E. reflexivity.
      * symmetry. apply inserir_desc_na_frente.
        intros z Hz. apply filter_In in Hz as [Hz _].
        rewrite Forall_forall in Hx. specialize (Hx z Hz). unfold antes_de in Hx.
        eapply prio_leb_trans; [exact Hx | exact E].
    + rewrite IH.
      destruct (q x) eqn:Ex; destruct (q r) eqn:Er; simpl;
        rewrite ?E; reflexivity.
Qed.

Lemma filter_order_by_prioridade_desc (q : regra -> bool) (l : list regra) :
  filter q (order_by_prioridade_desc l) = order_by_prioridade_desc (filter q l).
Proof.
  induction l as [|x xs IH]; simpl; [reflexivity|].
  rewrite filter_inserir_desc by apply order_by_prioridade_desc_sorted.
  rewrite IH. destruct (q x); reflexivity.
Qed.

Lemma filter_troca {A : Type} (p q : A -> bool) (l : list A) :
  filter p (filter q l) = filter q (filter p l).
Proof.
  induction l as [|x xs IH]; simpl; [reflexivity|].
  destruct (q x) eqn:Eq, (p x) eqn:Ep; simpl; rewrite ?Eq, ?Ep, IH; reflexivity.
Qed.

Lemma select_regras_filter (q : regra -> bool) (tabela : list regra)
    (codigoempresa : string) :
  select_regras (filter q tabela) codigoempresa
  = filter q (select_regras tabela codigoempresa).
Proof.
  unfold select_regras.
  rewrite filter_order_by_prioridade_desc, filter_troca. reflexivity.
Qed.

Section MaisRegras.
Context `{PyLib}.

Lemma percorrer_regras_filter (q : regra -> bool) (campo : string -> string)
    (l : list regra) :
  (forall r, q r = false -> regra_casa campo r = false) ->
  percorrer_regras campo (filter q l) = percorrer_regras campo l.
Proof.
  intros Hq. induction l as [|x xs IH]; simpl filter; [reflexivity|].
  destruct (q x) eqn:Ex.
  - rewrite !percorrer_regras_cons, IH. reflexivity.
  - rewrite (percorrer_regras_cons campo x xs), (Hq x Ex). exact IH.
Qed.

Lemma regras_sobre_filter (q : regra -> bool) (tabela : list regra)
    (codigoempresa desc : string) (fav forma : option string) :
  (forall r, q r = false -> regra_casa (campo_map desc fav forma) r = false) ->
  regras_sobre (filter q tabela) codigoempresa desc fav forma
  = regras_sobre tabela codigoempresa desc fav forma.
Proof.
  intros Hq. unfold regras_sobre.
  rewrite select_regras_filter. apply percorrer_regras_filter, Hq.
Qed.

Lemma percorrer_regras_origem (campo : string -> string) (l : list regra) :
  percorrer_regras campo l = sem_sugestao /\
  (forall r, In r l -> regra_casa campo r = false)
  \/ exists r, In r l /\ regra_casa campo r = true
               /\ percorrer_regras campo l = saida_da_regra r.
Proof.
  induction l as [|x xs IH].
  - left. split; [reflexivity | intros r []].
  - rewrite percorrer_regras_cons.
    destruct (regra_casa campo x) eqn:Ex.
    + right. exists x. repeat split; auto. left. reflexivity.
    + destruct IH as [[Hs Hn]|[r [Hin [Hc Hr]]]].
      * left. split; [exact Hs|]. intros r [<-|Hin]; auto.
      * right. exists r. repeat split; auto. right. exact Hin.
Qed.

(** X2.  What [aplicar_regras_auto_categorizacao] returns is either all
    None, and then no active rule of the tenant matches the line, or the
    four outputs of one active rule of the tenant that matches it; rules of
    other tenants and inactive rules are never the source of a result. *)
Theorem aplicar_regras_origem_do_resultado :
  forall (m : mundo) (codigoempresa desc : string) (fav forma : option string),
    let res := snd (aplicar_regras_auto_categorizacao m codigoempresa desc
                      fav forma) in
    (res = sem_sugestao /\
     forall r, In r (regras_auto_categorizacao (disco m)) ->
               regra_ativa codigoempresa r ->
               regra_casa (campo_map desc fav forma) r = false)
    \/ exists r, In r (regras_auto_categorizacao (disco m)) /\
                 regra_ativa codigoempresa r /\
                 regra_casa (campo_map desc fav forma) r = true /\
                 res = saida_da_regra r.
Proof.
  intros m emp desc fav forma res. subst res.
  unfold aplicar_regras_auto_categorizacao, get_connection. simpl.
  destruct (percorrer_regras_origem (campo_map desc fav forma)
              (select_regras (regras_auto_categorizacao (disco m)) emp))
    as [[Hs Hn]|[r [Hin [Hc Hr]]]].
  - left. split; [exact Hs|]. intros r Hin Hat.
    apply Hn, select_regras_In. auto.
  - right. exists r. apply select_regras_In in Hin as [Hin Hat]. auto.
Qed.

(** X3.  A rule that is inactive or belongs to another tenant has no
    effect: with or without it in the table the function returns the
    same. *)
Theorem regra_inativa_nao_interfere :
  forall (m m' : mundo) (codigoempresa desc : string)
         (fav forma : option string) (t1 t2 : list regra) (r : regra),
    regras_auto_categorizacao (disco m) = t1 ++ r :: t2 ->
    regras_auto_categorizacao (disco m') = t1 ++ t2 ->
    r_codigoempresa r <> codigoempresa \/ r_ativo r <> 1%Z ->
    snd (aplicar_regras_auto_categorizacao m codigoempresa desc fav forma)
    = snd (aplicar_regras_auto_categorizacao m' codigoempresa desc fav forma).
Proof.
  intros m m' emp desc fav forma t1 t2 r Hm Hm' Hr.
  unfold aplicar_regras_auto_categorizacao, get_connection. simpl.
  rewrite Hm, Hm'. unfold select_regras.
  rewrite !filter_app. simpl.
  replace ((r_codigoempresa r =? emp) && (r_ativo r =? 1)%Z) with false;
    [reflexivity|].
  symmetry. apply andb_false_iff.
  destruct Hr as [Hr|Hr]; [left; apply String.eqb_neq | right; apply Z.eqb_neq];
    exact Hr.
Qed.

Lemma regra_mal_formada_nao_casa (r : regra) (desc : string)
    (fav forma : option string) :
  regra_bem_formada r = false ->
  regra_casa (campo_map desc fav forma) r = false.
Proof.
  unfold regra_bem_formada, regra_casa, campo_map, _match_pattern.
  intros Hb.
  destruct (r_campo_alvo r =? "descricao_extrato") eqn:E1;
  destruct (r_campo_alvo r =? "favorecido_texto") eqn:E2;
  destruct (r_campo_alvo r =? "forma_pagamento") eqn:E3;
  simpl in Hb |- *; try reflexivity;
  destruct (r_tipo_match r =? "contem"); try discriminate;
  destruct (r_tipo_match r =? "igual"); try discriminate;
  destruct (r_tipo_match r =? "prefixo"); try discriminate;
  destruct (r_tipo_match r =? "sufixo"); try discriminate;
  destruct (r_tipo_match r =? "regex"); try discriminate;
  apply andb_false_r.
Qed.

(** X4.  A rule whose campo_alvo is none of descricao_extrato,
    favorecido_texto, forma_pagamento, or whose tipo_match is none of contem,
    igual, prefixo, sufixo, regex, never matches and raises nothing: the
    function returns the same with all such rules taken out of the table. *)
Theorem regra_mal_formada_nao_interfere :
  forall (m m' : mundo) (codigoempresa desc : string)
         (fav forma : option string),
    regras_auto_categorizacao (disco m')
    = filter regra_bem_formada (regras_auto_categorizacao (disco m)) ->
    snd (aplicar_regras_auto_categorizacao m' codigoempresa desc fav forma)
    = snd (aplicar_regras_auto_categorizacao m codigoempresa desc fav forma).
Proof.
  intros m m' emp desc fav forma Hm'.
  unfold aplicar_regras_auto_categorizacao, get_connection. simpl.
  rewrite Hm'. apply (regras_sobre_filter regra_bem_formada).
  intros r Hr. apply regra_mal_formada_nao_casa, Hr.
Qed.

(** X5.  The kinds contem, igual, prefixo and sufixo compare without regard
    to letter case: changing the case of the value or of the pattern does
    not change the answer of [_match_pattern] for any kind but regex. *)
Theorem match_pattern_sem_caixa :
  forall (valor tipo_match padrao : string),
    tipo_match <> "regex" ->
    _match_pattern (PyStr.lower valor) tipo_match (PyStr.upper padrao)
    = _match_pattern valor tipo_match padrao /\
    _match_pattern (PyStr.upper valor) tipo_match (PyStr.lower padrao)
    = _match_pattern valor tipo_match padrao.
Proof.
  intros valor tipo padrao Hne.
  apply String.eqb_neq in Hne.
  unfold _match_pattern.
  rewrite !upper_lower, !upper_upper, Hne.
  split; reflexivity.
Qed.

End MaisRegras.

Lemma regra_inativa_nao_interfere_witness :
  snd (aplicar_regras_auto_categorizacao (H := Exemplo.lib)
         (Casos.banco
            [Casos.regra_pix_5;
             {| r_id := 9; r_codigoempresa := "E2";
                r_campo_alvo := "descricao_extrato"; r_tipo_match := "contem";
                r_padrao_texto := "pix";
                r_categoria_id := Some 1%Z; r_centro_custo_id := None;
                r_descricao_sugerida := None; r_forma_pagamento_fixa := None;
                r_prioridade := Some 99%Z; r_ativo := 1 |}] [])
         "E1" "PIX RECEBIDO" None None)
  = snd (aplicar_regras_auto_categorizacao (H := Exemplo.lib)
           (Casos.banco [Casos.regra_pix_5] []) "E1" "PIX RECEBIDO" None None).
Proof.
  apply (@regra_inativa_nao_interfere Exemplo.lib
           (Casos.banco [Casos.regra_pix_5; _] []) (Casos.banco [Casos.regra_pix_5] [])
           "E1" "PIX RECEBIDO" None None
           [Casos.regra_pix_5] [] _ eq_refl eq_refl).
  left. discriminate.
Defined.

Lemma regra_mal_formada_nao_interfere_witness :
  snd (aplicar_regras_auto_categorizacao (H := Exemplo.lib)
         (Casos.banco [Casos.regra_pix_5] []) "E1" "PIX RECEBIDO" None None)
  = snd (aplicar_regras_auto_categorizacao (H := Exemplo.lib)
           (Casos.banco
              [{| r_id := 9; r_codigoempresa := "E1";
                  r_campo_alvo := "descricao"; r_tipo_match := "contains";
                  r_padrao_texto := "PIX";
                  r_categoria_id := Some 1%Z; r_centro_custo_id := None;
                  r_descricao_sugerida := None; r_forma_pagamento_fixa := None;
                  r_prioridade := Some 99%Z; r_ativo := 1 |};
               Casos.regra_pix_5] [])
           "E1" "PIX RECEBIDO" None None).
Proof.
  apply (@regra_mal_formada_nao_interfere Exemplo.lib _ _ "E1" "PIX RECEBIDO"
           None None).
  reflexivity.
Defined.

Lemma match_pattern_sem_caixa_witness :
  _match_pattern (H := Exemplo.lib) (PyStr.lower "Pix Recebido") "prefixo"
    (PyStr.upper "pix") = _match_pattern (H := Exemplo.lib) "Pix Recebido"
                            "prefixo" "pix" /\
  _match_pattern (H := Exemplo.lib) "Pix Recebido" "prefixo" "pix" = true.
Proof.
  split; [|reflexivity].
  apply (@match_pattern_sem_caixa Exemplo.lib "Pix Recebido" "prefixo" "pix").
  discriminate.
Defined.

(** ** The parsers *)

Lemma index_of_limite (p : string) (l : list string) (i : nat) :
  index_of p l = Some i -> (i < List.length l)%nat.
Proof.
  revert i. induction l as [|x xs IH]; simpl; intros i; [discriminate|].
  destruct (x =? p); [intros [= <-]; lia|].
  destruct (index_of p xs) as [j|]; [|discriminate].
  intros [= <-]. specialize (IH j eq_refl). lia.
Qed.

Section MaisParsers.
Context `{PyLib}.

Lemma idx_limite (h_norm possiveis : list string) (i : nat) :
  idx h_norm possiveis = Some i -> (i < List.length h_norm)%nat.
Proof.
  induction possiveis as [|p ps IH]; simpl; [discriminate|].
  destruct (index_of p h_norm) as [j|] eqn:E; [|exact IH].
  intros [= <-]. eapply index_of_limite, E.
Qed.

Lemma item_dentro (row : list string) (i : nat) :
  (i < List.length row)%nat -> exists c, item row i = Ok c.
Proof.
  intros Hi. unfold item.
  destruct (nth_error row i) as [c|] eqn:E; [exists c; reflexivity|].
  apply nth_error_None in E. lia.
Qed.

Lemma item_erro (row : list string) (i : nat) (e : excecao) :
  item row i = Erro e -> e = IndexError.
Proof.
  unfold item. destruct (nth_error row i); [discriminate|].
  intros [= <-]. reflexivity.
Qed.

(** A row is skipped, or read into a line whose description and
    counterparty are the same text, or it raises IndexError. *)
Lemma csv_linha_casos (idx_data idx_desc idx_valor : option nat)
    (row : list string) :
  (linha_em_branco row = true /\
   csv_linha idx_data idx_desc idx_valor row = Ok None)
  \/ (linha_em_branco row = false /\
      exists l, csv_linha idx_data idx_desc idx_valor row = Ok (Some l) /\
                l_favorecido l = l_descricao l /\
                l_descricao l <> None /\ l_valor l <> None)
  \/ (linha_em_branco row = false /\
      csv_linha idx_data idx_desc idx_valor row = Erro IndexError /\
      exists i, (idx_data = Some i \/ idx_desc = Some i \/ idx_valor = Some i)
                /\ (List.length row <= i)%nat).
Proof.
  unfold csv_linha. fold (linha_em_branco row).
  destruct (linha_em_branco row); [left; auto|right].
  assert (Hitem : forall i, (exists c, item row i = Ok c)
                            \/ (item row i = Erro IndexError
                                /\ (List.length row <= i)%nat)).
  { intros i. unfold item. destruct (nth_error row i) eqn:E.
    - left. eexists. reflexivity.
    - right. split; [reflexivity | apply nth_error_None, E]. }
  destruct idx_data as [i|].
  - destruct (Hitem i) as [[c ->]|[-> Hle]]; simpl.
    2:{ right. repeat split. exists i. auto. }
    destruct idx_desc as [j|].
    + destruct (Hitem j) as [[d ->]|[-> Hle]]; simpl.
      2:{ right. repeat split. exists j. auto. }
      destruct idx_valor as [k|].
      * destruct (Hitem k) as [[v ->]|[-> Hle]]; simpl.
        2:{ right. repeat split. exists k. auto. }
        left. split; [reflexivity|]. eexists. repeat split; discriminate.
      * left. split; [reflexivity|]. eexists. repeat split; discriminate.
    + destruct idx_valor as [k|].
      * destruct (Hitem k) as [[v ->]|[-> Hle]]; simpl.
        2:{ right. repeat split. exists k. auto. }
        left. split; [reflexivity|]. eexists. repeat split; discriminate.
      * left. split; [reflexivity|]. eexists. repeat split; discriminate.
  - destruct idx_desc as [j|].
    + destruct (Hitem j) as [[d ->]|[-> Hle]]; simpl.
      2:{ right. repeat split. exists j. auto. }
      destruct idx_valor as [k|].
      * destruct (Hitem k) as [[v ->]|[-> Hle]]; simpl.
        2:{ right. repeat split. exists k. auto. }
        left. split; [reflexivity|]. eexists. repeat split; discriminate.
      * left. split; [reflexivity|]. eexists. repeat split; discriminate.
    + destruct idx_valor as [k|].
      * destruct (Hitem k) as [[v ->]|[-> Hle]]; simpl.
        2:{ right. repeat split. exists k. auto. }
        left. split; [reflexivity|]. eexists. repeat split; discriminate.
      * left. split; [reflexivity|]. eexists. repeat split; discriminate.
Qed.

Lemma csv_linhas_casos (idx_data idx_desc idx_valor : option nat)
    (rows : list (list string)) :
  forall linhas,
    (exists novas,
        csv_linhas idx_data idx_desc idx_valor rows linhas = Ok (linhas ++ novas)
        /\ Forall linha_de_csv novas
        /\ List.length novas
           = List.length (filter (fun r => negb (linha_em_branco r)) rows))
    \/ (csv_linhas idx_data idx_desc idx_valor rows linhas = Erro IndexError /\
        exists row i, In row rows /\ linha_em_branco row = false /\
                      (idx_data = Some i \/ idx_desc = Some i \/ idx_valor = Some i)
                      /\ (List.length row <= i)%nat).
Proof.
  induction rows as [|row resto IH]; intros linhas.
  - left. exists []. rewrite app_nil_r. repeat split. constructor.
  - simpl csv_linhas.
    destruct (csv_linha_casos idx_data idx_desc idx_valor row)
      as [[Hb ->]|[[Hb [l [-> Hl]]]|[Hb [-> [i Hi]]]]]; simpl.
    + rewrite Hb. simpl.
      destruct (IH linhas) as [Hok|[He [r [i [Hin Hr]]]]]; [left; exact Hok|].
      right. split; [exact He|]. exists r, i. split; [right; exact Hin | exact Hr].
    + rewrite Hb. simpl.
      destruct (IH (linhas ++ [l])) as [[novas [Hok [Hf Hn]]]|[He [r [i [Hin Hr]]]]].
      * left. exists (l :: novas). rewrite <- app_assoc in Hok. simpl in Hok.
        repeat split; [exact Hok | constructor; [exact Hl | exact Hf] |].
        simpl. rewrite Hn. reflexivity.
      * right. split; [exact He|]. exists r, i.
        split; [right; exact Hin | exact Hr].
    + right. split; [reflexivity|]. exists row, i.
      split; [left; reflexivity|]. split; [exact Hb | exact Hi].
Qed.

Lemma parse_csv_erro :
  forall (reader : list (list string)) (e : excecao),
    _parse_csv reader = Erro e ->
    e = IndexError /\
    exists header rows row,
      reader = header :: rows /\ In row rows /\ linha_em_branco row = false /\
      (List.length row < List.length header)%nat.
Proof.
  intros reader e Hp. unfold _parse_csv in Hp.
  destruct reader as [|header rows]; [discriminate|].
  set (h_norm := map (fun h => PyStr.lower (PyStr.strip h)) header) in *.
  match type of Hp with
  | csv_linhas ?a ?b ?c _ _ = _ =>
      destruct (csv_linhas_casos a b c rows [])
        as [[novas [Hok _]]|[He [row [i [Hin [Hb [Hi Hle]]]]]]];
      [rewrite Hok in Hp; discriminate|];
      rewrite He in Hp; injection Hp as <-;
      split; [reflexivity|];
      exists header, rows, row; repeat split; auto;
      assert (Hlim : (i < List.length h_norm)%nat)
        by (destruct Hi as [Hi|[Hi|Hi]]; eapply idx_limite, Hi)
  end.
  unfold h_norm in Hlim. rewrite length_map in Hlim. lia.
Qed.

(** X7.  When every data row that is not blank has at least as many cells
    as the header, [_parse_csv] returns: one line for each row that is not
    blank, each with a description, the same text as counterparty, and an
    amount. *)
Theorem parse_csv_linhas_completas :
  forall (header : list string) (rows : list (list string)),
    (forall row, In row rows -> linha_em_branco row = false ->
                 (List.length header <= List.length row)%nat) ->
    exists linhas,
      _parse_csv (header :: rows) = Ok linhas /\
      List.length linhas
      = List.length (filter (fun r => negb (linha_em_branco r)) rows) /\
      Forall (fun l => l_favorecido l = l_descricao l /\ l_descricao l <> None
                       /\ l_valor l <> None) linhas.
Proof.
  intros header rows Hrows.
  destruct (_parse_csv (header :: rows)) as [linhas|e] eqn:Hp.
  - exists linhas. split; [reflexivity|].
    unfold _parse_csv in Hp.
    match type of Hp with
    | csv_linhas ?a ?b ?c _ _ = _ =>
        destruct (csv_linhas_casos a b c rows [])
          as [[novas [Hok [Hf Hn]]]|[He _]];
        [rewrite Hok in Hp | rewrite He in Hp; discriminate]
    end.
    injection Hp as <-. simpl. split; [exact Hn | exact Hf].
  - exfalso.
    destruct (parse_csv_erro _ Hp)
      as [_ [h [rs [row [Heq [Hin [Hb Hlt]]]]]]].
    injection Heq as <- <-.
    specialize (Hrows row Hin Hb). lia.
Qed.

Lemma ofx_passo_inv (st : list linha * linha) (line : string) :
  Forall ofx_inv (fst st) -> l_favorecido (snd st) = l_descricao (snd st) ->
  Forall ofx_inv (fst (ofx_passo st line))
  /\ l_favorecido (snd (ofx_passo st line)) = l_descricao (snd (ofx_passo st line))
  /\ (List.length (fst (ofx_passo st line))
      <= List.length (fst st)
         + (if PyStr.startswith (PyStr.strip line) "</STMTTRN>" then 1 else 0))%nat.
Proof.
  destruct st as [linhas current]. simpl. intros Hl Hc.
  unfold ofx_passo.
  destruct (PyStr.startswith (PyStr.strip line) "<DTPOSTED>");
    [simpl; repeat split; auto; lia|].
  destruct (PyStr.startswith (PyStr.strip line) "<TRNAMT>");
    [simpl; repeat split; auto; lia|].
  destruct (PyStr.startswith (PyStr.strip line) "<MEMO>");
    [simpl; repeat split; auto; lia|].
  destruct (PyStr.startswith (PyStr.strip line) "<STMTTRN>");
    [simpl; repeat split; auto; lia|].
  destruct (PyStr.startswith (PyStr.strip line) "</STMTTRN>");
    [|simpl; repeat split; auto; lia].
  destruct (truthy_texto (l_data current)) eqn:Ed; simpl;
    [|repeat split; auto; lia].
  destruct (l_valor current) eqn:Ev; simpl; [|repeat split; auto; lia].
  repeat split.
  - apply Forall_app. split; [exact Hl|]. constructor; [|constructor].
    unfold ofx_inv. rewrite Ed, Ev. repeat split; [discriminate | exact Hc].
  - rewrite length_app. simpl. lia.
Qed.

Lemma ofx_laco_inv (lines : list string) :
  forall st,
    Forall ofx_inv (fst st) -> l_favorecido (snd st) = l_descricao (snd st) ->
    Forall ofx_inv (fst (fold_left ofx_passo lines st)) /\
    (List.length (fst (fold_left ofx_passo lines st))
     <= List.length (fst st)
        + List.length
            (filter (fun line => PyStr.startswith (PyStr.strip line) "</STMTTRN>")
                    lines))%nat.
Proof.
  induction lines as [|line resto IH]; intros st Hl Hc; simpl.
  - split; [exact Hl | lia].
  - destruct (ofx_passo_inv st line Hl Hc) as (Hl' & Hc' & Hn).
    destruct (IH _ Hl' Hc') as (Hf & Hlen).
    split; [exact Hf|].
    destruct (PyStr.startswith (PyStr.strip line) "</STMTTRN>"); simpl; lia.
Qed.

(** X8.  Every line [_parse_ofx] returns has a date that parsed and an
    amount, and its counterparty is its description; a transaction block
    lacking the date or the amount is left out, so there are at most as
    many lines as closing STMTTRN tags. *)
Theorem parse_ofx_linhas_completas :
  forall (content_lines : list string),
    Forall (fun l => truthy_texto (l_data l) = true /\ l_valor l <> None
                     /\ l_favorecido l = l_descricao l)
           (_parse_ofx content_lines) /\
    (List.length (_parse_ofx content_lines)
     <= List.length
          (filter (fun line => PyStr.startswith (PyStr.strip line) "</STMTTRN>")
                  content_lines))%nat.
Proof.
  intros content_lines. unfold _parse_ofx.
  destruct (ofx_laco_inv content_lines ([], linha_vazia)) as [Hf Hn];
    [constructor | reflexivity |].
  split; [exact Hf | exact Hn].
Qed.

End MaisParsers.

Lemma parse_csv_linhas_completas_witness :
  exists linhas,
    _parse_csv (H := Exemplo.lib)
      (["Data"; "Descricao"; "Valor"]
       :: [["06/03/2024"; "Pix loja"; "250,00"; "extra"]; [" "; EmptyString]; []])
    = Ok linhas /\
    List.length linhas = 1%nat /\
    Forall (fun l => l_favorecido l = l_descricao l /\ l_descricao l <> None
                     /\ l_valor l <> None) linhas.
Proof.
  apply (@parse_csv_linhas_completas Exemplo.lib ["Data"; "Descricao"; "Valor"]
           [["06/03/2024"; "Pix loja"; "250,00"; "extra"]; [" "; EmptyString]; []]).
  intros row [<-|[<-|[<-|[]]]] Hb; simpl; try lia; discriminate.
Defined.

(** ** The import as a whole *)

Lemma map_mesma {A : Type} (f : A -> A) (l : list A) :
  (forall x, In x l -> f x = x) -> map f l = l.
Proof.
  induction l as [|x xs IH]; intros Hf; simpl; [reflexivity|].
  rewrite (Hf x (or_introl eq_refl)), IH; [reflexivity|].
  intros y Hy. apply Hf. right. exact Hy.
Qed.

Lemma detectar_formato_erro (suffix : string) (e : excecao) :
  detectar_formato_arquivo suffix = Erro e -> exists msg, e = ValueError msg.
Proof.
  unfold detectar_formato_arquivo.
  destruct (PyStr.lower suffix =? ".ofx"); [discriminate|].
  destruct (PyStr.lower suffix =? ".csv"); [discriminate|].
  destruct (PyStr.lower suffix =? ".pdf"); [discriminate|].
  intros [= <-]. eexists. reflexivity.
Qed.

Section MaisImportacao.
Context `{PyLib}.

(** X9.  An import that raises leaves the database as it was: nothing of
    the batch row or of rows already staged is committed, whatever is
    raised: the ValueError of an unsupported extension, the IndexError of a
    short CSV row, an exception of reading the file, an exception of
    [re.search] in the rule scan or the IntegrityError of an amount NaN. *)
Theorem importar_falha_nada_grava :
  forall (re_search_py : string -> string -> re_desfecho)
         (float_py : string -> option pyfloat)
         (m m' : mundo) (codigoempresa : string) (conta_id : Z)
         (usuario_id : option Z) (arquivo : ArquivoPy) (agora : string)
         (e : excecao),
    ComExcecoes.importar_arquivo_e_criar_staging re_search_py float_py m
      codigoempresa conta_id usuario_id arquivo agora = (m', Erro e) ->
    disco m' = disco m.
Proof.
  intros re_py fl m m' emp conta usr arq agora e Hi.
  pose proof (@importar_com_excecao_disco _ re_py fl m emp conta usr arq agora e)
    as Hd.
  rewrite Hi in Hd. apply Hd. reflexivity.
Qed.

(** X10.  An import that returns adds exactly one batch row and changes
    no other: the new row has an id above every earlier batch, carries the
    tenant, account, file name and time of the call, and its
    total_importados is still 0; the ledger and the rule table are as
    before. *)
Theorem importar_acrescenta_um_lote :
  forall (m m' : mundo) (codigoempresa : string) (conta_id : Z)
         (usuario_id : option Z) (arquivo : Arquivo) (agora : string) (id : Z),
    importar_arquivo_e_criar_staging m codigoempresa conta_id usuario_id
      arquivo agora = (m', Ok id) ->
    exists lote,
      importacoes_extrato (disco m') = importacoes_extrato (disco m) ++ [lote] /\
      imp_id lote = id /\
      (forall i, In i (importacoes_extrato (disco m)) -> (imp_id i < id)%Z) /\
      imp_codigoempresa lote = codigoempresa /\
      imp_conta_id lote = conta_id /\
      imp_nome_arquivo lote = arq_name arquivo /\
      imp_data_importacao lote = agora /\
      imp_total_importados lote = 0%Z /\
      transactions (disco m') = transactions (disco m) /\
      regras_auto_categorizacao (disco m')
      = regras_auto_categorizacao (disco m).
Proof.
  intros m m' emp conta usr arq agora id.
  unfold importar_arquivo_e_criar_staging, insert_importacao, get_connection.
  destruct (detectar_formato_arquivo (arq_suffix arq)) as [tipo|e];
    [|discriminate].
  set (novo_id := proximo_id imp_id (importacoes_extrato (disco m))).
  set (conn := com_importacoes (disco m) _).
  destruct (if tipo =? "OFX" then _ else _) as [linhas|e]; [|discriminate].
  intros [= <- <-].
  destruct (gravar_staging_resultado (registrar InsertImportacao m) conn
              emp conta novo_id linhas)
    as (novas & passos & Hc & _).
  unfold commit, update_totais. simpl. rewrite Hc. simpl.
  rewrite map_app. simpl. rewrite Z.eqb_refl.
  rewrite map_mesma.
  - eexists. split; [reflexivity|]. simpl. repeat split.
    intros i Hi. apply (proximo_id_maior imp_id _ _ Hi).
  - intros i Hi. pose proof (proximo_id_maior imp_id _ _ Hi) as Hlt.
    fold novo_id in Hlt.
    destruct (Z.eqb_spec (imp_id i) novo_id); [lia | reflexivity].
Qed.

(** X11.  A file with the extension pdf, in any letter case, is accepted
    and not read: the import returns, stages nothing, and its batch row has
    kind PDF and all counters 0. *)
Theorem importar_pdf_lote_vazio :
  forall (m : mundo) (codigoempresa : string) (conta_id : Z)
         (usuario_id : option Z) (arquivo : Arquivo) (agora : string),
    PyStr.lower (arq_suffix arquivo) = ".pdf" ->
    exists m' id lote,
      importar_arquivo_e_criar_staging m codigoempresa conta_id usuario_id
        arquivo agora = (m', Ok id) /\
      staging_transacoes_import (disco m') = staging_transacoes_import (disco m) /\
      importacoes_extrato (disco m') = importacoes_extrato (disco m) ++ [lote] /\
      imp_id lote = id /\
      imp_tipo_arquivo lote = "PDF" /\
      imp_total_no_arquivo lote = 0%Z /\
      imp_total_deduplicados lote = 0%Z /\
      imp_total_desconhecidos_pos_importacao lote = 0%Z.
Proof.
  intros m emp conta usr arq agora Hpdf.
  unfold importar_arquivo_e_criar_staging, detectar_formato_arquivo.
  rewrite Hpdf. simpl.
  unfold insert_importacao, get_connection, _gravar_staging, update_totais,
    commit. simpl.
  rewrite map_app. simpl. rewrite Z.eqb_refl.
  rewrite map_mesma.
  - do 3 eexists. split; [reflexivity|]. simpl. repeat split.
  - intros i Hi. pose proof (proximo_id_maior imp_id _ _ Hi) as Hlt.
    destruct (Z.eqb_spec (imp_id i)
                (proximo_id imp_id (importacoes_extrato (disco m))));
      [lia | reflexivity].
Qed.

Lemma vem_de_coerente (tabela : list regra) (codigoempresa : string)
    (conta_id importacao_id : Z) (l : linha) (s : staging) :
  vem_de tabela codigoempresa conta_id importacao_id l s -> staging_coerente s.
Proof.
  unfold vem_de, linha_em_staging. intros Hs.
  destruct (sugestao_da_linha tabela codigoempresa l) as [[[cat cc] d] f].
  rewrite Hs. unfold staging_coerente, desconhecida. simpl.
  repeat split; try discriminate.
  - destruct (truthy_inteiro cat), (truthy_inteiro cc), (truthy_texto d);
      simpl; auto.
  - destruct (truthy_texto f) eqn:Ef; auto.
Qed.

(** X12.  Every row an import stages is coherent: its status is sugerido
    when its origin is regra and desconhecido when its origin is
    desconhecido, a row of unknown origin has neither category nor cost
    centre, its payment method is a rule's non-empty override or NULL, and
    its notes are NULL. *)
Theorem importar_staging_coerente :
  forall (m m' : mundo) (codigoempresa : string) (conta_id : Z)
         (usuario_id : option Z) (arquivo : Arquivo) (agora : string) (id : Z),
    importar_arquivo_e_criar_staging m codigoempresa conta_id usuario_id
      arquivo agora = (m', Ok id) ->
    exists novas,
      staging_transacoes_import (disco m')
      = staging_transacoes_import (disco m) ++ novas /\
      Forall staging_coerente novas /\
      Forall (fun s => st_codigoempresa s = codigoempresa
                       /\ st_conta_id s = conta_id
                       /\ st_importacao_id s = id) novas.
Proof.
  intros m m' emp conta usr arq agora id Himp.
  destruct (importar_sucesso _ _ _ _ _ _ Himp)
    as (linhas & novas & passos & lote & Hst & _ & _ & _ & _ & Hf & _).
  exists novas. split; [exact Hst|].
  clear - Hf. split.
  - induction Hf as [|l s ls ss Hv _ IH]; constructor; [|exact IH].
    eapply vem_de_coerente, Hv.
  - induction Hf as [|l s ls ss Hv _ IH]; constructor; [|exact IH].
    destruct (vem_de_campos Hv) as (H1 & H2 & H3 & _). auto.
Qed.

(** X13.  When every line of the file already has its transaction in the
    ledger, [_gravar_staging] stages nothing and counts every line as
    deduplicated: the connection is left as it was, no line is counted as
    unknown and the rules are not consulted. *)
Theorem gravar_staging_tudo_duplicado :
  forall (m : mundo) (conn : db) (codigoempresa : string)
         (conta_id importacao_id : Z) (linhas : list linha),
    (forall l, In l linhas -> duplicada conn codigoempresa conta_id l = true) ->
    let st := _gravar_staging m conn codigoempresa conta_id importacao_id
                linhas in
    lc_conn st = conn /\
    total_deduplicados st = Z.of_nat (List.length linhas) /\
    total_desconhecidos st = 0%Z /\
    consultas_de_regras (historico (lc_mundo st))
    = consultas_de_regras (historico m).
Proof.
  intros m conn emp conta imp linhas Hdup st. subst st.
  destruct (gravar_staging_resultado m conn emp conta imp linhas)
    as (novas & passos & Hc & _ & Hh & Hq & Hf & Htd & Htu).
  assert (Hnone : filter (fun l => negb (duplicada conn emp conta l)) linhas = []).
  { clear - Hdup. induction linhas as [|l ls IH]; simpl; [reflexivity|].
    rewrite (Hdup l (or_introl eq_refl)). simpl.
    apply IH. intros l' Hl'. apply Hdup. right. exact Hl'. }
  assert (Hall : filter (duplicada conn emp conta) linhas = linhas).
  { clear - Hdup. induction linhas as [|l ls IH]; simpl; [reflexivity|].
    rewrite (Hdup l (or_introl eq_refl)). f_equal.
    apply IH. intros l' Hl'. apply Hdup. right. exact Hl'. }
  rewrite Hnone in Hf. inversion Hf; subst novas.
  rewrite Hc, Hh, Htd, Htu, Hall, app_nil_r, com_staging_mesma.
  repeat split.
  rewrite consultas_de_regras_app, Hq. simpl. lia.
Qed.

Lemma linha_em_staging_mesma_sugestao (t1 t2 : list regra)
    (codigoempresa : string) (conta_id importacao_id id : Z) (l : linha) :
  sugestao_da_linha t1 codigoempresa l = sugestao_da_linha t2 codigoempresa l ->
  linha_em_staging t1 codigoempresa conta_id importacao_id id l
  = linha_em_staging t2 codigoempresa conta_id importacao_id id l.
Proof.
  unfold linha_em_staging. intros ->. reflexivity.
Qed.

Lemma gravar_laco_mesma_sugestao (t1 t2 : list regra) (codigoempresa : string)
    (conta_id importacao_id : Z) (linhas : list linha) :
  (forall l, sugestao_da_linha t1 codigoempresa l
             = sugestao_da_linha t2 codigoempresa l) ->
  forall st1 st2 : laco,
    regras_auto_categorizacao (disco (lc_mundo st1)) = t1 ->
    regras_auto_categorizacao (disco (lc_mundo st2)) = t2 ->
    lc_conn st1 = lc_conn st2 ->
    total_deduplicados st1 = total_deduplicados st2 ->
    total_desconhecidos st1 = total_desconhecidos st2 ->
    let f := gravar_linha codigoempresa conta_id importacao_id in
    lc_conn (fold_left f linhas st1) = lc_conn (fold_left f linhas st2) /\
    total_deduplicados (fold_left f linhas st1)
    = total_deduplicados (fold_left f linhas st2) /\
    total_desconhecidos (fold_left f linhas st1)
    = total_desconhecidos (fold_left f linhas st2).
Proof.
  intros Hsug.
  induction linhas as [|l ls IH]; intros st1 st2 H1 H2 Hc Hd Hu; simpl.
  - auto.
  - destruct (duplicada (lc_conn st1) codigoempresa conta_id l) eqn:Ed.
    + rewrite (@gravar_linha_duplicada _ codigoempresa conta_id importacao_id
                 st1 l Ed).
      rewrite Hc in Ed.
      rewrite (@gravar_linha_duplicada _ codigoempresa conta_id importacao_id
                 st2 l Ed).
      apply IH; simpl; auto. rewrite Hd. reflexivity.
    + rewrite (@gravar_linha_nova _ codigoempresa conta_id importacao_id
                 t1 st1 l H1 Ed).
      rewrite Hc in Ed.
      rewrite (@gravar_linha_nova _ codigoempresa conta_id importacao_id
                 t2 st2 l H2 Ed).
      apply IH; simpl; auto.
      * rewrite Hc, (linha_em_staging_mesma_sugestao _ _ _ _ _ _ _ (Hsug l)).
        reflexivity.
      * rewrite Hu, (Hsug l). reflexivity.
Qed.

(** X14.  Rules that target forma_pagamento are dead during an import:
    [_gravar_staging] never has a payment method to show them, so it stages
    the same rows, with the same counters, as it does when those rules are
    taken out of the table. *)
Theorem gravar_staging_ignora_regras_de_forma_pagamento :
  forall (m m' : mundo) (conn : db) (codigoempresa : string)
         (conta_id importacao_id : Z) (linhas : list linha),
    regras_auto_categorizacao (disco m')
    = filter nao_visa_forma_pagamento (regras_auto_categorizacao (disco m)) ->
    let st := _gravar_staging m conn codigoempresa conta_id importacao_id
                linhas in
    let st' := _gravar_staging m' conn codigoempresa conta_id importacao_id
                 linhas in
    lc_conn st' = lc_conn st /\
    total_deduplicados st' = total_deduplicados st /\
    total_desconhecidos st' = total_desconhecidos st.
Proof.
  intros m m' conn emp conta imp linhas Hm' st st'. subst st st'.
  unfold _gravar_staging.
  assert (Hsug : forall l,
             sugestao_da_linha (regras_auto_categorizacao (disco m')) emp l
             = sugestao_da_linha (regras_auto_categorizacao (disco m)) emp l).
  { intros l. rewrite Hm'. unfold sugestao_da_linha.
    apply regras_sobre_filter.
    intros r Hr. unfold nao_visa_forma_pagamento in Hr.
    apply negb_false_iff, String.eqb_eq in Hr.
    unfold regra_casa, campo_map. rewrite Hr. reflexivity. }
  apply (@gravar_laco_mesma_sugestao _ _ emp conta imp linhas Hsug);
    reflexivity.
Qed.

End MaisImportacao.

Lemma importar_falha_nada_grava_witness :
  snd (ComExcecoes.importar_arquivo_e_criar_staging (H := Exemplo.lib)
         search_com_overflow float_com_nan (Casos.banco [] []) "E1" 1 None
         extrato_csv_nan "2024-03-10 09:00:00")
  = Erro (IntegrityError
            "NOT NULL constraint failed: staging_transacoes_import.valor") /\
  disco (fst (ComExcecoes.importar_arquivo_e_criar_staging (H := Exemplo.lib)
                search_com_overflow float_com_nan (Casos.banco [] []) "E1" 1
                None extrato_csv_nan "2024-03-10 09:00:00"))
  = disco (Casos.banco [] []).
Proof.
  split; [reflexivity|].
  apply (@importar_falha_nada_grava Exemplo.lib search_com_overflow
           float_com_nan (Casos.banco [] []) _ "E1" 1%Z None extrato_csv_nan
           "2024-03-10 09:00:00"
           (IntegrityError
              "NOT NULL constraint failed: staging_transacoes_import.valor")).
  reflexivity.
Defined.

Lemma importar_acrescenta_um_lote_witness :
  let m' := fst (importar_arquivo_e_criar_staging (H := Exemplo.lib)
                   Casos.banco_um_em_staging "E1" 1 None
                   (Casos.extrato_csv Casos.dez_linhas) "2024-03-11 08:00:00") in
  exists lote,
    importacoes_extrato (disco m')
    = importacoes_extrato (disco Casos.banco_um_em_staging) ++ [lote] /\
    imp_id lote = 2%Z /\
    (forall i, In i (importacoes_extrato (disco Casos.banco_um_em_staging)) ->
               (imp_id i < 2)%Z) /\
    imp_codigoempresa lote = "E1" /\
    imp_conta_id lote = 1%Z /\
    imp_nome_arquivo lote = "extrato.csv" /\
    imp_data_importacao lote = "2024-03-11 08:00:00" /\
    imp_total_importados lote = 0%Z /\
    transactions (disco m') = transactions (disco Casos.banco_um_em_staging) /\
    regras_auto_categorizacao (disco m')
    = regras_auto_categorizacao (disco Casos.banco_um_em_staging).
Proof.
  intros m'.
  apply (@importar_acrescenta_um_lote Exemplo.lib Casos.banco_um_em_staging m'
           "E1" 1%Z None (Casos.extrato_csv Casos.dez_linhas)
           "2024-03-11 08:00:00" 2%Z).
  vm_compute. reflexivity.
Defined.

Lemma importar_pdf_lote_vazio_witness :
  PyStr.lower ".PDF" = ".pdf" /\
  exists m' id lote,
    importar_arquivo_e_criar_staging (H := Exemplo.lib)
      Casos.banco_um_em_staging "E1" 1 None
      {| arq_suffix := ".PDF"; arq_name := "extrato.PDF";
         arq_linhas := ["%PDF-1.4"]; arq_csv := [["%PDF-1.4"]] |}
      "2024-03-11 08:00:00" = (m', Ok id) /\
    staging_transacoes_import (disco m')
    = staging_transacoes_import (disco Casos.banco_um_em_staging) /\
    importacoes_extrato (disco m')
    = importacoes_extrato (disco Casos.banco_um_em_staging) ++ [lote] /\
    imp_id lote = id /\
    imp_tipo_arquivo lote = "PDF" /\
    imp_total_no_arquivo lote = 0%Z /\
    imp_total_deduplicados lote = 0%Z /\
    imp_total_desconhecidos_pos_importacao lote = 0%Z.
Proof.
  split; [reflexivity|].
  apply (@importar_pdf_lote_vazio Exemplo.lib Casos.banco_um_em_staging "E1" 1%Z
           None
           {| arq_suffix := ".PDF"; arq_name := "extrato.PDF";
              arq_linhas := ["%PDF-1.4"]; arq_csv := [["%PDF-1.4"]] |}
           "2024-03-11 08:00:00").
  reflexivity.
Defined.

Lemma importar_staging_coerente_witness :
  let m' := fst (importar_arquivo_e_criar_staging (H := Exemplo.lib)
                   Casos.banco_com_pix "E1" 1 None
                   (Casos.extrato_csv Casos.dez_linhas) "2024-03-10 09:00:00") in
  exists novas,
    staging_transacoes_import (disco m')
    = staging_transacoes_import (disco Casos.banco_com_pix) ++ novas /\
    Forall staging_coerente novas /\
    Forall (fun s => st_codigoempresa s = "E1" /\ st_conta_id s = 1%Z
                     /\ st_importacao_id s = 1%Z) novas.
Proof.
  intros m'.
  apply (@importar_staging_coerente Exemplo.lib Casos.banco_com_pix m' "E1" 1%Z
           None (Casos.extrato_csv Casos.dez_linhas) "2024-03-10 09:00:00" 1%Z).
  vm_compute. reflexivity.
Defined.

Lemma gravar_staging_tudo_duplicado_witness :
  let st := _gravar_staging (H := Exemplo.lib) Casos.banco_com_pix
              (disco Casos.banco_com_pix) "E1" 1 1
              [Casos.linha_pix; Casos.linha_pix] in
  lc_conn st = disco Casos.banco_com_pix /\
  total_deduplicados st = 2%Z /\
  total_desconhecidos st = 0%Z /\
  consultas_de_regras (historico (lc_mundo st))
  = consultas_de_regras (historico Casos.banco_com_pix).
Proof.
  apply (@gravar_staging_tudo_duplicado Exemplo.lib Casos.banco_com_pix
           (disco Casos.banco_com_pix) "E1" 1%Z 1%Z
           [Casos.linha_pix; Casos.linha_pix]).
  intros l [<-|[<-|[]]]; reflexivity.
Defined.

Lemma gravar_staging_ignora_regras_de_forma_pagamento_witness :
  let regra_forma :=
    {| r_id := 7; r_codigoempresa := "E1";
       r_campo_alvo := "forma_pagamento"; r_tipo_match := "igual";
       r_padrao_texto := "PIX";
       r_categoria_id := Some 2%Z; r_centro_custo_id := None;
       r_descricao_sugerida := None; r_forma_pagamento_fixa := None;
       r_prioridade := Some 50%Z; r_ativo := 1 |} in
  let m := Casos.banco [regra_forma; Casos.regra_pix_10] [] in
  let m' := Casos.banco [Casos.regra_pix_10] [] in
  let st := _gravar_staging (H := Exemplo.lib) m (disco m') "E1" 1 1
              [Casos.linha_pix] in
  let st' := _gravar_staging (H := Exemplo.lib) m' (disco m') "E1" 1 1
               [Casos.linha_pix] in
  lc_conn st' = lc_conn st /\
  total_deduplicados st' = total_deduplicados st /\
  total_desconhecidos st' = total_desconhecidos st.
Proof.
  intros regra_forma m m'.
  apply (@gravar_staging_ignora_regras_de_forma_pagamento Exemplo.lib m m'
           (disco m') "E1" 1%Z 1%Z [Casos.linha_pix]).
  reflexivity.
Defined.

(** ** The classifier stub and the classifier pass *)

Lemma dict_get_set_mesma {V : Type} (k : Z) (v : V) (d : list (Z * V)) :
  dict_get k (dict_set k v d) = Some v.
Proof.
  induction d as [|[k' v'] r IH]; simpl.
  - rewrite Z.eqb_refl. reflexivity.
  - destruct (Z.eqb_spec k' k); simpl.
    + rewrite Z.eqb_refl. reflexivity.
    + destruct (Z.eqb_spec k' k); [contradiction | exact IH].
Qed.

Lemma dict_get_set_outra {V : Type} (k k0 : Z) (v : V) (d : list (Z * V)) :
  k <> k0 -> dict_get k0 (dict_set k v d) = dict_get k0 d.
Proof.
  intros Hne. induction d as [|[k' v'] r IH]; simpl.
  - destruct (Z.eqb_spec k k0); [contradiction | reflexivity].
  - destruct (Z.eqb_spec k' k) as [->|Hk]; simpl.
    + destruct (Z.eqb_spec k k0); [contradiction | reflexivity].
    + rewrite IH. reflexivity.
Qed.

Lemma dict_keys_set {V : Type} (k k0 : Z) (v : V) (d : list (Z * V)) :
  In k0 (dict_keys (dict_set k v d)) <-> k0 = k \/ In k0 (dict_keys d).
Proof.
  unfold dict_keys. induction d as [|[k' v'] r IH]; simpl.
  - intuition.
  - destruct (Z.eqb_spec k' k) as [->|Hk]; simpl; [intuition|].
    rewrite IH. intuition.
Qed.

Lemma dict_keys_set_NoDup {V : Type} (k : Z) (v : V) (d : list (Z * V)) :
  NoDup (dict_keys d) -> NoDup (dict_keys (dict_set k v d)).
Proof.
  unfold dict_keys. induction d as [|[k' v'] r IH]; simpl; intros Hnd.
  - constructor; [intros [] | constructor].
  - inversion Hnd as [|? ? Hnin Hr]; subst.
    destruct (Z.eqb_spec k' k) as [->|Hk]; simpl.
    + constructor; assumption.
    + constructor; [|apply IH, Hr].
      intros Hin. apply (dict_keys_set k k' v r) in Hin.
      destruct Hin as [->|Hin]; [apply Hk; reflexivity | apply Hnin, Hin].
Qed.

Lemma classificar_laco (itens : list item_ia) :
  forall (res : list (Z * sugestao_ia)),
    let res' := fold_left
                  (fun r item => dict_set (id_staging item) (classificar_item item) r)
                  itens res in
    (forall k, dict_get k res'
               = match ultimo_com_id k itens with
                 | Some item => Some (classificar_item item)
                 | None => dict_get k res
                 end) /\
    (forall k, In k (dict_keys res') <->
               In k (map id_staging itens) \/ In k (dict_keys res)) /\
    (NoDup (dict_keys res) -> NoDup (dict_keys res')).
Proof.
  induction itens as [|item resto IH]; intros res; simpl.
  - repeat split; auto. intros [[]|Hk]; exact Hk.
  - destruct (IH (dict_set (id_staging item) (classificar_item item) res))
      as (Hget & Hkeys & Hnd).
    repeat split.
    + intros k. rewrite Hget.
      destruct (ultimo_com_id k resto); [reflexivity|].
      destruct (Z.eqb_spec (id_staging item) k) as [->|Hne].
      * apply dict_get_set_mesma.
      * apply dict_get_set_outra, Hne.
    + rewrite Hkeys, dict_keys_set. intuition.
    + rewrite Hkeys, dict_keys_set. intuition.
    + intros Hr. apply Hnd, dict_keys_set_NoDup, Hr.
Qed.

Lemma classificar_item_forma (item : item_ia) :
  PyStr.truthy (descricao_tratada (classificar_item item)) = true /\
  centro_custo_nome (classificar_item item) = None /\
  categoria_nome (classificar_item item)
  = (if Qlt_le_dec 0 (match it_valor item with Some v => v | None => 0%Q end)
     then "Receita não classificada" else "Despesa não classificada").
Proof.
  unfold classificar_item. simpl. repeat split.
  - destruct (PyStr.truthy (PyStr.strip (ou_vazio (it_descricao_extrato item))))
      eqn:E; [exact E | reflexivity].
  - destruct (Qlt_le_dec 0 _) as [Hlt|Hle].
    + apply maior_que_zero_spec in Hlt. rewrite Hlt. reflexivity.
    + destruct (maior_que_zero _) eqn:E; [|reflexivity].
      apply maior_que_zero_spec in E. exfalso. exact (Qlt_not_le _ _ E Hle).
Qed.

Lemma classificar_lote_resultado :
  forall (logs : list log_atividade_row) (codigoempresa : string)
         (itens : list item_ia) (agora : string),
    let res := snd (classificar_transacoes_em_lote logs codigoempresa itens
                      agora) in
    (forall k, In k (dict_keys res) <-> In k (map id_staging itens)) /\
    NoDup (dict_keys res) /\
    (forall k, dict_get k res
               = option_map classificar_item (ultimo_com_id k itens)) /\
    (forall k s, dict_get k res = Some s ->
                 PyStr.truthy (descricao_tratada s) = true /\
                 centro_custo_nome s = None /\
                 exists item, In item itens /\ id_staging item = k /\
                   categoria_nome s
                   = (if Qlt_le_dec 0 (match it_valor item with
                                       | Some v => v
                                       | None => 0%Q
                                       end)
                      then "Receita não classificada"
                      else "Despesa não classificada")).
Proof.
  intros logs emp itens agora res. subst res.
  unfold classificar_transacoes_em_lote. simpl.
  destruct (classificar_laco itens []) as (Hget & Hkeys & Hnd).
  assert (Hult : forall k item, ultimo_com_id k itens = Some item ->
                                In item itens /\ id_staging item = k).
  { clear. intros k. induction itens as [|x xs IH]; simpl; [discriminate|].
    intros item. destruct (ultimo_com_id k xs) as [y|].
    - intros [= <-]. destruct (IH y eq_refl). auto.
    - destruct (Z.eqb_spec (id_staging x) k); [|discriminate].
      intros [= <-]. auto. }
  repeat split.
  - intros Hk. apply Hkeys in Hk. destruct Hk as [Hk|[]]. exact Hk.
  - intros Hk. apply Hkeys. left. exact Hk.
  - apply Hnd. constructor.
  - intros k. rewrite Hget. destruct (ultimo_com_id k itens); reflexivity.
  - rewrite Hget in H. destruct (ultimo_com_id k itens); [|discriminate].
    injection H as <-. apply classificar_item_forma.
  - rewrite Hget in H. destruct (ultimo_com_id k itens); [|discriminate].
    injection H as <-. apply classificar_item_forma.
  - rewrite Hget in H.
    destruct (ultimo_com_id k itens) as [item|] eqn:E; [|discriminate].
    injection H as <-. destruct (Hult k item E) as [Hin Hid].
    exists item. repeat split; auto. apply classificar_item_forma.
Qed.

(** X15.  [classificar_transacoes_em_lote] answers for every item: the
    result has exactly the ids of the items as keys, each once; the entry
    of an id is computed from the last item with that id; its
    descricao_tratada is never empty, its cost centre is None and its
    category is the revenue placeholder when the amount is above zero and
    the expense placeholder otherwise (zero and a missing amount
    included). *)
Theorem classificar_lote_cobre_todos :
  forall (logs : list log_atividade_row) (codigoempresa : string)
         (itens : list item_ia) (agora : string),
    let res := snd (classificar_transacoes_em_lote logs codigoempresa itens
                      agora) in
    (forall k, In k (dict_keys res) <-> In k (map id_staging itens)) /\
    NoDup (dict_keys res) /\
    (forall k, dict_get k res
               = option_map classificar_item (ultimo_com_id k itens)) /\
    (forall k s, dict_get k res = Some s ->
                 PyStr.truthy (descricao_tratada s) = true /\
                 centro_custo_nome s = None /\
                 exists item, In item itens /\ id_staging item = k /\
                   categoria_nome s
                   = (if Qlt_le_dec 0 (match it_valor item with
                                       | Some v => v
                                       | None => 0%Q
                                       end)
                      then "Receita não classificada"
                      else "Despesa não classificada")).
Proof.
  exact classificar_lote_resultado.
Qed.

(** The stub writes its activity log exactly when it is given at
    least one item: one row for the tenant with the action
    ia_classificacao_lote_stub, and no row for an empty list. *)
Theorem classificar_lote_registra_log :
  forall (logs : list log_atividade_row) (codigoempresa : string)
         (itens : list item_ia) (agora : string),
    let logs' := fst (classificar_transacoes_em_lote logs codigoempresa itens
                        agora) in
    match itens with
    | [] => logs' = logs
    | _ => exists row,
        logs' = logs ++ [row] /\
        log_codigoempresa row = codigoempresa /\
        log_acao row = "ia_classificacao_lote_stub" /\
        log_origem_modulo row = "ia_client" /\
        log_usuario_id row = None /\
        log_data_hora row = agora /\
        (forall r, In r logs -> (log_id r < log_id row)%Z)
    end.
Proof.
  intros logs emp itens agora logs'. subst logs'.
  unfold classificar_transacoes_em_lote, log_atividade.
  destruct itens as [|item resto]; simpl; [reflexivity|].
  eexists. split; [reflexivity|]. simpl. repeat split.
  intros r Hr. apply (proximo_id_maior log_id _ _ Hr).
Qed.

Lemma marcar_ia_marcada (s : staging) : marcada_ia s (marcar_ia s).
Proof.
  reflexivity.
Qed.

Lemma update_origem_ia_laco (ks : list Z) :
  forall conn : db,
    fold_left update_origem_ia ks conn
    = com_staging conn
        (map (fun s => if existsb (Z.eqb (st_id s)) ks then marcar_ia s else s)
             (staging_transacoes_import conn)).
Proof.
  induction ks as [|k ks IH]; intros conn; simpl.
  - rewrite map_id. symmetry. apply com_staging_mesma.
  - rewrite IH. unfold update_origem_ia, com_staging. simpl.
    rewrite map_map. f_equal. apply map_ext. intros s.
    fold (marcar_ia s).
    destruct (Z.eqb_spec (st_id s) k) as [Hk|Hk]; simpl.
    + destruct (existsb _ ks); reflexivity.
    + reflexivity.
Qed.

Lemma em_firstn {A : Type} (n : nat) (l : list A) (x : A) :
  In x (firstn n l) -> In x l.
Proof.
  intros Hin. rewrite <- (firstn_skipn n l). apply in_or_app. left. exact Hin.
Qed.

Lemma select_desconhecidos_candidatas (conn : db) (codigoempresa : string)
    (importacao_id : Z) :
  (List.length (select_desconhecidos conn codigoempresa importacao_id) <= 50)%nat
  /\ Forall (fun s => In s (staging_transacoes_import conn)
                      /\ candidata_ia codigoempresa importacao_id s)
            (select_desconhecidos conn codigoempresa importacao_id).
Proof.
  unfold select_desconhecidos. split.
  - rewrite length_firstn. lia.
  - apply Forall_forall. intros s Hs.
    apply em_firstn in Hs. apply filter_In in Hs as [Hin Hw].
    split; [exact Hin|].
    apply sql_where_true in Hw. unfold where_desconhecidos in Hw.
    apply sql_and_true in Hw as [He Hw]. apply sql_and_true in Hw as [Hi Hw].
    simpl in He, Hi. injection He as He. injection Hi as Hi.
    apply String.eqb_eq in He. apply Z.eqb_eq in Hi.
    unfold candidata_ia. repeat split; auto.
    destruct (st_status_classificacao s) as [st|]; simpl in Hw.
    + destruct (st =? "desconhecido") eqn:E.
      * apply String.eqb_eq in E. left. f_equal. exact E.
      * destruct (st_categoria_sugerida_id s); [discriminate | right; reflexivity].
    + destruct (st_categoria_sugerida_id s); [discriminate | right; reflexivity].
Qed.

(** X16.  A classifier pass ended with Aplicar sends at most fifty rows,
    all of the tenant and batch shown and each of status desconhecido or
    without a category.  It then sets origem_sugestao to ia and
    status_classificacao to sugerido on the rows with the ids sent and
    changes nothing else: no other row, no other column (the suggested
    category is not stored), and no other table. *)
Theorem usar_ia_aplicado :
  forall (m m' : mundo) (logs logs' : list log_atividade_row)
         (codigoempresa : string) (importacao_id : Z) (agora : string),
    _usar_ia m logs codigoempresa (Some importacao_id) true agora
    = (m', logs', IaAplicado) ->
    let enviadas := select_desconhecidos (disco m) codigoempresa importacao_id in
    enviadas <> [] /\
    (List.length enviadas <= 50)%nat /\
    Forall (candidata_ia codigoempresa importacao_id) enviadas /\
    staging_transacoes_import (disco m')
    = map (fun s => if existsb (Z.eqb (st_id s)) (map st_id enviadas)
                    then marcar_ia s else s)
          (staging_transacoes_import (disco m)) /\
    importacoes_extrato (disco m') = importacoes_extrato (disco m) /\
    transactions (disco m') = transactions (disco m) /\
    regras_auto_categorizacao (disco m')
    = regras_auto_categorizacao (disco m) /\
    List.length logs' = S (List.length logs).
Proof.
  intros m m' logs logs' emp imp agora. unfold _usar_ia, get_connection.
  destruct (imp =? 0)%Z; [discriminate|].
  destruct (select_desconhecidos_candidatas (disco m) emp imp) as [Hlen Hcand].
  destruct (select_desconhecidos (disco m) emp imp) as [|s0 ss];
    [discriminate|].
  assert (Hids : map id_staging (map item_de_staging (s0 :: ss))
                 = map st_id (s0 :: ss)).
  { rewrite map_map. reflexivity. }
  remember (map item_de_staging (s0 :: ss)) as itens eqn:Hit.
  destruct itens as [|i0 is0]; [discriminate Hit|].
  pose proof (classificar_lote_resultado logs emp (i0 :: is0) agora) as Hcl.
  pose proof (classificar_lote_registra_log logs emp (i0 :: is0) agora) as Hlog.
  destruct (classificar_transacoes_em_lote logs emp (i0 :: is0) agora)
    as [logs1 res].
  cbv zeta in Hcl, Hlog. cbn [fst snd] in Hcl, Hlog.
  destruct Hlog as [row [Hlogs _]].
  destruct Hcl as (Hkeys & _).
  rewrite Hids in Hkeys.
  intros [= <- <-].
  rewrite update_origem_ia_laco. unfold commit. cbn [disco].
  split; [discriminate|].
  split; [exact Hlen|].
  split; [eapply Forall_impl; [|exact Hcand]; intros s [_ Hs]; exact Hs|].
  split.
  - cbn [staging_transacoes_import com_staging].
    apply map_ext. intros s.
    replace (existsb (Z.eqb (st_id s)) (dict_keys res))
      with (existsb (Z.eqb (st_id s)) (map st_id (s0 :: ss))); [reflexivity|].
    apply Bool.eq_true_iff_eq. rewrite !existsb_exists.
    split; intros [k [Hin Hk]]; exists k; (split; [|exact Hk]);
      apply Hkeys; exact Hin.
  - repeat split. rewrite Hlogs, length_app. simpl. lia.
Qed.

(** X17.  Whatever the pass ends with other than Aplicar, the database is
    as before; the stub's log row is written as soon as rows were sent,
    also when the review dialog is dismissed. *)
Theorem usar_ia_sem_aplicar :
  forall (m : mundo) (logs : list log_atividade_row) (codigoempresa : string)
         (self_importacao_id : option Z) (aceito : bool) (agora : string),
    let '(m', logs', fim) :=
      _usar_ia m logs codigoempresa self_importacao_id aceito agora in
    match fim with
    | IaAplicado => aceito = true
    | IaNaoAplicado =>
        m' = m /\ aceito = false /\ List.length logs' = S (List.length logs)
    | IaNadaParaEnviar | IaNenhumaImportacaoCarregada =>
        m' = m /\ logs' = logs
    end.
Proof.
  intros m logs emp sid aceito agora. unfold _usar_ia, get_connection.
  destruct sid as [imp|]; [|auto].
  destruct (imp =? 0)%Z; [auto|].
  destruct (map item_de_staging (select_desconhecidos (disco m) emp imp))
    as [|i0 is0] eqn:Hit; [auto|].
  pose proof (classificar_lote_registra_log logs emp (i0 :: is0) agora) as Hlog.
  destruct (classificar_transacoes_em_lote logs emp (i0 :: is0) agora)
    as [logs1 res].
  simpl in Hlog. destruct Hlog as [row [-> _]].
  destruct aceito; [reflexivity|].
  repeat split. rewrite length_app. simpl. lia.
Qed.

Lemma usar_ia_aplicado_witness :
  let r := _usar_ia Casos.banco_um_em_staging [] "E1" (Some 1%Z) true
             "2024-03-10 09:03:00" in
  let m' := fst (fst r) in
  map (fun s => (st_id s, st_origem_sugestao s, st_status_classificacao s,
                 st_categoria_sugerida_id s))
      (staging_transacoes_import (disco m'))
  = [(1%Z, Some "ia", Some "sugerido", None)] /\
  staging_transacoes_import (disco m')
  = map (fun s => if existsb (Z.eqb (st_id s))
                       (map st_id (select_desconhecidos
                                     (disco Casos.banco_um_em_staging) "E1" 1))
                  then marcar_ia s else s)
        (staging_transacoes_import (disco Casos.banco_um_em_staging)).
Proof.
  intros r m'. split; [reflexivity|].
  refine (proj1 (proj2 (proj2 (proj2
            (@usar_ia_aplicado Casos.banco_um_em_staging m' [] (snd (fst r))
               "E1" 1%Z "2024-03-10 09:03:00" _))))).
  reflexivity.
Defined.

(** ** The ledger functions of the transactions screen *)

Lemma com_transactions_mesma (conn : db) :
  com_transactions conn (transactions conn) = conn.
Proof.
  destruct conn; reflexivity.
Qed.

Lemma criar_transacao_casos :
  forall (m : mundo) (codigoempresa : string) (conta_id : Z)
         (data_lancamento descricao_extrato : string)
         (descricao_tratada : option string) (v : Q)
         (categoria_id centro_custo_id : option Z)
         (forma_pagamento : option string) (agora : string),
    (exists m' t,
        criar_transacao m codigoempresa conta_id data_lancamento
          descricao_extrato descricao_tratada (Some v) categoria_id
          centro_custo_id forma_pagamento agora = (m', Ok tt) /\
        transactions (disco m') = transactions (disco m) ++ [t] /\
        staging_transacoes_import (disco m')
        = staging_transacoes_import (disco m) /\
        t_codigoempresa t = SText codigoempresa /\
        t_conta_id t = SInt conta_id /\
        t_data_lancamento t = SText data_lancamento /\
        t_data_competencia t = SText data_lancamento /\
        t_descricao_extrato t = SText descricao_extrato /\
        t_valor t = SReal v /\
        t_tipo_movimento t
        = SText (if Qlt_le_dec 0 v then "credito" else "debito") /\
        t_conciliado t = SInt 0 /\
        t_id_importacao t = SNull /\
        (forall t0, In t0 (transactions (disco m)) -> (t_id t0 < t_id t)%Z)) /\
    criar_transacao m codigoempresa conta_id data_lancamento descricao_extrato
      descricao_tratada None categoria_id centro_custo_id forma_pagamento agora
    = (m, Erro (IntegrityError "NOT NULL constraint failed")).
Proof.
  intros m emp conta data desc dt v cat cc forma agora.
  split; [|reflexivity].
  unfold criar_transacao, get_connection. simpl.
  do 2 eexists. split; [reflexivity|]. simpl.
  repeat split.
  - f_equal. destruct (Qlt_le_dec 0 v) as [Hlt|Hle].
    + apply maior_que_zero_spec in Hlt. rewrite Hlt. reflexivity.
    + destruct (maior_que_zero v) eqn:E; [|reflexivity].
      apply maior_que_zero_spec in E. exfalso. exact (Qlt_not_le _ _ E Hle).
  - intros t0 Ht0. apply (proximo_id_maior t_id _ _ Ht0).
Qed.


(** X19.  A transaction stored by [criar_transacao] is what the import's
    duplicate test looks for: a statement line with the same date, amount
    and description, imported for the same tenant and account, is a
    duplicate from then on. *)
Theorem criar_transacao_torna_linha_duplicada :
  forall (m : mundo) (codigoempresa : string) (conta_id : Z)
         (data_lancamento descricao_extrato : string)
         (descricao_tratada : option string) (v : Q)
         (categoria_id centro_custo_id : option Z)
         (forma_pagamento : option string) (agora : string) (l : linha),
    l_data l = Some data_lancamento ->
    ou_vazio (l_descricao l) = descricao_extrato ->
    valor_da_linha l = v ->
    duplicada
      (disco (fst (criar_transacao m codigoempresa conta_id data_lancamento
                     descricao_extrato descricao_tratada (Some v) categoria_id
                     centro_custo_id forma_pagamento agora)))
      codigoempresa conta_id l = true.
Proof.
  intros m emp conta data desc dt v cat cc forma agora l Hd Hdesc Hv.
  destruct (criar_transacao_casos m emp conta data desc dt v cat cc forma
              agora)
    as [(m' & t & -> & Ht & _ & Hemp & Hconta & Hdata & _ & Hdes & Hval & _) _].
  simpl fst. apply duplicada_true. exists t. split.
  - rewrite Ht. apply in_or_app. right. left. reflexivity.
  - unfold mesma_no_ledger.
    rewrite Hemp, Hconta, Hdata, Hval, Hdes, Hd, Hdesc, Hv. simpl.
    rewrite !String.eqb_refl, Z.eqb_refl.
    repeat split. f_equal. apply Qeq_bool_iff. reflexivity.
Qed.

Lemma criar_transacao_torna_linha_duplicada_witness :
  duplicada (disco (Casos.banco [] [])) "E1" 1 Casos.linha_pix = false /\
  duplicada
    (disco (fst (criar_transacao (Casos.banco [] []) "E1" 1 "2024-03-05"
                   "Pix recebido" None (Some 100%Q) None None None
                   "2024-03-06 10:00:00")))
    "E1" 1 Casos.linha_pix = true.
Proof.
  split; [reflexivity|].
  apply (@criar_transacao_torna_linha_duplicada (Casos.banco [] []) "E1" 1%Z
           "2024-03-05" "Pix recebido" None 100%Q None None None
           "2024-03-06 10:00:00" Casos.linha_pix); reflexivity.
Defined.

(** X20.  Deleting the transaction just created undoes the creation in
    the tables: [criar_transacao] appends one row whose id no other row has,
    and [excluir_transacao] with that id leaves the ledger with the rows it
    had before the creation, the other tables being untouched by both.  The
    counter that AUTOINCREMENT keeps in sqlite_sequence is no part of
    [db], and the statement says nothing of it. *)
Theorem excluir_desfaz_criar :
  forall (m : mundo) (codigoempresa : string) (conta_id : Z)
         (data_lancamento descricao_extrato : string)
         (descricao_tratada : option string) (v : Q)
         (categoria_id centro_custo_id : option Z)
         (forma_pagamento : option string) (agora : string),
    let m' := fst (criar_transacao m codigoempresa conta_id data_lancamento
                     descricao_extrato descricao_tratada (Some v) categoria_id
                     centro_custo_id forma_pagamento agora) in
    exists t : transacao,
      transactions (disco m') = transactions (disco m) ++ [t] /\
      (forall t', In t' (transactions (disco m)) -> t_id t' <> t_id t) /\
      let m'' := excluir_transacao m' (t_id t) in
      transactions (disco m'') = transactions (disco m) /\
      staging_transacoes_import (disco m'')
      = staging_transacoes_import (disco m) /\
      importacoes_extrato (disco m'') = importacoes_extrato (disco m) /\
      regras_auto_categorizacao (disco m'')
      = regras_auto_categorizacao (disco m).
Proof.
  intros m emp conta data desc dt v cat cc forma agora m'. subst m'.
  unfold criar_transacao, get_connection. simpl.
  eexists. split; [reflexivity|].
  assert (Hfresh : forall t', In t' (transactions (disco m)) ->
                     t_id t' <> proximo_id t_id (transactions (disco m))).
  { intros t' Ht'. pose proof (proximo_id_maior t_id _ _ Ht'). lia. }
  split; [exact Hfresh|].
  unfold excluir_transacao, get_connection, commit, com_transactions.
  simpl. rewrite filter_app. simpl. rewrite Z.eqb_refl. simpl.
  rewrite app_nil_r.
  repeat split.
  apply forallb_filter_id, forallb_forall. intros t Ht.
  apply negb_true_iff, Z.eqb_neq, Hfresh, Ht.
Qed.

(** [excluir_transacao] removes the ledger rows with the given id
    and keeps every other row, in order; staging, batches and rules are not
    touched, and an id that is not in the ledger changes nothing. *)
Theorem excluir_transacao_so_o_id :
  forall (m : mundo) (transacao_id : Z),
    let m' := excluir_transacao m transacao_id in
    (forall t, In t (transactions (disco m')) <->
               In t (transactions (disco m)) /\ t_id t <> transacao_id) /\
    staging_transacoes_import (disco m') = staging_transacoes_import (disco m) /\
    importacoes_extrato (disco m') = importacoes_extrato (disco m) /\
    regras_auto_categorizacao (disco m') = regras_auto_categorizacao (disco m) /\
    ((forall t, In t (transactions (disco m)) -> t_id t <> transacao_id) ->
     disco m' = disco m).
Proof.
  intros m id m'. subst m'.
  unfold excluir_transacao, get_connection, commit. simpl.
  repeat split.
  - apply filter_In in H. tauto.
  - apply filter_In in H as [_ Hne]. apply negb_true_iff, Z.eqb_neq in Hne.
    exact Hne.
  - intros [Hin Hne]. apply filter_In. split; [exact Hin|].
    apply negb_true_iff, Z.eqb_neq, Hne.
  - intros Hnone.
    replace (filter _ (transactions (disco m))) with (transactions (disco m)).
    + apply com_transactions_mesma.
    + symmetry. apply forallb_filter_id, forallb_forall. intros t Ht.
      apply negb_true_iff, Z.eqb_neq, Hnone, Ht.
Qed.


(** A credit edited to a negative amount stays a credit. *)
Example editar_valor_nao_muda_tipo :
  map (fun t => (t_valor t, t_tipo_movimento t))
      (transactions
         (disco (editar_transacao
                   (Casos.banco [] [Casos.transacao_pix (SText "2024-03-05")])
                   1 None None None (Some (-100)%Q) None None
                   "2024-03-07 08:00:00")))
  = [(SReal (-100), SText "credito")].
Proof.
  reflexivity.
Qed.

(** ** The uniqueness hash *)

Lemma append_assoc_str (a b c : string) : ((a ++ b) ++ c)%string = (a ++ (b ++ c))%string.
Proof.
  induction a as [|x a IH]; simpl; [reflexivity|]. rewrite IH. reflexivity.
Qed.

(** X22.  [make_hash_unique] joins its parts with a bar and hashes the
    joined text, so it does not tell where one part ends: moving a bar
    and the text after it from the end of one part to the start of the next
    gives the same hash, whatever the hash function. *)
Theorem make_hash_unique_nao_separa_partes :
  forall (sha256_hexdigest : string -> string) (antes : list string)
         (a b c : string) (depois : list string),
    make_hash_unique sha256_hexdigest
      (antes ++ (a ++ "|" ++ b)%string :: c :: depois)
    = make_hash_unique sha256_hexdigest
        (antes ++ a :: (b ++ "|" ++ c)%string :: depois).
Proof.
  intros sha antes a b c depois. unfold make_hash_unique. f_equal.
  induction antes as [|x xs IH].
  - destruct depois as [|d ds]; simpl; rewrite ?append_assoc_str; reflexivity.
  - simpl app.
    assert (Hc : forall y ys, String.concat "|" (x :: y :: ys)
                              = (x ++ "|" ++ String.concat "|" (y :: ys))%string)
      by reflexivity.
    destruct xs as [|y ys].
    + simpl app in *. rewrite !Hc, IH. reflexivity.
    + simpl app in *. rewrite !Hc, IH. reflexivity.
Qed.
